(** * ExplorIR CO2 sensor driver (explorir.c / explorir.h)

    A shallow embedding of the driver: the handler record, the response
    scanner [explorir_process_response], the command builders that transmit
    a frame through the [explorir_tx] callback and then run the scanner, the
    initialisation sequence and the bounded wait.

    Conventions of the embedding.
    - A byte ([uint8_t], [char]) is a [Z] in 0..255; a frame or a buffer is a
      [list Z].  Fixed-width unsigned integers are [Z] with the wrap-around
      of each assignment written out ([wrap16], [wrap32]).
    - An access outside an array or object is not given a value.  A call is
      followed up to its first such access, and the fault that ends it
      there names the access and carries the state as it is at that point.
      What the compiled code does from there on depends on what lies
      behind the array in memory, differs between builds and is not
      described: a fault says where a call leaves its arrays, not that it
      never returns.  The loops of the source that need not terminate take
      a [fuel] argument; only a run that is out of fuel for every [fuel]
      is one that does not end. *)

From Stdlib Require Import String Ascii ZArith List Bool Lia.
Import ListNotations.
Local Open Scope Z_scope.

(** ** Bytes and frames *)

Definition byte_of_ascii (c : ascii) : Z := Z.of_N (N_of_ascii c).

Definition bytes (s : string) : list Z :=
  map byte_of_ascii (list_ascii_of_string s).

Definition CR : Z := 13.
Definition LF : Z := 10.
Definition NUL : Z := 0.

(** [msg[n] = v] on an array held as a list, for [n] inside the array (the
    builders below never write outside theirs). *)
Definition store (msg : list Z) (n : nat) (v : Z) : list Z :=
  firstn n msg ++ v :: skipn (S n) msg.

Definition wrap8 (z : Z) : Z := z mod 2 ^ 8.
Definition wrap16 (z : Z) : Z := z mod 2 ^ 16.
Definition wrap32 (z : Z) : Z := z mod 2 ^ 32.

(** ** explorir.h *)

Definition UART_TX_BUF_SIZE : Z := 128.
Definition UART_RX_BUF_SIZE : Z := 128.
Definition RESPONSE_TIMEOUT : Z := 0x989680.

Definition SET_DIGITAL_FILTER : Z := Eval cbv in byte_of_ascii "A".
Definition GET_DIGITAL_FILTER : Z := Eval cbv in byte_of_ascii "a".
Definition FINE_TUNE_ZERO_POINT : Z := Eval cbv in byte_of_ascii "F".
Definition SET_ZERO_POINT_USING_FRESH_AIR : Z := Eval cbv in byte_of_ascii "G".
Definition OPERATION_MODE : Z := Eval cbv in byte_of_ascii "K".
Definition SET_PRESSURE_AND_CONCENTRATION_COMPENSATION : Z :=
  Eval cbv in byte_of_ascii "S".
Definition GET_PRESSURE_AND_CONCENTRATION_COMPENSATION : Z :=
  Eval cbv in byte_of_ascii "s".
Definition SET_ZERO_POINT_USING_NITROGEN : Z := Eval cbv in byte_of_ascii "U".
Definition MANUALLY_SET_ZERO_POINT : Z := Eval cbv in byte_of_ascii "u".
Definition SET_ZERO_POINT_USING_KNOWN_GAS : Z := Eval cbv in byte_of_ascii "X".
Definition FILTERED_CO2_MEASUREMENT : Z := Eval cbv in byte_of_ascii "Z".
Definition UNFILTERED_CO2_MEASUREMENT : Z := Eval cbv in byte_of_ascii "z".
Definition SCALING_FACTOR : Z := Eval cbv in byte_of_ascii ".".
Definition TERMINATE : Z := LF.
Definition SPACE : Z := Eval cbv in byte_of_ascii " ".

Definition MAX_DIGITAL_FILTER : Z := 65365.
Definition MIN_DIGITAL_FILTER : Z := 0.
Definition DIGITAL_FILTER_DEFAULT : Z := 16.

(** [explorir_mode_t] is a C enum: any [int] can be passed for it and the
    scanner stores the result of [atoi] in a field of that type, so it is
    kept as its integer value. *)
Definition EXPLORIR_MODE_COMMAND : Z := 0.
Definition EXPLORIR_MODE_STREAMING : Z := 1.
Definition EXPLORIR_MODE_POLLING : Z := 2.
Definition EXPLORIR_MODE_DEFAULT : Z := EXPLORIR_MODE_COMMAND.

Inductive explorir_retcode_t : Type :=
| EXPLORIR_ERR_INVALID_MODE
| EXPLORIR_ERR_TIMEOUT
| EXPLORIR_ERR_UNRECOGNIZED_COMMAND
| EXPLORIR_ERR_INVALID_INPUT
| EXPLORIR_SUCCESS.

(** The handler, without its [explorir_tx] callback: what the callback is
    given is recorded in the [sent] log of the [world] below. *)
Record explorir_handler_t : Type := mkHandler {
  explorir_data : list Z;
  err_code : explorir_retcode_t;
  scaling_factor : Z;
  current_filtered_co2 : Z;
  current_unfiltered_co2 : Z;
  digital_filter : Z;
  zero_point : Z;
  pressure_and_concentration_compensation : Z;
  current_mode : Z
}.

Definition set_explorir_data (h : explorir_handler_t) (d : list Z) :=
  mkHandler d (err_code h) (scaling_factor h) (current_filtered_co2 h)
    (current_unfiltered_co2 h) (digital_filter h) (zero_point h)
    (pressure_and_concentration_compensation h) (current_mode h).

Definition set_err_code (h : explorir_handler_t) (e : explorir_retcode_t) :=
  mkHandler (explorir_data h) e (scaling_factor h) (current_filtered_co2 h)
    (current_unfiltered_co2 h) (digital_filter h) (zero_point h)
    (pressure_and_concentration_compensation h) (current_mode h).

Definition set_scaling_factor (h : explorir_handler_t) (v : Z) :=
  mkHandler (explorir_data h) (err_code h) v (current_filtered_co2 h)
    (current_unfiltered_co2 h) (digital_filter h) (zero_point h)
    (pressure_and_concentration_compensation h) (current_mode h).

Definition set_current_filtered_co2 (h : explorir_handler_t) (v : Z) :=
  mkHandler (explorir_data h) (err_code h) (scaling_factor h) v
    (current_unfiltered_co2 h) (digital_filter h) (zero_point h)
    (pressure_and_concentration_compensation h) (current_mode h).

Definition set_current_unfiltered_co2 (h : explorir_handler_t) (v : Z) :=
  mkHandler (explorir_data h) (err_code h) (scaling_factor h)
    (current_filtered_co2 h) v (digital_filter h) (zero_point h)
    (pressure_and_concentration_compensation h) (current_mode h).

Definition set_digital_filter (h : explorir_handler_t) (v : Z) :=
  mkHandler (explorir_data h) (err_code h) (scaling_factor h)
    (current_filtered_co2 h) (current_unfiltered_co2 h) v (zero_point h)
    (pressure_and_concentration_compensation h) (current_mode h).

Definition set_zero_point (h : explorir_handler_t) (v : Z) :=
  mkHandler (explorir_data h) (err_code h) (scaling_factor h)
    (current_filtered_co2 h) (current_unfiltered_co2 h) (digital_filter h) v
    (pressure_and_concentration_compensation h) (current_mode h).

Definition set_pressure_and_concentration_compensation
    (h : explorir_handler_t) (v : Z) :=
  mkHandler (explorir_data h) (err_code h) (scaling_factor h)
    (current_filtered_co2 h) (current_unfiltered_co2 h) (digital_filter h)
    (zero_point h) v (current_mode h).

Definition set_current_mode (h : explorir_handler_t) (v : Z) :=
  mkHandler (explorir_data h) (err_code h) (scaling_factor h)
    (current_filtered_co2 h) (current_unfiltered_co2 h) (digital_filter h)
    (zero_point h) (pressure_and_concentration_compensation h) v.

(** ** atoi on the scanner's five-byte field

    [atoi] skips white space, takes an optional sign and then decimal
    digits, and stops at the first other byte.  The scanner calls it on a
    local [uint8_t x[5]] that [memcpy] has filled completely, so there is no
    terminating NUL of the array's own: when none of the five bytes stops
    the conversion, [atoi] goes on reading after the array, which is the
    [None] of these functions. *)

Definition isspace (c : Z) : bool :=
  (c =? 32) || ((9 <=? c) && (c <=? 13)).

Definition isdigit (c : Z) : bool := (48 <=? c) && (c <=? 57).

Fixpoint atoi_digits (s : list Z) (acc : Z) : option Z :=
  match s with
  | [] => None
  | c :: s' => if isdigit c then atoi_digits s' (10 * acc + (c - 48))
               else Some acc
  end.

Definition atoi_signed (s : list Z) : option Z :=
  match s with
  | [] => None
  | c :: s' =>
      if c =? 45 then option_map Z.opp (atoi_digits s' 0)
      else if c =? 43 then atoi_digits s' 0
      else atoi_digits s 0
  end.

Fixpoint atoi (s : list Z) : option Z :=
  match s with
  | [] => None
  | c :: s' => if isspace c then atoi s' else atoi_signed s
  end.

(** ** explorir_process_response *)

Inductive fault : Type :=
| PastBuffer (i : Z)   (* explorir_data[i] read with i beyond the array *)
| PastField            (* atoi left the five-byte local array *)
| PastChar             (* sprintf wrote after the one char it was given *)
| OutOfFuel.           (* the loop was still running when fuel ran out *)

Inductive outcome : Type :=
| Returned (h : explorir_handler_t)
| Faulted (f : fault) (h : explorir_handler_t).

Definition read (h : explorir_handler_t) (i : Z) : option Z :=
  nth_error (explorir_data h) (Z.to_nat i).

(** [while(explorir_data[i] == '0') i++;] started on the bytes from index
    [i] on: the index of the first byte that is not '0', or the index at
    which the read leaves the array. *)
Fixpoint skip_zeros (rest : list Z) (i : Z) : Z + Z :=
  match rest with
  | [] => inr i
  | c :: rest' => if c =? 48 then skip_zeros rest' (wrap16 (i + 1)) else inl i
  end.

Inductive field : Type :=
| Field (v : Z)
| FieldFault (f : fault).

(** The text shared by every tag's case: [i += 2], the leading zeros, the
    [memcpy] of five bytes and [atoi]. *)
Definition read_field (data : list Z) (i : Z) : field :=
  let i2 := wrap16 (i + 2) in
  match skip_zeros (skipn (Z.to_nat i2) data) i2 with
  | inr k => FieldFault (PastBuffer k)
  | inl j =>
      let local := firstn 5 (skipn (Z.to_nat j) data) in
      if (length local <? 5)%nat then
        FieldFault (PastBuffer (Z.of_nat (length data)))
      else match atoi local with
           | Some v => Field v
           | None => FieldFault PastField
           end
  end.

(** One pass through the [switch]: [Break] is the [break] that returns to
    the loop test with the new cursor, [EndWhile] the [goto EndWhile]. *)
Inductive step : Type :=
| Break (h : explorir_handler_t) (i : Z)
| EndWhile (h : explorir_handler_t)
| Trap (f : fault) (h : explorir_handler_t).

Definition with_field (h : explorir_handler_t) (i : Z)
    (k : Z -> step) : step :=
  match read_field (explorir_data h) i with
  | Field v => k v
  | FieldFault f => Trap f h
  end.

Definition scan_case (h : explorir_handler_t) (i : Z) (c : Z) : step :=
  if c =? SCALING_FACTOR then
    with_field h i (fun v => EndWhile (set_scaling_factor h (wrap16 v)))
  else if c =? FILTERED_CO2_MEASUREMENT then
    with_field h i (fun v =>
      Break (set_current_filtered_co2 h (wrap32 (v * scaling_factor h))) 9)
  else if c =? UNFILTERED_CO2_MEASUREMENT then
    with_field h i (fun v =>
      EndWhile (set_current_unfiltered_co2 h (wrap32 (v * scaling_factor h))))
  else if c =? OPERATION_MODE then
    with_field h i (fun v => EndWhile (set_current_mode h v))
  else if (c =? SET_DIGITAL_FILTER) || (c =? GET_DIGITAL_FILTER) then
    with_field h i (fun v => EndWhile (set_digital_filter h (wrap32 v)))
  else if (c =? FINE_TUNE_ZERO_POINT) || (c =? SET_ZERO_POINT_USING_FRESH_AIR)
          || (c =? SET_ZERO_POINT_USING_KNOWN_GAS)
          || (c =? SET_ZERO_POINT_USING_NITROGEN)
          || (c =? MANUALLY_SET_ZERO_POINT) then
    with_field h i (fun v => EndWhile (set_zero_point h (wrap32 v)))
  else if (c =? SET_PRESSURE_AND_CONCENTRATION_COMPENSATION)
          || (c =? GET_PRESSURE_AND_CONCENTRATION_COMPENSATION) then
    with_field h i (fun v =>
      EndWhile (set_pressure_and_concentration_compensation h (wrap32 v)))
  else if c =? SPACE then Break h (wrap16 (i + 1))
  else Break h (wrap16 (i + 1)).

(** The [while] loop; one unit of fuel per evaluation of its test. *)
Fixpoint scan (fuel : nat) (h : explorir_handler_t) (i : Z) : outcome :=
  match fuel with
  | O => Faulted OutOfFuel h
  | S fuel' =>
      match read h i with
      | None => Faulted (PastBuffer i) h
      | Some c =>
          if c =? TERMINATE then Returned h
          else match scan_case h i c with
               | Break h' i' => scan fuel' h' i'
               | EndWhile h' => Returned h'
               | Trap f h' => Faulted f h'
               end
      end
  end.

(** [memset(explorir_data, 0, sizeof(explorir_data))] *)
Definition clear_data (h : explorir_handler_t) : explorir_handler_t :=
  set_explorir_data h (repeat 0 (Z.to_nat UART_RX_BUF_SIZE)).

Definition explorir_process_response (fuel : nat) (h : explorir_handler_t)
    : outcome :=
  match scan fuel h 0 with
  | Returned h' => Returned (clear_data h')
  | Faulted f h' => Faulted f h'
  end.

(** Receive buffers for examples: a reply followed by zero bytes. *)
Definition CRLF : list Z := [CR; LF].

Definition buffer_of (reply : list Z) : list Z :=
  reply ++ repeat 0 (Z.to_nat UART_RX_BUF_SIZE - length reply).

Definition fresh_handler (data : list Z) (s : Z) : explorir_handler_t :=
  mkHandler data EXPLORIR_SUCCESS s 0 0 0 0 0 0.

(** ** The session

    The driver's surroundings: the frames handed to the [explorir_tx]
    callback, the replies that the UART event handler copies into the
    receive buffer with [explorir_update_data], and the global flag
    [explorir_complete_uart_rx]. *)

Record world : Type := mkWorld {
  handler : explorir_handler_t;
  sent : list (list Z);   (* frames given to explorir_tx, oldest first *)
  scans : nat;            (* calls of explorir_process_response so far *)
  explorir_complete_uart_rx : bool
}.

Definition set_handler (w : world) (h : explorir_handler_t) : world :=
  mkWorld h (sent w) (scans w) (explorir_complete_uart_rx w).

Inductive result (A : Type) : Type :=
| Ok (a : A) (w : world)
| Abort (f : fault) (w : world).
Arguments Ok {A} a w.
Arguments Abort {A} f w.

Definition world_of {A : Type} (r : result A) : world :=
  match r with Ok _ w => w | Abort _ w => w end.

Definition session (A : Type) : Type := world -> result A.

Definition ret {A : Type} (a : A) : session A := fun w => Ok a w.

Definition bind {A B : Type} (m : session A) (k : A -> session B)
    : session B :=
  fun w => match m w with
           | Ok a w' => k a w'
           | Abort f w' => Abort f w'
           end.

Notation "x <- m ;; k" := (bind m (fun x => k))
  (at level 61, m at next level, right associativity).
Notation "m ;; k" := (bind m (fun _ => k))
  (at level 61, right associativity).

(** [explorir_handler->explorir_tx(msg, size)] *)
Definition explorir_tx (msg : list Z) (size : Z) : session unit :=
  fun w => Ok tt (mkWorld (handler w) (sent w ++ [firstn (Z.to_nat size) msg])
                    (scans w) (explorir_complete_uart_rx w)).

(** [return explorir_handler->err_code;] *)
Definition return_err_code : session explorir_retcode_t :=
  fun w => Ok (err_code (handler w)) w.

Definition modify (f : explorir_handler_t -> explorir_handler_t)
    : session unit :=
  fun w => Ok tt (set_handler w (f (handler w))).

(** [memcpy(explorir_data, p_response, size)] with [size] the length of the
    response; a response longer than the buffer is written past its end. *)
Definition explorir_update_data (p_response : list Z)
    (h : explorir_handler_t) : outcome :=
  if (Z.of_nat (length p_response) <=? UART_RX_BUF_SIZE) then
    Returned (set_explorir_data h
                (p_response ++ skipn (length p_response) (explorir_data h)))
  else Faulted (PastBuffer UART_RX_BUF_SIZE) h.

(** [sprintf(buf, "%d", n)]: the characters written before the NUL. *)
Fixpoint decimal (fuel : nat) (n : Z) : list Z :=
  match fuel with
  | O => []
  | S fuel' => if n <? 10 then [48 + n]
               else decimal fuel' (n / 10) ++ [48 + n mod 10]
  end.

Definition sprintf_d (n : Z) : list Z :=
  if n <? 0 then 45 :: decimal 10 (- n) else decimal 10 n.

(** [sprintf(&c, "%d", n)] with [c] a single [char]: the character written
    when it and the NUL after it fit into the one byte, [None] when
    [sprintf] writes after [c].  The digits of a number are never empty, so
    that the NUL alone is never all there is to write. *)
Definition sprintf_char (n : Z) : option Z :=
  match sprintf_d n with
  | [] => Some NUL
  | _ :: _ => None
  end.

(** The lines under "compile message", the same in each function that
    sends a decimal argument: the tag, a space, the [str_size] characters of
    [buf], and the terminator in the last two bytes. *)
Definition compile_message (tag : Z) (buf : list Z) (str_size msg_size : Z)
    : list Z :=
  let msg := repeat 0 (Z.to_nat msg_size) in
  let msg := store msg 0 tag in
  let msg := store msg 1 (byte_of_ascii " ") in
  let msg := fold_left (fun m i => store m (i + 2) (nth i buf 0))
               (seq 0 (Z.to_nat str_size)) msg in
  let msg := store msg (Z.to_nat (msg_size - 2)) CR in
  store msg (Z.to_nat (msg_size - 1)) LF.

Section Session.

(** [rx k] is the response, if any, that the UART event handler has copied
    into the receive buffer when the scanner is called for the [k]-th time;
    [irq k] tells whether the handler has raised the completion flag when
    [explorir_wait_for_response] tests it for the [k]-th time. *)
Variable fuel : nat.
Variable rx : nat -> option (list Z).
Variable irq : nat -> bool.

(** [explorir_process_response(explorir_handler)] as the operations call it:
    on the receive buffer as the transport has left it. *)
Definition process_response : session unit :=
  fun w =>
    let count (h : explorir_handler_t) :=
      mkWorld h (sent w) (S (scans w)) (explorir_complete_uart_rx w) in
    let arrived := match rx (scans w) with
                   | Some p => explorir_update_data p (handler w)
                   | None => Returned (handler w)
                   end in
    match arrived with
    | Faulted f h => Abort f (count h)
    | Returned h =>
        match explorir_process_response fuel h with
        | Returned h' => Ok tt (count h')
        | Faulted f h' => Abort f (count h')
        end
    end.

Definition explorir_request_filtered_co2 : session explorir_retcode_t :=
  let msg := bytes "Z" ++ CRLF ++ [NUL] in
  explorir_tx msg 3 ;;
  process_response ;;
  return_err_code.

Definition explorir_get_filtered_co2 (h : explorir_handler_t) : Z :=
  current_filtered_co2 h.

Definition explorir_request_unfiltered_co2 : session explorir_retcode_t :=
  let msg := bytes "z" ++ CRLF ++ [NUL] in
  explorir_tx msg 3 ;;
  process_response ;;
  return_err_code.

Definition explorir_get_unfiltered_co2 (h : explorir_handler_t) : Z :=
  current_unfiltered_co2 h.

Definition explorir_request_scaling_factor : session explorir_retcode_t :=
  let msg := bytes "." ++ CRLF ++ [NUL] in
  explorir_tx msg 3 ;;
  process_response ;;
  return_err_code.

Definition explorir_set_operation_mode (mode : Z)
    : session explorir_retcode_t :=
  let msg := bytes "K x" ++ CRLF ++ [NUL] in
  let send (digit : Z) :=
    explorir_tx (store msg 2 digit) 5 ;;
    process_response ;;
    return_err_code in
  if mode =? EXPLORIR_MODE_STREAMING then send (byte_of_ascii "1")
  else if mode =? EXPLORIR_MODE_POLLING then send (byte_of_ascii "2")
  else if mode =? EXPLORIR_MODE_COMMAND then send (byte_of_ascii "0")
  else ret EXPLORIR_ERR_INVALID_MODE.

(** [filter] is a [uint16_t].  [msg] is a variable-length array: its bytes
    are indeterminate until they are assigned, and are zeros here. *)
Definition explorir_set_digital_filter (filter : Z)
    : session explorir_retcode_t :=
  if (MAX_DIGITAL_FILTER <? filter) || (filter <? MIN_DIGITAL_FILTER) then
    ret EXPLORIR_ERR_INVALID_INPUT
  else
    let buf := sprintf_d filter ++ [NUL] in
    let str_size := wrap8 (Z.of_nat (length (sprintf_d filter))) in
    let msg_size := wrap8 (4 + str_size) in
    let msg := compile_message (byte_of_ascii "A") buf str_size msg_size in
    explorir_tx msg msg_size ;;
    process_response ;;
    return_err_code.

Definition explorir_request_digital_filter : session explorir_retcode_t :=
  let msg := bytes "a" ++ CRLF ++ [NUL] in
  explorir_tx msg 3 ;;
  process_response ;;
  return_err_code.

(** The lines of explorir_set_auto_zero_intervals from the declaration of
    [msg] on, with what [initial_char] and [regular_char] hold when they
    are reached. *)
Definition auto_zero_intervals_send (initial_char regular_char : Z)
    : session explorir_retcode_t :=
  let msg := bytes "@ x.0 x.0" ++ CRLF ++ [NUL] in
  let msg := store msg 2 initial_char in
  let msg := store msg 6 regular_char in
  explorir_tx msg 10 ;;
  process_response ;;
  return_err_code.

(** [initial] and [regular] are [uint8_t].  Each of the two [sprintf] calls
    is given the address of a single [char]. *)
Definition explorir_set_auto_zero_intervals (initial regular : Z)
    : session explorir_retcode_t :=
  if (initial <? 0) || (9 <? initial) || (regular <? 0) || (9 <? regular) then
    ret EXPLORIR_ERR_INVALID_INPUT
  else
    fun w =>
      match sprintf_char initial with
      | None => Abort PastChar w
      | Some initial_char =>
          match sprintf_char regular with
          | None => Abort PastChar w
          | Some regular_char =>
              auto_zero_intervals_send initial_char regular_char w
          end
      end.

Definition explorir_request_pressure_and_concetration_compensation
    : session explorir_retcode_t :=
  let msg := bytes "s" ++ CRLF ++ [NUL] in
  explorir_tx msg 3 ;;
  process_response ;;
  return_err_code.

Definition explorir_set_output_data_all : session explorir_retcode_t :=
  let msg := bytes "M 00006" ++ CRLF ++ [NUL] in
  explorir_tx msg 9 ;;
  process_response ;;
  return_err_code.

Definition explorir_request_sensor_info : session explorir_retcode_t :=
  let msg := bytes "Y" ++ CRLF ++ [NUL] in
  explorir_tx msg 3 ;;
  process_response ;;
  process_response ;;
  return_err_code.

(** [explorir_handler->err_code = ...;] *)
Definition assign_err_code (r : explorir_retcode_t) : session unit :=
  modify (fun h => set_err_code h r).

Definition explorir_init : session unit :=
  r <- explorir_set_operation_mode EXPLORIR_MODE_COMMAND ;;
  assign_err_code r ;;
  r <- explorir_request_sensor_info ;;
  assign_err_code r ;;
  r <- explorir_request_scaling_factor ;;
  assign_err_code r ;;
  r <- explorir_set_digital_filter DIGITAL_FILTER_DEFAULT ;;
  assign_err_code r ;;
  r <- explorir_request_pressure_and_concetration_compensation ;;
  assign_err_code r ;;
  r <- explorir_set_output_data_all ;;
  assign_err_code r ;;
  r <- explorir_set_operation_mode EXPLORIR_MODE_DEFAULT ;;
  assign_err_code r ;;
  modify (fun h => set_current_mode h EXPLORIR_MODE_DEFAULT) ;;
  modify (fun h => set_current_filtered_co2 h 0) ;;
  modify (fun h => set_current_unfiltered_co2 h 0) ;;
  modify (fun h => set_digital_filter h DIGITAL_FILTER_DEFAULT).

(** The loop of [explorir_wait_for_response]: [Some true] when it leaves by
    the [break] of the time-out, [Some false] when the flag ends it. *)
Fixpoint wait_loop (n : nat) (timer : Z) (k : nat) (flag : bool)
    : option bool :=
  match n with
  | O => None
  | S n' =>
      if flag || irq k then Some false
      else if RESPONSE_TIMEOUT <=? timer then Some true
      else wait_loop n' (wrap32 (timer + 1)) (S k) flag
  end.

Definition explorir_wait_for_response : session unit :=
  fun w =>
    match wait_loop (S (S (Z.to_nat RESPONSE_TIMEOUT))) 0 0
            (explorir_complete_uart_rx w) with
    | None => Abort OutOfFuel w
    | Some timed_out =>
        let h := if timed_out
                 then set_err_code (handler w) EXPLORIR_ERR_TIMEOUT
                 else handler w in
        Ok tt (mkWorld h (sent w) (scans w) false)
    end.

End Session.

(** A world in which nothing has been sent or scanned yet. *)
Definition fresh_world (h : explorir_handler_t) : world :=
  mkWorld h [] 0 false.

(** ** The other operations of explorir.c *)

(** A [uint32_t] handed to [sprintf] for "%d" is printed as the [int] with
    the same 32 bits. *)
Definition int_of_uint32 (z : Z) : Z :=
  if z <? 2 ^ 31 then z else z - 2 ^ 32.

(** [sprintf(buf, "%d", n)] into [char buf[8]]: the characters written
    before the NUL, when they and the NUL fit into the eight bytes; [None]
    when [sprintf] writes past the end of [buf]. *)
Definition sprintf_buf8 (n : Z) : option (list Z) :=
  let chars := sprintf_d n in
  if (length chars <? 8)%nat then Some chars else None.

Section Commands.

Variable fuel : nat.
Variable rx : nat -> option (list Z).

(** The three setters whose message is still to be written in the source:
    they transmit nothing and go straight to the scanner. *)
Definition explorir_set_zero_point_using_known_reading (reported actual : Z)
    : session explorir_retcode_t :=
  process_response fuel rx ;;
  return_err_code.

Definition explorir_set_co2_for_auto_zeroing (co2_concentration : Z)
    : session explorir_retcode_t :=
  process_response fuel rx ;;
  return_err_code.

Definition explorir_set_co2_for_zero_point_in_fresh_air (co2_concentration : Z)
    : session explorir_retcode_t :=
  process_response fuel rx ;;
  return_err_code.

Definition explorir_set_zero_point_in_fresh_air
    : session explorir_retcode_t :=
  let msg := bytes "G" ++ CRLF ++ [NUL] in
  explorir_tx msg 3 ;;
  process_response fuel rx ;;
  return_err_code.

Definition explorir_set_zero_point_in_nitrogen : session explorir_retcode_t :=
  let msg := bytes "U" ++ CRLF ++ [NUL] in
  explorir_tx msg 3 ;;
  process_response fuel rx ;;
  return_err_code.

(** The body shared by the three setters that take a [uint32_t] and print
    it into [char buf[8]]: [None] when [sprintf] leaves [buf], before
    anything is transmitted. *)
Definition send_decimal (tag : Z) (value : Z)
    : world -> option (result explorir_retcode_t) :=
  fun w =>
    match sprintf_buf8 (int_of_uint32 value) with
    | None => None
    | Some chars =>
        let buf := chars ++ [NUL] in
        let str_size := wrap8 (Z.of_nat (length chars)) in
        let msg_size := wrap8 (4 + str_size) in
        let msg := compile_message tag buf str_size msg_size in
        Some ((explorir_tx msg msg_size ;;
               process_response fuel rx ;;
               return_err_code) w)
    end.

Definition explorir_set_zero_point_manually (zero_point : Z)
    : world -> option (result explorir_retcode_t) :=
  send_decimal (byte_of_ascii "u") zero_point.

Definition explorir_set_zero_point_using_known_co2 (co2_concentration : Z)
    : world -> option (result explorir_retcode_t) :=
  send_decimal (byte_of_ascii "X") co2_concentration.

Definition explorir_set_pressure_and_concentration_compensation (value : Z)
    : world -> option (result explorir_retcode_t) :=
  send_decimal (byte_of_ascii "S") value.

Definition explorir_disable_auto_zeroing : session explorir_retcode_t :=
  let msg := bytes "@ 0" ++ CRLF ++ [NUL] in
  explorir_tx msg 5 ;;
  process_response fuel rx ;;
  return_err_code.

Definition explorir_start_auto_zero : session explorir_retcode_t :=
  let msg := bytes "65222" ++ CRLF ++ [NUL] in
  explorir_tx msg 7 ;;
  process_response fuel rx ;;
  return_err_code.

Definition explorir_request_auto_zero_config : session explorir_retcode_t :=
  let msg := bytes "@" ++ CRLF ++ [NUL] in
  explorir_tx msg 3 ;;
  process_response fuel rx ;;
  return_err_code.

Definition explorir_set_output_data_filtered : session explorir_retcode_t :=
  let msg := bytes "M 00004" ++ CRLF ++ [NUL] in
  explorir_tx msg 9 ;;
  process_response fuel rx ;;
  return_err_code.

Definition explorir_set_output_data_unfiltered : session explorir_retcode_t :=
  let msg := bytes "M 00002" ++ CRLF ++ [NUL] in
  explorir_tx msg 9 ;;
  process_response fuel rx ;;
  return_err_code.

Definition explorir_request_output_data_fields : session explorir_retcode_t :=
  let msg := bytes "Q" ++ CRLF ++ [NUL] in
  explorir_tx msg 3 ;;
  process_response fuel rx ;;
  return_err_code.

End Commands.

(** ** Vocabulary of the statements *)

(** A run that was cut short by the fuel, as opposed to one that ended. *)
Definition out_of_fuel (o : outcome) : bool :=
  match o with Faulted OutOfFuel _ => true | _ => false end.

(** A reply with both readings: as the sensor frames it, with the 'z' at
    offset 9, and with the two fields packed together. *)
Definition combined_reply : list Z := bytes " Z 00100 z 00050" ++ CRLF.

(** What one loop iteration does at a byte [c] that the [switch] has a
    field case for, when the field is read, without fault, as [v]: the 'Z'
    case goes round the loop again from offset 9, every other case leaves
    the loop. *)
Definition continuation_policy (h : explorir_handler_t) (i c v : Z) : Prop :=
  (c = FILTERED_CO2_MEASUREMENT ->
     forall n, scan (S n) h i =
       scan n (set_current_filtered_co2 h (wrap32 (v * scaling_factor h))) 9)
  /\ (c = UNFILTERED_CO2_MEASUREMENT ->
     forall n, scan (S n) h i =
       Returned (set_current_unfiltered_co2 h (wrap32 (v * scaling_factor h))))
  /\ (c = SCALING_FACTOR ->
     forall n, scan (S n) h i = Returned (set_scaling_factor h (wrap16 v)))
  /\ (c = OPERATION_MODE ->
     forall n, scan (S n) h i = Returned (set_current_mode h v))
  /\ (c = SET_DIGITAL_FILTER \/ c = GET_DIGITAL_FILTER ->
     forall n, scan (S n) h i = Returned (set_digital_filter h (wrap32 v)))
  /\ (c = FINE_TUNE_ZERO_POINT \/ c = SET_ZERO_POINT_USING_FRESH_AIR \/
      c = SET_ZERO_POINT_USING_KNOWN_GAS \/ c = SET_ZERO_POINT_USING_NITROGEN \/
      c = MANUALLY_SET_ZERO_POINT ->
     forall n, scan (S n) h i = Returned (set_zero_point h (wrap32 v)))
  /\ (c = SET_PRESSURE_AND_CONCENTRATION_COMPENSATION \/
      c = GET_PRESSURE_AND_CONCENTRATION_COMPENSATION ->
     forall n, scan (S n) h i =
       Returned (set_pressure_and_concentration_compensation h (wrap32 v))).

(** The bytes that have a field case in the [switch]. *)
Definition is_tag (c : Z) : bool :=
  (c =? SCALING_FACTOR) || (c =? FILTERED_CO2_MEASUREMENT)
  || (c =? UNFILTERED_CO2_MEASUREMENT) || (c =? OPERATION_MODE)
  || (c =? SET_DIGITAL_FILTER) || (c =? GET_DIGITAL_FILTER)
  || (c =? FINE_TUNE_ZERO_POINT) || (c =? SET_ZERO_POINT_USING_FRESH_AIR)
  || (c =? SET_ZERO_POINT_USING_KNOWN_GAS)
  || (c =? SET_ZERO_POINT_USING_NITROGEN) || (c =? MANUALLY_SET_ZERO_POINT)
  || (c =? SET_PRESSURE_AND_CONCENTRATION_COMPENSATION)
  || (c =? GET_PRESSURE_AND_CONCENTRATION_COMPENSATION).

(** Which way the [switch] goes is decided by the buffer and the cursor,
    not by the other fields. *)
Inductive same_way : step -> step -> Prop :=
| same_break h1 h2 i :
    explorir_data h1 = explorir_data h2 -> same_way (Break h1 i) (Break h2 i)
| same_end h1 h2 : same_way (EndWhile h1) (EndWhile h2)
| same_trap f h1 h2 : same_way (Trap f h1) (Trap f h2).

(** The byte at index [q] is inside the buffer and is neither the
    terminator nor a tag: the loop steps over it. *)
Definition plain_at (h : explorir_handler_t) (q : Z) : Prop :=
  exists c, read h q = Some c /\ c <> TERMINATE /\ is_tag c = false.

(** Two filtered fields in one line: the second 'Z' is at offset 9. *)
Definition two_filtered_reply : list Z := bytes " Z 00100 Z 00200" ++ CRLF.

(** The five-character field of a reply: [v] in decimal, padded with '0'
    on the left. *)
Definition zero_pad5 (v : Z) : list Z :=
  [48 + v / 10000 mod 10; 48 + v / 1000 mod 10; 48 + v / 100 mod 10;
   48 + v / 10 mod 10; 48 + v mod 10].

(** "Z #####\r\n", and the same with the space that the sensor sends before
    the tag, which puts the line feed at offset 9. *)
Definition filtered_reply (v : Z) : list Z := bytes "Z " ++ zero_pad5 v ++ CRLF.
Definition spaced_filtered_reply (v : Z) : list Z :=
  bytes " Z " ++ zero_pad5 v ++ CRLF.

(** The field after the tag at index [i] is read, without fault, as [v]. *)
Definition field_is (data : list Z) (i v : Z) : bool :=
  match read_field data i with
  | Field x => x =? v
  | FieldFault _ => false
  end.

(** The integers [z], [z + 1], ..., [z + n - 1]. *)
Fixpoint zrange (n : nat) (z : Z) : list Z :=
  match n with
  | O => []
  | S n' => z :: zrange n' (z + 1)
  end.

(** The handler an outcome carries: the fields as they are where the scan
    stopped. *)
Definition final (o : outcome) : explorir_handler_t :=
  match o with Returned h => h | Faulted _ h => h end.

(** The number a string of decimal digits denotes. *)
Definition decimal_value (digits : list Z) : Z :=
  fold_left (fun acc c => 10 * acc + (c - 48)) digits 0.

(** [m], started in [w], returns, with a value and a world that satisfy
    [Q]. *)
Definition run_ok {A : Type} (m : session A) (w : world)
    (Q : A -> world -> Prop) : Prop :=
  exists a w', m w = Ok a w' /\ Q a w'.

(** A run that returned. *)
Definition is_returned (o : outcome) : bool :=
  match o with Returned _ => true | Faulted _ _ => false end.

(** The reply [p] fits the receive buffer and, in a buffer that was clear
    when it arrived, is one on which the scanner returns within [fuel]
    evaluations of its loop test.  Which way a scan goes is decided by the
    buffer alone, so that the other fields of the handler do not matter. *)
Definition returns_on (fuel : nat) (p : list Z) : bool :=
  (Z.of_nat (length p) <=? UART_RX_BUF_SIZE)
  && is_returned (explorir_process_response fuel
                    (fresh_handler (buffer_of p) 0)).

(** The [k]-th call of the scanner, made when the buffer holds nothing but
    the reply delivered for it, returns. *)
Definition scan_returns (fuel : nat) (rx : nat -> option (list Z))
    (k : nat) : Prop :=
  forall w, scans w = k ->
            explorir_data (handler w) = repeat 0 (Z.to_nat UART_RX_BUF_SIZE) ->
            exists w', process_response fuel rx w = Ok tt w'.

(** Where a run started in [w0] stands after it has sent [frames] and
    called the scanner [n] times: the status is the one stored at the
    start, and the buffer is clear. *)
Definition progressed (w0 : world) (frames : list (list Z)) (n : nat)
    (w : world) : Prop :=
  sent w = sent w0 ++ frames
  /\ scans w = (scans w0 + n)%nat
  /\ err_code (handler w) = err_code (handler w0)
  /\ explorir_data (handler w) = repeat 0 (Z.to_nat UART_RX_BUF_SIZE).

(** The frames of the initialisation sequence, in the order of its steps. *)
Definition init_frames : list (list Z) :=
  [bytes "K 0" ++ CRLF; bytes "Y" ++ CRLF; bytes "." ++ CRLF;
   bytes "A 16" ++ CRLF; bytes "s" ++ CRLF; bytes "M 00006" ++ CRLF;
   bytes "K 0" ++ CRLF].

(** ** Vocabulary of the further properties *)

(** The number of '0' bytes that [mid] starts with, when a byte that is not
    '0' follows them inside [mid]. *)
Fixpoint leading_zeros (mid : list Z) : option nat :=
  match mid with
  | [] => None
  | c :: mid' => if c =? 48 then option_map S (leading_zeros mid') else Some O
  end.

(** The bytes [mid] that follow a tag and its separator are read as the
    field value [v], whatever comes after them: the leading zeros end and
    [atoi] stops inside [mid]. *)
Definition window_reads (mid : list Z) (v : Z) : bool :=
  match leading_zeros mid with
  | Some z => match atoi (firstn 5 (skipn z mid)) with
              | Some x => x =? v
              | None => false
              end
  | None => false
  end.

(** A reply with one field: the tag, a space, five digits and "\r\n". *)
Definition tagged_reply (c v : Z) : list Z :=
  [c; SPACE] ++ zero_pad5 v ++ CRLF.

(** The reply with both readings, as the sensor frames it. *)
Definition both_reply (v1 v2 : Z) : list Z :=
  bytes " Z " ++ zero_pad5 v1 ++ bytes " z " ++ zero_pad5 v2 ++ CRLF.

(** " z #####\r\n": the unfiltered reading as the sensor frames it. *)
Definition spaced_unfiltered_reply (v : Z) : list Z :=
  bytes " z " ++ zero_pad5 v ++ CRLF.

(** Replies to the commands of the initialisation sequence, one for each
    of its eight scanner calls, in the frames that the comments of
    explorir.c give: the mode, two lines of text for the firmware version
    and the serial number, the scaling factor [v], the digital filter, the
    compensation, the output fields and the mode again. *)
Definition init_replies (v : Z) : list (list Z) :=
  [tagged_reply OPERATION_MODE 0;
   bytes "Y,Jan 30 2013,10:45:03,AL17" ++ CRLF;
   bytes "B 00233 00000" ++ CRLF;
   tagged_reply SCALING_FACTOR v;
   tagged_reply SET_DIGITAL_FILTER 16;
   tagged_reply GET_PRESSURE_AND_CONCENTRATION_COMPENSATION 8192;
   bytes "M 00006" ++ CRLF;
   tagged_reply OPERATION_MODE 0].

(** "@ a.b c.d\r\n": the response to the auto-zero interval commands, with
    the four digits [a], [b], [c], [d]. *)
Definition auto_zero_reply (a b c d : Z) : list Z :=
  bytes "@ " ++ [48 + a] ++ bytes "." ++ [48 + b] ++ bytes " "
    ++ [48 + c] ++ bytes "." ++ [48 + d] ++ CRLF.




(** [op], started in [w], hands explorir_tx the one frame [command]
    followed by "\r\n". *)
Definition sends_frame (w : world) (op : session explorir_retcode_t)
    (command : string) : Prop :=
  sent (world_of (op w)) = sent w ++ [bytes command ++ CRLF].

(** The call of an operation, with result [r], comes to read
    [explorir_data[i]] with [i] outside the buffer; [w] is the world at that
    read, with the frames sent and the fields as they are then.  The call
    is followed no further. *)
Definition reads_outside_buffer (i : Z) (w : world)
    (r : result explorir_retcode_t) : Prop :=
  r = Abort (PastBuffer i) w.

(** The frame of a command with a decimal argument: the tag, a space, what
    [sprintf] writes for the argument, and "\r\n". *)
Definition decimal_frame (tag value : Z) : list Z :=
  [tag; SPACE] ++ sprintf_d value ++ CRLF.

(** Where a run of [explorir_init] started in [w0] stands once the scaling
    factor [v] has been read: [n] scanner calls made, the buffer cleared by
    the last of them, [v] stored. *)
Definition scaled (w0 : world) (v : Z) (n : nat) (w : world) : Prop :=
  scans w = (scans w0 + n)%nat
  /\ explorir_data (handler w) = repeat 0 (Z.to_nat UART_RX_BUF_SIZE)
  /\ scaling_factor (handler w) = v.

(** [scan_case] at a byte that is not one of the tags picked out by [tags]
    leaves the field [proj] as it was. *)
Definition keeps (proj : explorir_handler_t -> Z) (tags : Z -> bool) : Prop :=
  forall h i c, tags c = false ->
    match scan_case h i c with
    | Break h' _ => proj h' = proj h
    | EndWhile h' => proj h' = proj h
    | Trap _ h' => proj h' = proj h
    end.

(** ** Facts about the scanner *)

(** An outcome other than running out of fuel is not changed by more fuel. *)
Lemma scan_more_fuel (n : nat) : forall h i m,
  out_of_fuel (scan n h i) = false -> (n <= m)%nat -> scan m h i = scan n h i.
Proof.
  induction n as [|n IH]; intros h i m Hf Hle; [discriminate Hf|].
  destruct m as [|m]; [lia|].
  simpl in *. destruct (read h i) as [c|]; [|reflexivity].
  destruct (c =? TERMINATE); [reflexivity|].
  destruct (scan_case h i c); try reflexivity.
  apply IH; [assumption|lia].
Qed.

Lemma process_more_fuel (n m : nat) (h : explorir_handler_t) :
  out_of_fuel (explorir_process_response n h) = false -> (n <= m)%nat ->
  explorir_process_response m h = explorir_process_response n h.
Proof.
  unfold explorir_process_response. intros Hf Hle.
  rewrite (scan_more_fuel n h 0 m); [reflexivity| |assumption].
  destruct (scan n h 0) as [h'|[]]; simpl in *; congruence.
Qed.


(** The scanner writes the receive buffer only by the final [memset]. *)
Lemma scan_case_data (h : explorir_handler_t) (i c : Z) :
  match scan_case h i c with
  | Break h' _ => explorir_data h' = explorir_data h
  | EndWhile h' => explorir_data h' = explorir_data h
  | Trap _ h' => h' = h
  end.
Proof.
  unfold scan_case, with_field.
  repeat match goal with
         | |- context [if ?b then _ else _] => destruct b
         end;
    destruct (read_field (explorir_data h) i); reflexivity.
Qed.

(** ** The continuation policy of the scanner (claim C1) *)

Ltac tag_case Hc Hf :=
  intros n; simpl; rewrite Hc; unfold scan_case, with_field; rewrite Hf;
  reflexivity.

Lemma scan_tag (h : explorir_handler_t) (i c v : Z) :
  read h i = Some c ->
  read_field (explorir_data h) i = Field v ->
  continuation_policy h i c v.
Proof.
  intros Hc Hf. unfold continuation_policy.
  repeat split; intros E;
    repeat match type of E with _ \/ _ => destruct E as [E|E] end;
    subst c; tag_case Hc Hf.
Qed.




(** ** Termination and bounds of the scan (claim C2) *)

Lemma scan_case_plain (h : explorir_handler_t) (i c : Z) :
  is_tag c = false -> scan_case h i c = Break h (wrap16 (i + 1)).
Proof.
  unfold is_tag, scan_case. intros H.
  repeat match type of H with
         | (_ || _) = false => apply orb_false_elim in H; destruct H as [H ?]
         end.
  repeat match goal with
         | E : (_ =? _) = false |- _ => rewrite E; clear E
         end.
  simpl. destruct (c =? SPACE); reflexivity.
Qed.

(** The four ways through the [switch]. *)
Lemma scan_case_cases (h : explorir_handler_t) (i c : Z) :
  (exists h', scan_case h i c = Break h' 9
              /\ explorir_data h' = explorir_data h)
  \/ scan_case h i c = Break h (wrap16 (i + 1))
  \/ (exists h', scan_case h i c = EndWhile h')
  \/ (exists f, scan_case h i c = Trap f h /\ f <> OutOfFuel).
Proof.
  destruct (is_tag c) eqn:Ht.
  - unfold scan_case, with_field.
    destruct (read_field (explorir_data h) i) as [v|f] eqn:Hrf.
    + repeat match goal with
             | |- context [if ?b then _ else _] => destruct b
             end;
        try (left; eexists; split; reflexivity);
        try (right; right; left; eexists; reflexivity);
        right; left; reflexivity.
    + assert (Hf : f <> OutOfFuel).
      { revert Hrf. unfold read_field.
        destruct (skip_zeros _ _); [|intros [= <-]; discriminate].
        destruct (_ <? _)%nat; [intros [= <-]; discriminate|].
        destruct (atoi _); [discriminate|intros [= <-]; discriminate]. }
      repeat match goal with
             | |- context [if ?b then _ else _] => destruct b
             end;
        try (right; right; right; eexists; split; [reflexivity|assumption]);
        right; left; reflexivity.
  - right; left. apply scan_case_plain; assumption.
Qed.

Lemma scan_case_same_way (h1 h2 : explorir_handler_t) (i c : Z) :
  explorir_data h1 = explorir_data h2 ->
  same_way (scan_case h1 i c) (scan_case h2 i c).
Proof.
  intros E. unfold scan_case, with_field. rewrite E.
  repeat match goal with
         | |- context [if ?b then _ else _] => destruct b
         end;
    try (destruct (read_field (explorir_data h2) i));
    constructor; simpl; assumption.
Qed.

Lemma scan_same_way (n : nat) : forall h1 h2 i,
  explorir_data h1 = explorir_data h2 ->
  out_of_fuel (scan n h1 i) = out_of_fuel (scan n h2 i).
Proof.
  induction n as [|n IH]; intros h1 h2 i E; [reflexivity|].
  simpl. unfold read. rewrite E.
  destruct (nth_error (explorir_data h2) (Z.to_nat i)) as [c|]; [|reflexivity].
  destruct (c =? TERMINATE); [reflexivity|].
  destruct (scan_case_same_way h1 h2 i c E); try reflexivity.
  apply IH; assumption.
Qed.

Lemma scan_same_kind (n : nat) : forall h1 h2 i,
  explorir_data h1 = explorir_data h2 ->
  is_returned (scan n h1 i) = is_returned (scan n h2 i).
Proof.
  induction n as [|n IH]; intros h1 h2 i E; [reflexivity|].
  simpl. unfold read. rewrite E.
  destruct (nth_error (explorir_data h2) (Z.to_nat i)) as [c|]; [|reflexivity].
  destruct (c =? TERMINATE); [reflexivity|].
  destruct (scan_case_same_way h1 h2 i c E); try reflexivity.
  apply IH; assumption.
Qed.

Lemma scan_agree (n m : nat) (h : explorir_handler_t) (i : Z) :
  out_of_fuel (scan n h i) = false -> out_of_fuel (scan m h i) = false ->
  scan n h i = scan m h i.
Proof.
  intros Hn Hm.
  rewrite <- (scan_more_fuel n h i (n + m)) by (assumption || lia).
  rewrite <- (scan_more_fuel m h i (n + m)) by (assumption || lia).
  reflexivity.
Qed.

Lemma read_in_buffer (h : explorir_handler_t) (i c : Z) :
  0 <= i -> read h i = Some c ->
  i < Z.of_nat (length (explorir_data h)).
Proof.
  unfold read. intros Hi H.
  assert (Hlt : (Z.to_nat i < length (explorir_data h))%nat)
    by (apply nth_error_Some; congruence).
  lia.
Qed.

(** A run that is still going after more iterations than there are bytes
    ahead of the cursor has gone through the 'Z' case, back to offset 9. *)
Lemma scan_reaches_offset_9 (n : nat) : forall h i,
  length (explorir_data h) = 128%nat -> 0 <= i ->
  (Z.to_nat (128 - i) < n)%nat ->
  out_of_fuel (scan n h i) = true ->
  exists k h', (1 <= k <= n)%nat
    /\ explorir_data h' = explorir_data h
    /\ forall m, scan (k + m) h i = scan m h' 9.
Proof.
  induction n as [|n IH]; intros h i Hlen Hi Hn Hoof; [lia|].
  simpl in Hoof.
  destruct (read h i) as [c|] eqn:Hread; [|discriminate].
  pose proof (read_in_buffer h i c Hi Hread) as Hlt. rewrite Hlen in Hlt.
  destruct (c =? TERMINATE) eqn:Hterm; [discriminate|].
  destruct (scan_case_cases h i c)
    as [[h' [Hc Hd]]|[Hc|[[h' Hc]|[f [Hc Hf]]]]]; rewrite Hc in Hoof.
  - exists 1%nat, h'. split; [lia|]. split; [assumption|].
    intros m. simpl. rewrite Hread, Hterm, Hc. reflexivity.
  - assert (Hw : wrap16 (i + 1) = i + 1)
      by (unfold wrap16; apply Z.mod_small; lia).
    rewrite Hw in Hoof, Hc.
    destruct (IH h (i + 1)) as [k [h' [Hk [Hd Hrun]]]];
      [assumption|lia|lia|assumption|].
    exists (S k), h'. split; [lia|]. split; [assumption|].
    intros m. simpl. rewrite Hread, Hterm, Hc. apply Hrun.
  - discriminate.
  - destruct f; simpl in Hoof; congruence.
Qed.

(** From offset 9 a run either ends within 120 iterations or never ends. *)
Lemma scan_from_9_bound (fuel : nat) : forall h,
  length (explorir_data h) = 128%nat ->
  out_of_fuel (scan fuel h 9) = false ->
  out_of_fuel (scan 120 h 9) = false.
Proof.
  induction fuel as [fuel IH] using lt_wf_ind. intros h Hlen Hret.
  destruct (out_of_fuel (scan 120 h 9)) eqn:Hoof; [|reflexivity].
  destruct (scan_reaches_offset_9 120 h 9 Hlen) as [k [h1 [Hk [Hd Hrun]]]];
    [lia|simpl; lia|assumption|].
  destruct (Nat.lt_ge_cases fuel k) as [Hlt|Hge].
  - pose proof (Hrun 0%nat) as H0. rewrite Nat.add_0_r in H0.
    rewrite (scan_more_fuel fuel h 9 k) in H0 by (assumption || lia).
    rewrite H0 in Hret. discriminate Hret.
  - pose proof (Hrun (fuel - k)%nat) as H1.
    replace (k + (fuel - k))%nat with fuel in H1 by lia.
    rewrite H1 in Hret.
    assert (H120 : out_of_fuel (scan 120 h1 9) = false)
      by (apply (IH (fuel - k)%nat); [lia|congruence|assumption]).
    rewrite (scan_same_way 120 h h1 9) in Hoof by congruence.
    congruence.
Qed.

(** A scan of the 128-byte buffer that ends at all ends within 256
    evaluations of the loop test. *)
Lemma scan_bound (fuel : nat) (h : explorir_handler_t) :
  length (explorir_data h) = 128%nat ->
  out_of_fuel (scan fuel h 0) = false ->
  out_of_fuel (scan 256 h 0) = false.
Proof.
  intros Hlen Hret.
  destruct (out_of_fuel (scan 129 h 0)) eqn:Hoof.
  - destruct (scan_reaches_offset_9 129 h 0 Hlen) as [k [h1 [Hk [Hd Hrun]]]];
      [lia|simpl; lia|assumption|].
    destruct (Nat.lt_ge_cases fuel k) as [Hlt|Hge].
    + pose proof (Hrun 0%nat) as H0. rewrite Nat.add_0_r in H0.
      rewrite (scan_more_fuel fuel h 0 k) in H0 by (assumption || lia).
      rewrite H0 in Hret. discriminate Hret.
    + pose proof (Hrun (fuel - k)%nat) as H1.
      replace (k + (fuel - k))%nat with fuel in H1 by lia.
      rewrite H1 in Hret.
      assert (H120 : out_of_fuel (scan 120 h1 9) = false)
        by (apply (scan_from_9_bound (fuel - k)); congruence).
      pose proof (Hrun (256 - k)%nat) as H2.
      replace (k + (256 - k))%nat with 256%nat in H2 by lia.
      rewrite H2, (scan_more_fuel 120 h1 9 (256 - k)) by (assumption || lia).
      assumption.
  - rewrite (scan_more_fuel 129 h 0 256) by (assumption || lia). assumption.
Qed.

Lemma process_out_of_fuel (n : nat) (h : explorir_handler_t) :
  out_of_fuel (explorir_process_response n h) = out_of_fuel (scan n h 0).
Proof.
  unfold explorir_process_response. destruct (scan n h 0); reflexivity.
Qed.

(** Plain bytes are stepped over one at a time, without any change of the
    handler. *)
Lemma scan_plain_run (k : nat) : forall h i n,
  length (explorir_data h) = 128%nat -> 0 <= i ->
  (forall q, i <= q < i + Z.of_nat k -> plain_at h q) ->
  scan (k + n) h i = scan n h (i + Z.of_nat k).
Proof.
  induction k as [|k IH]; intros h i n Hlen Hi Hplain.
  - simpl. f_equal. lia.
  - destruct (Hplain i) as [c [Hread [Hterm Htag]]]; [lia|].
    pose proof (read_in_buffer h i c Hi Hread) as Hlt. rewrite Hlen in Hlt.
    simpl. rewrite Hread.
    apply Z.eqb_neq in Hterm. rewrite Hterm.
    rewrite (scan_case_plain h i c Htag).
    replace (wrap16 (i + 1)) with (i + 1)
      by (unfold wrap16; symmetry; apply Z.mod_small; lia).
    rewrite IH; [f_equal; lia|assumption|lia|].
    intros q Hq. apply Hplain. lia.
Qed.

(** C2 (as the code has it).  The scanner has no bound of its own on the
    cursor.  What holds is: a call on the 128-byte buffer that ends at all
    ends within 256 evaluations of the loop test, twice the capacity; and it
    does end, by returning, after exactly p + 1 of them, when the buffer
    holds a line feed at index p < 128 with no tag byte and no line feed
    before it. *)
Theorem C2_scan_ends_within_twice_capacity :
  (forall fuel h,
     length (explorir_data h) = 128%nat ->
     out_of_fuel (explorir_process_response fuel h) = false ->
     explorir_process_response 256 h = explorir_process_response fuel h)
  /\ (forall h p,
        length (explorir_data h) = 128%nat ->
        read h (Z.of_nat p) = Some TERMINATE ->
        (forall q, 0 <= q < Z.of_nat p -> plain_at h q) ->
        explorir_process_response (S p) h = Returned (clear_data h)
        /\ explorir_process_response p h = Faulted OutOfFuel h).
Proof.
  split.
  - intros fuel h Hlen Hend.
    assert (H256 : out_of_fuel (explorir_process_response 256 h) = false).
    { rewrite process_out_of_fuel in *. exact (scan_bound fuel h Hlen Hend). }
    rewrite process_out_of_fuel in Hend, H256.
    unfold explorir_process_response.
    rewrite (scan_agree 256 fuel h 0 H256 Hend). reflexivity.
  - intros h p Hlen Hlf Hplain. unfold explorir_process_response.
    assert (H1 : scan (S p) h 0 = Returned h).
    { replace (S p) with (p + 1)%nat by lia.
      rewrite (scan_plain_run p h 0 1 Hlen) by (lia || exact Hplain).
      simpl. rewrite Hlf. reflexivity. }
    assert (H0 : scan p h 0 = Faulted OutOfFuel h).
    { replace p with (p + 0)%nat at 1 by lia.
      rewrite (scan_plain_run p h 0 0 Hlen) by (lia || exact Hplain).
      reflexivity. }
    rewrite H1, H0. split; reflexivity.
Qed.

Lemma C2_scan_ends_within_twice_capacity_witness :
  let h := fresh_handler (buffer_of (bytes "??" ++ CRLF)) 1 in
  explorir_process_response 256 h = explorir_process_response 300 h
  /\ explorir_process_response 4 h = Returned (clear_data h)
  /\ explorir_process_response 3 h = Faulted OutOfFuel h.
Proof.
  intros h.
  destruct C2_scan_ends_within_twice_capacity as [Hbound Hlf].
  split.
  - apply Hbound; reflexivity.
  - apply (Hlf h 3%nat); [reflexivity|reflexivity|].
    intros q Hq.
    assert (Hcases : q = 0 \/ q = 1 \/ q = 2) by lia.
    destruct Hcases as [E | [E | E]]; subst q; eexists;
      (split; [reflexivity|]); (split; [discriminate|reflexivity]).
Defined.

(** The claim C2 fails on a buffer without a line feed: the scan of 128 zero
    bytes goes on to read index 128, and no amount of fuel makes it return. *)
Lemma C2_counterexample :
  let h := fresh_handler (buffer_of []) 0 in
  explorir_process_response 129 h = Faulted (PastBuffer 128) h
  /\ forall fuel h', explorir_process_response fuel h <> Returned h'.
Proof.
  intros h.
  assert (E : explorir_process_response 129 h = Faulted (PastBuffer 128) h)
    by reflexivity.
  split; [exact E|].
  intros fuel h' Hret.
  assert (Hf : out_of_fuel (explorir_process_response fuel h) = false)
    by (rewrite Hret; reflexivity).
  assert (H129 : out_of_fuel (explorir_process_response 129 h) = false)
    by (rewrite E; reflexivity).
  rewrite process_out_of_fuel in Hf, H129.
  pose proof (scan_agree _ _ _ _ Hf H129) as Hag.
  unfold explorir_process_response in Hret, E.
  rewrite Hag in Hret. destruct (scan 129 h 0); congruence.
Qed.

(** A second way for the claim to fail, inside the buffer: with a 'Z' field
    at offset 9 the 'Z' case sends the cursor back to offset 9 for ever. *)
Lemma scan_livelock_at_9 (n : nat) : forall h v,
  read h 9 = Some FILTERED_CO2_MEASUREMENT ->
  read_field (explorir_data h) 9 = Field v ->
  out_of_fuel (scan n h 9) = true.
Proof.
  induction n as [|n IH]; intros h v Hread Hfield; [reflexivity|].
  destruct (scan_tag h 9 _ v Hread Hfield) as [HZ _].
  rewrite (HZ eq_refl n). apply (IH _ v); assumption.
Qed.

Lemma scan_livelock_example (fuel : nat) (s : Z) :
  out_of_fuel (explorir_process_response fuel
                 (fresh_handler (buffer_of two_filtered_reply) s)) = true.
Proof.
  rewrite process_out_of_fuel.
  set (h := fresh_handler (buffer_of two_filtered_reply) s).
  destruct fuel as [|[|n]]; [reflexivity|reflexivity|].
  change (S (S n)) with (1 + S n)%nat.
  rewrite (scan_plain_run 1 h 0 (S n));
    [|reflexivity|lia|].
  - destruct (scan_tag h (0 + Z.of_nat 1) FILTERED_CO2_MEASUREMENT 100)
      as [HZ _]; [reflexivity|reflexivity|].
    rewrite (HZ eq_refl n).
    apply (scan_livelock_at_9 n _ 200); reflexivity.
  - intros q Hq. assert (q = 0) as -> by lia.
    exists 32. split; [reflexivity|]. split; [discriminate|reflexivity].
Qed.

(** ** Fixed-width fields of replies (claim C3) *)

Lemma buffer_of_tail (reply : list Z) (q : nat) :
  (length reply <= q < 128)%nat -> nth_error (buffer_of reply) q = Some 0.
Proof.
  intros Hq. unfold buffer_of.
  rewrite nth_error_app2 by lia.
  apply nth_error_repeat. change (Z.to_nat UART_RX_BUF_SIZE) with 128%nat. lia.
Qed.

Lemma skipn_repeat (x : Z) (n : nat) : forall m,
  skipn n (repeat x m) = repeat x (m - n).
Proof.
  induction n as [|n IH]; intros [|m]; try reflexivity.
  simpl. apply IH.
Qed.

Lemma buffer_of_length (reply : list Z) :
  (length reply <= 128)%nat -> length (buffer_of reply) = 128%nat.
Proof.
  intros H. unfold buffer_of. rewrite length_app, repeat_length.
  change (Z.to_nat UART_RX_BUF_SIZE) with 128%nat. lia.
Qed.

Lemma field_is_spec (data : list Z) (i v : Z) :
  field_is data i v = true -> read_field data i = Field v.
Proof.
  unfold field_is. destruct (read_field data i); [|discriminate].
  intros H. apply Z.eqb_eq in H. congruence.
Qed.

Lemma in_zrange (n : nat) : forall z v,
  z <= v < z + Z.of_nat n -> In v (zrange n z).
Proof.
  induction n as [|n IH]; intros z v Hv; [lia|].
  destruct (Z.eq_dec z v) as [->|Hne]; [left; reflexivity|].
  right. apply IH. lia.
Qed.

(** Every field with a leading zero is read back as its value: checked on
    each of the 10000 values. *)
Lemma read_field_zero_pad5 (v : Z) :
  0 <= v <= 9999 ->
  read_field (buffer_of (filtered_reply v)) 0 = Field v
  /\ read_field (buffer_of (spaced_filtered_reply v)) 1 = Field v.
Proof.
  intros Hv.
  assert (Hall : forallb (fun n =>
            field_is (buffer_of (filtered_reply n)) 0 n
            && field_is (buffer_of (spaced_filtered_reply n)) 1 n)
            (zrange (Z.to_nat 10000) 0) = true)
    by (vm_compute; reflexivity).
  rewrite forallb_forall in Hall.
  destruct (andb_prop _ _ (Hall v ltac:(apply in_zrange; lia))) as [H1 H2].
  split; apply field_is_spec; assumption.
Qed.

Lemma scan_off_the_end (h : explorir_handler_t) (reply : list Z) (n : nat) :
  explorir_data h = buffer_of reply -> (length reply <= 9)%nat ->
  scan (120 + n) h 9 = Faulted (PastBuffer 128) h.
Proof.
  intros Hd Hlen.
  assert (Hl : length (explorir_data h) = 128%nat)
    by (rewrite Hd; apply buffer_of_length; lia).
  replace (120 + n)%nat with (119 + S n)%nat by lia.
  rewrite (scan_plain_run 119 h 9 (S n) Hl); [|lia|].
  - assert (E : read h (9 + Z.of_nat 119) = None)
      by (unfold read; apply nth_error_None; lia).
    cbn [scan]. rewrite E. reflexivity.
  - intros q Hq. exists 0. split; [|split; [discriminate|reflexivity]].
    unfold read. rewrite Hd. apply buffer_of_tail. lia.
Qed.

Lemma product_fits (v s : Z) :
  0 <= v <= 9999 -> 0 <= s <= 65535 -> wrap32 (v * s) = v * s.
Proof.
  intros Hv Hs. unfold wrap32. apply Z.mod_small. nia.
Qed.

(** A raw value of at most 9999: the field starts with a '0', the local
    array receives the carriage return, and the conversion stops there. *)
Lemma leading_zero_field_times_scale (v : Z) (h : explorir_handler_t)
    (fuel : nat) :
  0 <= v <= 9999 -> 0 <= scaling_factor h <= 65535 ->
  (explorir_data h = buffer_of (filtered_reply v) -> (121 <= fuel)%nat ->
     read_field (explorir_data h) 0 = Field v
     /\ explorir_process_response fuel h =
          Faulted (PastBuffer 128)
            (set_current_filtered_co2 h (v * scaling_factor h)))
  /\ (explorir_data h = buffer_of (spaced_filtered_reply v) ->
      (3 <= fuel)%nat ->
      read_field (explorir_data h) 1 = Field v
      /\ explorir_process_response fuel h =
           Returned (clear_data
                       (set_current_filtered_co2 h (v * scaling_factor h)))).
Proof.
  intros Hv Hs.
  destruct (read_field_zero_pad5 v Hv) as [Hf0 Hf1].
  split; intros Hd Hfuel; rewrite Hd at 1; (split; [assumption|]).
  - rewrite <- Hd in Hf0.
    assert (Hread : read h 0 = Some FILTERED_CO2_MEASUREMENT)
      by (unfold read; rewrite Hd; reflexivity).
    destruct (scan_tag h 0 _ v Hread Hf0) as [HZ _].
    unfold explorir_process_response.
    replace fuel with (S (120 + (fuel - 121)))%nat by lia.
    rewrite (HZ eq_refl), product_fits by assumption.
    rewrite (scan_off_the_end _ (filtered_reply v)); [reflexivity|exact Hd|].
    simpl. lia.
  - rewrite <- Hd in Hf1.
    assert (Hl : length (explorir_data h) = 128%nat)
      by (rewrite Hd; apply buffer_of_length; simpl; lia).
    assert (Hread : read h 1 = Some FILTERED_CO2_MEASUREMENT)
      by (unfold read; rewrite Hd; reflexivity).
    destruct (scan_tag h 1 _ v Hread Hf1) as [HZ _].
    unfold explorir_process_response.
    replace fuel with (1 + S (S (fuel - 3)))%nat by lia.
    rewrite (scan_plain_run 1 h 0 _ Hl); [|lia|].
    + change (0 + Z.of_nat 1) with 1.
      rewrite (HZ eq_refl), product_fits by assumption.
      cbn [scan]. unfold read. cbn [explorir_data set_current_filtered_co2].
      rewrite Hd. reflexivity.
    + intros q Hq. assert (q = 0) as -> by lia.
      exists 32. unfold read. rewrite Hd.
      split; [reflexivity|]. split; [discriminate|reflexivity].
Qed.

(** [atoi] on bytes that are all digits finds nothing to stop at. *)
Lemma atoi_digits_all (s : list Z) :
  Forall (fun c => isdigit c = true) s ->
  forall acc, atoi_digits s acc = None.
Proof.
  induction 1 as [|c s Hc _ IH]; intros acc; [reflexivity|].
  cbn [atoi_digits]. rewrite Hc. apply IH.
Qed.

Lemma atoi_all_digits (s : list Z) :
  Forall (fun c => isdigit c = true) s -> atoi s = None.
Proof.
  intros Hall. destruct Hall as [|c s Hc Hs]; [reflexivity|].
  assert (Hr : 48 <= c <= 57).
  { unfold isdigit in Hc. apply andb_prop in Hc. destruct Hc as [H1 H2].
    apply Z.leb_le in H1, H2. lia. }
  cbn [atoi]. unfold isspace.
  replace (c =? 32) with false by (symmetry; apply Z.eqb_neq; lia).
  replace (c <=? 13) with false by (symmetry; apply Z.leb_gt; lia).
  rewrite andb_false_r. cbn [orb]. unfold atoi_signed.
  replace (c =? 45) with false by (symmetry; apply Z.eqb_neq; lia).
  replace (c =? 43) with false by (symmetry; apply Z.eqb_neq; lia).
  apply atoi_digits_all. constructor; assumption.
Qed.

Lemma zero_pad5_digits (v : Z) :
  Forall (fun c => isdigit c = true) (zero_pad5 v).
Proof.
  assert (Hd : forall x, isdigit (48 + x mod 10) = true).
  { intros x. pose proof (Z.mod_pos_bound x 10 ltac:(lia)) as Hb.
    unfold isdigit. apply andb_true_intro. split; apply Z.leb_le; lia. }
  unfold zero_pad5. repeat constructor; apply Hd.
Qed.

(** A field of five digits of which the first is not '0': the local array
    holds the five digits and nothing else, and [atoi] leaves it. *)
Lemma read_field_five_digits (lead : list Z) (v : Z) (rest : list Z)
    (i : Z) :
  10000 <= v <= 99999 -> wrap16 (i + 2) = Z.of_nat (length lead) ->
  read_field (lead ++ zero_pad5 v ++ rest) i = FieldFault PastField.
Proof.
  intros Hv Hi. unfold read_field. cbv zeta. rewrite Hi, Nat2Z.id.
  assert (Hskip : skipn (length lead) (lead ++ zero_pad5 v ++ rest)
                  = zero_pad5 v ++ rest).
  { rewrite skipn_app, skipn_all, Nat.sub_diag. reflexivity. }
  rewrite Hskip.
  assert (Hfirst : (48 + v / 10000 mod 10 =? 48) = false).
  { apply Z.eqb_neq.
    assert (1 <= v / 10000 <= 9).
    { split; [apply Z.div_le_lower_bound; lia|].
      apply Z.lt_succ_r. apply Z.div_lt_upper_bound; lia. }
    rewrite Z.mod_small by lia. lia. }
  unfold zero_pad5 at 1. cbn [app skip_zeros]. rewrite Hfirst.
  rewrite Nat2Z.id, Hskip.
  assert (Hlocal : firstn 5 (zero_pad5 v ++ rest) = zero_pad5 v)
    by reflexivity.
  rewrite Hlocal.
  change (length (zero_pad5 v) <? 5)%nat with false. cbv iota.
  rewrite (atoi_all_digits _ (zero_pad5_digits v)). reflexivity.
Qed.

(** The 'Z' case when the field is not read: the call ends there, with
    nothing stored. *)
Lemma scan_filtered_field_fault (h : explorir_handler_t) (i : Z) (f : fault)
    (n : nat) :
  read h i = Some FILTERED_CO2_MEASUREMENT ->
  read_field (explorir_data h) i = FieldFault f ->
  scan (S n) h i = Faulted f h.
Proof.
  intros Hread Hfield. cbn [scan]. rewrite Hread.
  change (FILTERED_CO2_MEASUREMENT =? TERMINATE) with false. cbv iota.
  unfold scan_case, with_field.
  change (FILTERED_CO2_MEASUREMENT =? SCALING_FACTOR) with false.
  change (FILTERED_CO2_MEASUREMENT =? FILTERED_CO2_MEASUREMENT) with true.
  cbv iota. rewrite Hfield. reflexivity.
Qed.

(** C3.  The claim holds for a raw value of at most 9999: the leading
    zeros are skipped and v * s is stored (0 for the field of all zeros);
    on "Z " + zero_pad5(v) + "\r\n" the scan then resumes at offset 9,
    after this reply's line feed, and goes on to read index 128, outside
    the buffer, with the value stored, and on " Z " + zero_pad5(v) + "\r\n"
    the call returns with it.  For a raw value from 10000 to 99999 the code
    does not do what the claim says: the local array of five bytes receives
    the five digits and has no room for a terminator, so [atoi] is not
    stopped inside it; the call leaves the array with nothing stored. *)
Theorem C3_five_digit_field_leaves_local_array :
  forall v h fuel,
    0 <= scaling_factor h <= 65535 ->
    (0 <= v <= 9999 ->
       (explorir_data h = buffer_of (filtered_reply v) -> (121 <= fuel)%nat ->
          read_field (explorir_data h) 0 = Field v
          /\ explorir_process_response fuel h =
               Faulted (PastBuffer 128)
                 (set_current_filtered_co2 h (v * scaling_factor h)))
       /\ (explorir_data h = buffer_of (spaced_filtered_reply v) ->
           (3 <= fuel)%nat ->
           read_field (explorir_data h) 1 = Field v
           /\ explorir_process_response fuel h =
                Returned (clear_data
                            (set_current_filtered_co2 h
                               (v * scaling_factor h)))))
    /\ (10000 <= v <= 99999 ->
        (explorir_data h = buffer_of (filtered_reply v) -> (1 <= fuel)%nat ->
           read_field (explorir_data h) 0 = FieldFault PastField
           /\ explorir_process_response fuel h = Faulted PastField h)
        /\ (explorir_data h = buffer_of (spaced_filtered_reply v) ->
            (2 <= fuel)%nat ->
            read_field (explorir_data h) 1 = FieldFault PastField
            /\ explorir_process_response fuel h = Faulted PastField h)).
Proof.
  intros v h fuel Hs. split.
  - intros Hv. exact (leading_zero_field_times_scale v h fuel Hv Hs).
  - intros Hv. split; intros Hd Hfuel.
    + assert (Hfield : read_field (explorir_data h) 0 = FieldFault PastField).
      { rewrite Hd. unfold buffer_of, filtered_reply.
        rewrite <- !app_assoc.
        apply read_field_five_digits; [exact Hv|reflexivity]. }
      split; [exact Hfield|].
      assert (Hread : read h 0 = Some FILTERED_CO2_MEASUREMENT)
        by (unfold read; rewrite Hd; reflexivity).
      unfold explorir_process_response.
      replace fuel with (S (fuel - 1)) by lia.
      rewrite (scan_filtered_field_fault h 0 PastField _ Hread Hfield).
      reflexivity.
    + assert (Hfield : read_field (explorir_data h) 1 = FieldFault PastField).
      { rewrite Hd. unfold buffer_of, spaced_filtered_reply.
        rewrite <- !app_assoc.
        apply read_field_five_digits; [exact Hv|reflexivity]. }
      split; [exact Hfield|].
      assert (Hl : length (explorir_data h) = 128%nat)
        by (rewrite Hd; apply buffer_of_length; simpl; lia).
      assert (Hread : read h 1 = Some FILTERED_CO2_MEASUREMENT)
        by (unfold read; rewrite Hd; reflexivity).
      unfold explorir_process_response.
      replace fuel with (1 + S (fuel - 2))%nat by lia.
      rewrite (scan_plain_run 1 h 0 _ Hl); [|lia|].
      * change (0 + Z.of_nat 1) with 1.
        rewrite (scan_filtered_field_fault h 1 PastField _ Hread Hfield).
        reflexivity.
      * intros q Hq. assert (q = 0) as -> by lia.
        exists 32. unfold read. rewrite Hd.
        split; [reflexivity|]. split; [discriminate|reflexivity].
Qed.

Lemma C3_five_digit_field_leaves_local_array_witness :
  let h := fresh_handler (buffer_of (filtered_reply 416)) 10 in
  let h' := fresh_handler (buffer_of (spaced_filtered_reply 416)) 10 in
  let g := fresh_handler (buffer_of (filtered_reply 10000)) 10 in
  let g' := fresh_handler (buffer_of (spaced_filtered_reply 10000)) 10 in
  (read_field (explorir_data h) 0 = Field 416
   /\ explorir_process_response 121 h =
        Faulted (PastBuffer 128) (set_current_filtered_co2 h (416 * 10)))
  /\ (read_field (explorir_data h') 1 = Field 416
      /\ explorir_process_response 3 h' =
           Returned (clear_data (set_current_filtered_co2 h' (416 * 10))))
  /\ (read_field (explorir_data g) 0 = FieldFault PastField
      /\ explorir_process_response 1 g = Faulted PastField g)
  /\ (read_field (explorir_data g') 1 = FieldFault PastField
      /\ explorir_process_response 2 g' = Faulted PastField g').
Proof.
  intros h h' g g'.
  split; [|split; [|split]].
  - apply (C3_five_digit_field_leaves_local_array 416 h 121);
      [simpl; lia|lia|reflexivity|lia].
  - apply (C3_five_digit_field_leaves_local_array 416 h' 3);
      [simpl; lia|lia|reflexivity|lia].
  - apply (C3_five_digit_field_leaves_local_array 10000 g 1);
      [simpl; lia|lia|reflexivity|lia].
  - apply (C3_five_digit_field_leaves_local_array 10000 g' 2);
      [simpl; lia|lia|reflexivity|lia].
Defined.

(** ** The cleared buffer *)

(** The scan of a clear buffer goes over its 128 zero bytes, changes
    nothing and then reads index 128. *)
Lemma scan_zero_buffer (h : explorir_handler_t) (n : nat) :
  explorir_data h = repeat 0 (Z.to_nat UART_RX_BUF_SIZE) ->
  scan (129 + n) h 0 = Faulted (PastBuffer 128) h.
Proof.
  intros Hd.
  assert (Hl : length (explorir_data h) = 128%nat)
    by (rewrite Hd; apply repeat_length).
  replace (129 + n)%nat with (128 + S n)%nat by lia.
  rewrite (scan_plain_run 128 h 0 (S n) Hl); [|lia|].
  - assert (E : read h (0 + Z.of_nat 128) = None)
      by (unfold read; apply nth_error_None; lia).
    cbn [scan]. rewrite E. reflexivity.
  - intros q Hq. exists 0. split; [|split; [discriminate|reflexivity]].
    unfold read. rewrite Hd. apply (buffer_of_tail [] (Z.to_nat q)).
    simpl. lia.
Qed.

(** Whenever a call returns, the whole receive buffer is zero. *)
Lemma process_returned_cleared (fuel : nat) (h h' : explorir_handler_t) :
  explorir_process_response fuel h = Returned h' ->
  explorir_data h' = repeat 0 (Z.to_nat UART_RX_BUF_SIZE).
Proof.
  unfold explorir_process_response.
  destruct (scan fuel h 0); intros [= <-]; reflexivity.
Qed.

(** ** Frames of the command builders (claims C5, C7, C8, C10) *)

Section Frames.

Variable fuel : nat.
Variable rx : nat -> option (list Z).

Lemma process_response_sent (w : world) :
  sent (world_of (process_response fuel rx w)) = sent w.
Proof.
  unfold process_response.
  destruct (rx (scans w)) as [p|].
  - destruct (explorir_update_data p (handler w)) as [h|f h]; [|reflexivity].
    destruct (explorir_process_response fuel h); reflexivity.
  - destruct (explorir_process_response fuel (handler w)); reflexivity.
Qed.

(** The common body of the operations: one frame goes out, whatever the
    scanner then does. *)
Lemma transmit_then_process_sent (msg : list Z) (size : Z) (w : world) :
  sent (world_of ((explorir_tx msg size ;; process_response fuel rx ;;
                   return_err_code) w))
  = sent w ++ [firstn (Z.to_nat size) msg].
Proof.
  unfold bind, explorir_tx.
  match goal with
  | |- context [process_response fuel rx ?w1] =>
      pose proof (process_response_sent w1) as Hs;
      destruct (process_response fuel rx w1) as [[] w2|f w2]
  end; simpl in *; exact Hs.
Qed.

End Frames.

Lemma isdigit_small (n : Z) : 0 <= n < 10 -> isdigit (48 + n) = true.
Proof.
  intros H. unfold isdigit. apply andb_true_intro.
  split; apply Z.leb_le; lia.
Qed.

(** [decimal] writes [n] with as many digits as it has: each character is a
    digit, they denote [n], and the first is not '0' unless [n] is 0. *)
Lemma decimal_spec (fuel : nat) : forall (k : nat) (n : Z),
  (1 <= k <= fuel)%nat -> 0 <= n < 10 ^ Z.of_nat k ->
  Forall (fun c => isdigit c = true) (decimal fuel n)
  /\ decimal_value (decimal fuel n) = n
  /\ (1 <= length (decimal fuel n) <= k)%nat
  /\ (0 < n -> hd 0 (decimal fuel n) <> 48)
  /\ (n = 0 -> decimal fuel n = [48]).
Proof.
  induction fuel as [|fuel IH]; intros k n Hk Hn; [lia|].
  cbn [decimal]. destruct (n <? 10) eqn:Hlt.
  - apply Z.ltb_lt in Hlt.
    split; [constructor; [apply isdigit_small; lia|constructor]|].
    split; [unfold decimal_value; cbn [fold_left]; lia|].
    split; [cbn [length]; lia|]. split; [cbn [hd]; lia|].
    intros ->. reflexivity.
  - apply Z.ltb_ge in Hlt.
    assert (Hk2 : (2 <= k)%nat).
    { destruct k as [|[|k]]; [lia| |lia].
      change (10 ^ Z.of_nat 1) with 10 in Hn. lia. }
    assert (Hpow : 10 ^ Z.of_nat k = 10 * 10 ^ Z.of_nat (k - 1)).
    { replace (Z.of_nat k) with (Z.succ (Z.of_nat (k - 1))) by lia.
      apply Z.pow_succ_r. lia. }
    destruct (IH (k - 1)%nat (n / 10)) as [Hall [Hval [Hlen [Hhd _]]]].
    { lia. }
    { split; [apply Z.div_pos; lia|].
      apply Z.div_lt_upper_bound; lia. }
    assert (Hq : 0 < n / 10) by (apply Z.div_str_pos; lia).
    split.
    { apply Forall_app. split; [assumption|].
      constructor; [|constructor].
      apply isdigit_small. apply Z.mod_pos_bound. lia. }
    split.
    { unfold decimal_value in *. rewrite fold_left_app, Hval.
      cbn [fold_left]. pose proof (Z.div_mod n 10). lia. }
    split; [rewrite length_app; cbn [length]; lia|].
    split; [|lia].
    intros _. destruct (decimal fuel (n / 10)) as [|d ds] eqn:E.
    + cbn [length] in Hlen. lia.
    + cbn [app hd] in *. apply Hhd. exact Hq.
Qed.

Lemma compile_message_frame (tag : Z) (digits : list Z) :
  (1 <= length digits <= 5)%nat ->
  let str_size := wrap8 (Z.of_nat (length digits)) in
  let msg_size := wrap8 (4 + str_size) in
  msg_size = 4 + Z.of_nat (length digits)
  /\ firstn (Z.to_nat msg_size)
       (compile_message tag (digits ++ [NUL]) str_size msg_size)
     = tag :: byte_of_ascii " " :: digits ++ CRLF.
Proof.
  intros Hlen.
  destruct digits as [|a [|b [|c [|d [|e [|f l]]]]]];
    simpl in Hlen; try lia; split; reflexivity.
Qed.

(** C5.  For every [uint16_t] argument up to 65365, explorir_set_digital_filter
    transmits exactly one frame: 'A', a space, the decimal digits of the
    argument without leading zeros, and "\r\n", of length 4 plus the number
    of digits; for every argument above 65365 it returns
    EXPLORIR_ERR_INVALID_INPUT and transmits nothing. *)
Theorem C5_digital_filter_frame :
  forall fuel rx filter w,
    0 <= filter <= 65535 ->
    (filter <= 65365 ->
       let digits := sprintf_d filter in
       let frame := bytes "A " ++ digits ++ CRLF in
       sent (world_of (explorir_set_digital_filter fuel rx filter w))
         = sent w ++ [frame]
       /\ Z.of_nat (length frame) = 4 + Z.of_nat (length digits)
       /\ Forall (fun c => isdigit c = true) digits
       /\ decimal_value digits = filter
       /\ (0 < filter -> hd 0 digits <> byte_of_ascii "0")
       /\ (filter = 0 -> digits = bytes "0"))
    /\ (65365 < filter ->
        explorir_set_digital_filter fuel rx filter w
          = Ok EXPLORIR_ERR_INVALID_INPUT w).
Proof.
  intros fuel rx filter w Hrange. split.
  - intros Hmax digits frame.
    assert (Hneg : (filter <? 0) = false) by (apply Z.ltb_ge; lia).
    assert (Hd : digits = decimal 10 filter)
      by (unfold digits, sprintf_d; rewrite Hneg; reflexivity).
    destruct (decimal_spec 10 5 filter) as [Hall [Hval [Hlen [Hhd Hzero]]]];
      [lia|simpl; lia|].
    rewrite <- Hd in *.
    destruct (compile_message_frame (byte_of_ascii "A") digits Hlen)
      as [Hsize Hframe].
    split.
    { unfold explorir_set_digital_filter.
      replace (MAX_DIGITAL_FILTER <? filter) with false
        by (symmetry; apply Z.ltb_ge; unfold MAX_DIGITAL_FILTER; lia).
      replace (filter <? MIN_DIGITAL_FILTER) with false
        by (symmetry; apply Z.ltb_ge; unfold MIN_DIGITAL_FILTER; lia).
      cbn [orb]. rewrite transmit_then_process_sent.
      fold digits. rewrite Hframe. reflexivity. }
    split.
    { unfold frame. rewrite !length_app.
      change (length (bytes "A ")) with 2%nat.
      change (length CRLF) with 2%nat. lia. }
    repeat split; assumption.
  - intros Hmax. unfold explorir_set_digital_filter.
    replace (MAX_DIGITAL_FILTER <? filter) with true
      by (symmetry; apply Z.ltb_lt; unfold MAX_DIGITAL_FILTER; lia).
    reflexivity.
Qed.

Lemma C5_digital_filter_frame_witness :
  let w := fresh_world (fresh_handler (buffer_of []) 1) in
  let rx := fun _ : nat => Some (bytes "A 00016" ++ CRLF) in
  sent (world_of (explorir_set_digital_filter 8 rx 16 w))
    = [bytes "A 16" ++ CRLF]
  /\ explorir_set_digital_filter 8 rx 65366 w
       = Ok EXPLORIR_ERR_INVALID_INPUT w.
Proof.
  intros w rx. split.
  - destruct (C5_digital_filter_frame 8 rx 16 w) as [Hin _]; [lia|].
    destruct (Hin ltac:(lia)) as [Hsent _]. exact Hsent.
  - destruct (C5_digital_filter_frame 8 rx 65366 w) as [_ Hout]; [lia|].
    apply Hout. lia.
Defined.

(** C8.  explorir_set_operation_mode sends "K 0\r\n" for the command mode,
    "K 1\r\n" for streaming and "K 2\r\n" for polling, one frame each; for
    every other value it returns EXPLORIR_ERR_INVALID_MODE, sends nothing
    and changes nothing. *)
Theorem C8_operation_mode_frames :
  forall fuel rx mode w,
    (mode = EXPLORIR_MODE_COMMAND ->
       sent (world_of (explorir_set_operation_mode fuel rx mode w))
         = sent w ++ [bytes "K 0" ++ CRLF])
    /\ (mode = EXPLORIR_MODE_STREAMING ->
        sent (world_of (explorir_set_operation_mode fuel rx mode w))
          = sent w ++ [bytes "K 1" ++ CRLF])
    /\ (mode = EXPLORIR_MODE_POLLING ->
        sent (world_of (explorir_set_operation_mode fuel rx mode w))
          = sent w ++ [bytes "K 2" ++ CRLF])
    /\ (mode <> EXPLORIR_MODE_COMMAND -> mode <> EXPLORIR_MODE_STREAMING ->
        mode <> EXPLORIR_MODE_POLLING ->
        explorir_set_operation_mode fuel rx mode w
          = Ok EXPLORIR_ERR_INVALID_MODE w).
Proof.
  intros fuel rx mode w.
  repeat split.
  - intros ->. unfold explorir_set_operation_mode.
    change (EXPLORIR_MODE_COMMAND =? EXPLORIR_MODE_STREAMING) with false.
    change (EXPLORIR_MODE_COMMAND =? EXPLORIR_MODE_POLLING) with false.
    change (EXPLORIR_MODE_COMMAND =? EXPLORIR_MODE_COMMAND) with true.
    cbv iota. rewrite transmit_then_process_sent. reflexivity.
  - intros ->. unfold explorir_set_operation_mode.
    change (EXPLORIR_MODE_STREAMING =? EXPLORIR_MODE_STREAMING) with true.
    cbv iota. rewrite transmit_then_process_sent. reflexivity.
  - intros ->. unfold explorir_set_operation_mode.
    change (EXPLORIR_MODE_POLLING =? EXPLORIR_MODE_STREAMING) with false.
    change (EXPLORIR_MODE_POLLING =? EXPLORIR_MODE_POLLING) with true.
    cbv iota. rewrite transmit_then_process_sent. reflexivity.
  - intros H0 H1 H2. unfold explorir_set_operation_mode.
    apply Z.eqb_neq in H0, H1, H2. rewrite H0, H1, H2. reflexivity.
Qed.

Lemma C8_operation_mode_frames_witness :
  let w := fresh_world (fresh_handler (buffer_of []) 1) in
  let rx := fun _ : nat => Some (bytes "K 00001" ++ CRLF) in
  sent (world_of (explorir_set_operation_mode 8 rx EXPLORIR_MODE_STREAMING w))
    = [bytes "K 1" ++ CRLF]
  /\ explorir_set_operation_mode 8 rx 99 w = Ok EXPLORIR_ERR_INVALID_MODE w.
Proof.
  intros w rx.
  destruct (C8_operation_mode_frames 8 rx EXPLORIR_MODE_STREAMING w)
    as [_ [Hs _]].
  destruct (C8_operation_mode_frames 8 rx 99 w) as [_ [_ [_ Hbad]]].
  split; [exact (Hs eq_refl)|].
  apply Hbad; discriminate.
Defined.

(** [sprintf] into a single [char] always writes after it: there is at
    least one character before the NUL. *)
Lemma decimal_nonempty (fuel : nat) (n : Z) :
  exists c l, decimal (S fuel) n = c :: l.
Proof.
  change (decimal (S fuel) n)
    with (if n <? 10 then [48 + n]
          else decimal fuel (n / 10) ++ [48 + n mod 10]).
  destruct (n <? 10); [eexists _, _; reflexivity|].
  destruct (decimal fuel (n / 10)); eexists _, _; reflexivity.
Qed.

Lemma sprintf_char_overruns (n : Z) : sprintf_char n = None.
Proof.
  unfold sprintf_char, sprintf_d.
  destruct (n <? 0); [reflexivity|].
  destruct (decimal_nonempty 9 n) as [c [l E]].
  change (decimal 10 n) with (decimal (S 9) n). rewrite E. reflexivity.
Qed.

(** The message is the eleven bytes "@ c.0 c.0\r\n" (and their NUL), of
    which [explorir_tx] is handed ten. *)
Lemma auto_zero_intervals_send_sent (fuel : nat)
    (rx : nat -> option (list Z)) (initial_char regular_char : Z)
    (w : world) :
  sent (world_of (auto_zero_intervals_send fuel rx initial_char regular_char
                    w))
  = sent w ++ [bytes "@ " ++ [initial_char] ++ bytes ".0 " ++ [regular_char]
               ++ bytes ".0" ++ [CR]].
Proof.
  unfold auto_zero_intervals_send. rewrite transmit_then_process_sent.
  reflexivity.
Qed.

(** C7.  explorir_set_auto_zero_intervals does not transmit "@ d.0 d.0\r\n"
    for any pair of arguments from 0 to 9, for two reasons.  Each [sprintf]
    is given a single [char] for a digit and its NUL, so the call writes
    after [initial_char] before anything is transmitted.  And whatever the
    two [char]s hold when the message is built, [explorir_tx] is given 10
    as the size of the eleven-byte frame: what goes out ends with the
    carriage return, and is not a frame that ends with "\r\n". *)
Theorem C7_auto_zero_frame_lacks_line_feed :
  forall fuel rx w,
    (forall initial regular,
       0 <= initial <= 9 -> 0 <= regular <= 9 ->
       explorir_set_auto_zero_intervals fuel rx initial regular w
         = Abort PastChar w)
    /\ (forall initial_char regular_char,
          sent (world_of (auto_zero_intervals_send fuel rx initial_char
                            regular_char w))
          = sent w ++ [bytes "@ " ++ [initial_char] ++ bytes ".0 "
                       ++ [regular_char] ++ bytes ".0" ++ [CR]])
    /\ (forall initial_char regular_char body,
          bytes "@ " ++ [initial_char] ++ bytes ".0 " ++ [regular_char]
            ++ bytes ".0" ++ [CR] <> body ++ CRLF).
Proof.
  intros fuel rx w. split; [|split].
  - intros initial regular Hi Hr. unfold explorir_set_auto_zero_intervals.
    replace (initial <? 0) with false by (symmetry; apply Z.ltb_ge; lia).
    replace (9 <? initial) with false by (symmetry; apply Z.ltb_ge; lia).
    replace (regular <? 0) with false by (symmetry; apply Z.ltb_ge; lia).
    replace (9 <? regular) with false by (symmetry; apply Z.ltb_ge; lia).
    cbn [orb]. rewrite sprintf_char_overruns. reflexivity.
  - intros initial_char regular_char. apply auto_zero_intervals_send_sent.
  - intros initial_char regular_char body E.
    change (bytes "@ " ++ [initial_char] ++ bytes ".0 " ++ [regular_char]
              ++ bytes ".0" ++ [CR])
      with ((bytes "@ " ++ [initial_char] ++ bytes ".0 " ++ [regular_char]
               ++ bytes ".0") ++ [CR]) in E.
    change (body ++ CRLF) with (body ++ [CR] ++ [LF]) in E.
    rewrite (app_assoc body [CR] [LF]) in E. apply app_inj_tail in E.
    destruct E as [_ E]. discriminate E.
Qed.

Lemma C7_auto_zero_frame_lacks_line_feed_witness :
  let w := fresh_world (fresh_handler (buffer_of []) 10) in
  let rx := fun _ : nat => @None (list Z) in
  explorir_set_auto_zero_intervals 1 rx 1 2 w = Abort PastChar w
  /\ sent (world_of (auto_zero_intervals_send 1 rx NUL 50 w))
     = [bytes "@ " ++ [NUL] ++ bytes ".0 2.0" ++ [CR]].
Proof.
  intros w rx.
  destruct (C7_auto_zero_frame_lacks_line_feed 1 rx w) as [Hover [Hsent _]].
  split; [apply Hover; lia|exact (Hsent NUL 50)].
Defined.

(** C10.  When an operation rejects its argument, the error is only its
    return value: nothing is transmitted and the world, with the handler
    and its err_code, is the one before the call.  The stored err_code,
    EXPLORIR_SUCCESS for instance, then differs from the status returned. *)
Theorem C10_rejection_only_in_return_value :
  forall fuel rx w,
    (forall filter, 65365 < filter <= 65535 ->
       explorir_set_digital_filter fuel rx filter w
         = Ok EXPLORIR_ERR_INVALID_INPUT w)
    /\ (forall mode,
          mode <> EXPLORIR_MODE_COMMAND -> mode <> EXPLORIR_MODE_STREAMING ->
          mode <> EXPLORIR_MODE_POLLING ->
          explorir_set_operation_mode fuel rx mode w
            = Ok EXPLORIR_ERR_INVALID_MODE w)
    /\ (forall initial regular,
          0 <= initial <= 255 -> 0 <= regular <= 255 ->
          9 < initial \/ 9 < regular ->
          explorir_set_auto_zero_intervals fuel rx initial regular w
            = Ok EXPLORIR_ERR_INVALID_INPUT w)
    /\ (err_code (handler w) = EXPLORIR_SUCCESS ->
        forall filter, 65365 < filter <= 65535 ->
        exists r w',
          explorir_set_digital_filter fuel rx filter w = Ok r w'
          /\ w' = w /\ r <> err_code (handler w')).
Proof.
  intros fuel rx w.
  assert (Hfilter : forall filter, 65365 < filter <= 65535 ->
            explorir_set_digital_filter fuel rx filter w
              = Ok EXPLORIR_ERR_INVALID_INPUT w).
  { intros filter Hf. unfold explorir_set_digital_filter.
    replace (MAX_DIGITAL_FILTER <? filter) with true
      by (symmetry; apply Z.ltb_lt; unfold MAX_DIGITAL_FILTER; lia).
    reflexivity. }
  split; [exact Hfilter|]. split; [|split].
  - intros mode H0 H1 H2. unfold explorir_set_operation_mode.
    apply Z.eqb_neq in H0, H1, H2. rewrite H0, H1, H2. reflexivity.
  - intros initial regular Hi Hr Hout.
    unfold explorir_set_auto_zero_intervals.
    replace ((initial <? 0) || (9 <? initial) || (regular <? 0)
             || (9 <? regular)) with true; [reflexivity|].
    symmetry. destruct Hout as [H|H]; apply Z.ltb_lt in H; rewrite H;
      rewrite ?orb_true_r; reflexivity.
  - intros Herr filter Hf.
    exists EXPLORIR_ERR_INVALID_INPUT, w.
    split; [apply Hfilter; assumption|]. split; [reflexivity|].
    rewrite Herr. discriminate.
Qed.

Lemma C10_rejection_only_in_return_value_witness :
  let w := fresh_world (fresh_handler (buffer_of []) 1) in
  let rx := fun _ : nat => @None (list Z) in
  explorir_set_digital_filter 8 rx 65366 w = Ok EXPLORIR_ERR_INVALID_INPUT w
  /\ explorir_set_operation_mode 8 rx 99 w = Ok EXPLORIR_ERR_INVALID_MODE w
  /\ explorir_set_auto_zero_intervals 8 rx 10 3 w
       = Ok EXPLORIR_ERR_INVALID_INPUT w
  /\ exists r w',
       explorir_set_digital_filter 8 rx 65535 w = Ok r w'
       /\ w' = w /\ r <> err_code (handler w').
Proof.
  intros w rx.
  destruct (C10_rejection_only_in_return_value 8 rx w)
    as [Hfilter [Hmode [Hzero Hdiff]]].
  split; [apply Hfilter; lia|].
  split; [apply Hmode; discriminate|].
  split; [apply Hzero; lia|].
  apply Hdiff; [reflexivity|lia].
Defined.

(** ** The initialisation sequence (claim C9) *)

Lemma scan_case_err_code (h : explorir_handler_t) (i c : Z) :
  match scan_case h i c with
  | Break h' _ => err_code h' = err_code h
  | EndWhile h' => err_code h' = err_code h
  | Trap _ h' => h' = h
  end.
Proof.
  unfold scan_case, with_field.
  repeat match goal with
         | |- context [if ?b then _ else _] => destruct b
         end;
    destruct (read_field (explorir_data h) i); reflexivity.
Qed.

Lemma scan_err_code (n : nat) : forall h i,
  err_code (final (scan n h i)) = err_code h.
Proof.
  induction n as [|n IH]; intros h i; [reflexivity|].
  simpl. destruct (read h i) as [c|]; [|reflexivity].
  destruct (c =? TERMINATE); [reflexivity|].
  pose proof (scan_case_err_code h i c) as H.
  destruct (scan_case h i c) as [h' i'|h'|f h']; simpl.
  - rewrite IH. exact H.
  - exact H.
  - subst h'. reflexivity.
Qed.

Lemma process_err_code (n : nat) (h h' : explorir_handler_t) :
  explorir_process_response n h = Returned h' -> err_code h' = err_code h.
Proof.
  unfold explorir_process_response. intros H.
  pose proof (scan_err_code n h 0) as He.
  destruct (scan n h 0) as [h1|f h1]; [|discriminate].
  injection H as <-. exact He.
Qed.

Lemma bind_ok {A B : Type} (m : session A) (k : A -> session B)
    (w : world) (a : A) (w1 : world) :
  m w = Ok a w1 -> bind m k w = k a w1.
Proof.
  intros E. unfold bind. rewrite E. reflexivity.
Qed.

Lemma bind_abort {A B : Type} (m : session A) (k : A -> session B)
    (w : world) (f : fault) (w1 : world) :
  m w = Abort f w1 -> bind m k w = Abort f w1.
Proof.
  intros E. unfold bind. rewrite E. reflexivity.
Qed.

Lemma run_ok_bind {A B : Type} (m : session A) (k : A -> session B)
    (w : world) (Q1 : A -> world -> Prop) (Q2 : B -> world -> Prop) :
  run_ok m w Q1 ->
  (forall a w1, Q1 a w1 -> run_ok (k a) w1 Q2) ->
  run_ok (bind m k) w Q2.
Proof.
  intros [a [w1 [E HQ]]] Hk. unfold run_ok, bind. rewrite E.
  exact (Hk a w1 HQ).
Qed.

Section Init.

Variable fuel : nat.
Variable rx : nat -> option (list Z).

Lemma process_response_ok (w w' : world) :
  process_response fuel rx w = Ok tt w' ->
  sent w' = sent w /\ scans w' = S (scans w)
  /\ err_code (handler w') = err_code (handler w)
  /\ length (explorir_data (handler w')) = 128%nat.
Proof.
  unfold process_response.
  assert (Hscan : forall h,
            err_code h = err_code (handler w) ->
            match explorir_process_response fuel h with
            | Returned h' =>
                Ok tt (mkWorld h' (sent w) (S (scans w))
                         (explorir_complete_uart_rx w))
            | Faulted f h' =>
                Abort f (mkWorld h' (sent w) (S (scans w))
                           (explorir_complete_uart_rx w))
            end = Ok tt w' ->
            sent w' = sent w /\ scans w' = S (scans w)
            /\ err_code (handler w') = err_code (handler w)
            /\ length (explorir_data (handler w')) = 128%nat).
  { intros h He.
    destruct (explorir_process_response fuel h) as [h'|f h'] eqn:E;
      [|discriminate].
    intros [= <-]. cbn [sent scans handler].
    rewrite (process_err_code _ _ _ E), (process_returned_cleared _ _ _ E).
    split; [reflexivity|]. split; [reflexivity|].
    split; [assumption|apply repeat_length]. }
  destruct (rx (scans w)) as [p|]; [|apply Hscan; reflexivity].
  unfold explorir_update_data.
  destruct (_ <=? _); [apply Hscan; reflexivity|discriminate].
Qed.

Lemma process_response_cleared (w w' : world) :
  process_response fuel rx w = Ok tt w' ->
  explorir_data (handler w') = repeat 0 (Z.to_nat UART_RX_BUF_SIZE).
Proof.
  unfold process_response.
  destruct (match rx (scans w) with
            | Some p => explorir_update_data p (handler w)
            | None => Returned (handler w)
            end) as [h|f h]; [|discriminate].
  destruct (explorir_process_response fuel h) as [h'|f h'] eqn:E;
    [|discriminate].
  intros [= <-]. exact (process_returned_cleared _ _ _ E).
Qed.

(** A reply on which the scanner returns makes the scanner call of an
    operation return, whatever the other fields of the handler are. *)
Lemma returns_on_scan_returns (k : nat) (p : list Z) :
  rx k = Some p -> returns_on fuel p = true -> scan_returns fuel rx k.
Proof.
  intros Hrx Hon w Hk Hd. unfold returns_on in Hon.
  apply andb_prop in Hon. destruct Hon as [Hlen Hret].
  unfold process_response, explorir_update_data. rewrite Hk, Hrx, Hlen.
  set (h0 := set_explorir_data (handler w)
               (p ++ skipn (length p) (explorir_data (handler w)))).
  assert (Hsame : explorir_data h0
                  = explorir_data (fresh_handler (buffer_of p) 0)).
  { unfold h0. cbn [explorir_data set_explorir_data fresh_handler].
    rewrite Hd, skipn_repeat. reflexivity. }
  assert (H0 : is_returned (explorir_process_response fuel h0) = true).
  { rewrite <- Hret. unfold explorir_process_response.
    pose proof (scan_same_kind fuel h0 _ 0 Hsame) as Hk0.
    destruct (scan fuel h0 0), (scan fuel (fresh_handler (buffer_of p) 0) 0);
      simpl in *; congruence. }
  destruct (explorir_process_response fuel h0) as [h'|f h'];
    [eexists; reflexivity|discriminate].
Qed.

Lemma scanned (w0 w : world) (frames : list (list Z)) (n : nat) :
  progressed w0 frames n w -> scan_returns fuel rx (scans w0 + n) ->
  run_ok (process_response fuel rx) w
    (fun _ w' => progressed w0 frames (S n) w').
Proof.
  intros [Hs [Hn [He Hl]]] Hret.
  destruct (Hret w Hn Hl) as [w' E].
  destruct (process_response_ok w w' E) as [Hs' [Hn' [He' _]]].
  exists tt, w'. split; [exact E|].
  repeat split;
    [congruence|lia|congruence|exact (process_response_cleared w w' E)].
Qed.

Lemma transmitted (w0 w : world) (frames : list (list Z)) (n : nat)
    (msg : list Z) (size : Z) :
  progressed w0 frames n w ->
  run_ok (explorir_tx msg size) w
    (fun _ w' =>
       progressed w0 (frames ++ [firstn (Z.to_nat size) msg]) n w').
Proof.
  intros [Hs [Hn [He Hl]]]. eexists tt, _. split; [reflexivity|].
  repeat split; cbn [sent scans handler]; try assumption.
  rewrite Hs, app_assoc. reflexivity.
Qed.

Lemma status_returned (w0 w : world) (frames : list (list Z)) (n : nat) :
  progressed w0 frames n w ->
  run_ok return_err_code w
    (fun r w' => r = err_code (handler w0) /\ progressed w0 frames n w').
Proof.
  intros Hp. exists (err_code (handler w)), w. split; [reflexivity|].
  split; [apply Hp|exact Hp].
Qed.

(** The common body of the operations, when the scanner call returns. *)
Lemma command_ok (w0 w : world) (frames : list (list Z)) (n : nat)
    (msg : list Z) (size : Z) :
  progressed w0 frames n w -> scan_returns fuel rx (scans w0 + n) ->
  run_ok (explorir_tx msg size ;; process_response fuel rx ;;
          return_err_code) w
    (fun r w' =>
       r = err_code (handler w0)
       /\ progressed w0 (frames ++ [firstn (Z.to_nat size) msg]) (S n) w').
Proof.
  intros Hp Hret.
  eapply run_ok_bind; [apply transmitted; exact Hp|].
  intros u1 w1 H1.
  eapply run_ok_bind; [apply scanned; [exact H1|exact Hret]|].
  intros u2 w2 H2. apply status_returned. exact H2.
Qed.

Lemma sensor_info_ok (w0 w : world) (frames : list (list Z)) (n : nat) :
  progressed w0 frames n w ->
  scan_returns fuel rx (scans w0 + n) ->
  scan_returns fuel rx (scans w0 + S n) ->
  run_ok (explorir_request_sensor_info fuel rx) w
    (fun r w' =>
       r = err_code (handler w0)
       /\ progressed w0 (frames ++ [bytes "Y" ++ CRLF]) (S (S n)) w').
Proof.
  intros Hp Hret1 Hret2. unfold explorir_request_sensor_info.
  eapply run_ok_bind; [apply transmitted; exact Hp|].
  intros u1 w1 H1.
  eapply run_ok_bind; [apply scanned; [exact H1|exact Hret1]|].
  intros u2 w2 H2.
  eapply run_ok_bind; [apply scanned; [exact H2|exact Hret2]|].
  intros u3 w3 H3. apply status_returned. exact H3.
Qed.

(** [explorir_handler->err_code = r] with the status [r] that the step has
    just returned. *)
Lemma recorded (w0 w : world) (frames : list (list Z)) (n : nat)
    (r : explorir_retcode_t) :
  r = err_code (handler w0) /\ progressed w0 frames n w ->
  run_ok (assign_err_code r) w (fun _ w' => progressed w0 frames n w').
Proof.
  intros [-> [Hs [Hn [He Hl]]]]. eexists tt, _. split; [reflexivity|].
  repeat split; assumption.
Qed.

End Init.

(** The first scanner call of explorir_init on the reply
    " Z 00100 Z 00200\r\n" never ends, so the call of explorir_init does not
    either. *)
Lemma init_livelock (fuel : nat) :
  exists h',
    explorir_init fuel (fun _ => Some two_filtered_reply)
      (fresh_world (fresh_handler (buffer_of []) 10))
    = Abort OutOfFuel (mkWorld h' [bytes "K 0" ++ CRLF] 1 false).
Proof.
  set (rx := fun _ : nat => Some two_filtered_reply).
  set (w1 := mkWorld (fresh_handler (buffer_of []) 10)
               [bytes "K 0" ++ CRLF] 0 false).
  assert (Hscan : exists h',
            process_response fuel rx w1
            = Abort OutOfFuel (mkWorld h' [bytes "K 0" ++ CRLF] 1 false)).
  { pose proof (scan_livelock_example fuel 10) as Hlive.
    unfold process_response.
    change (match rx (scans w1) with
            | Some p => explorir_update_data p (handler w1)
            | None => Returned (handler w1)
            end)
      with (Returned (fresh_handler (buffer_of two_filtered_reply) 10)).
    cbv beta iota.
    destruct (explorir_process_response fuel
                (fresh_handler (buffer_of two_filtered_reply) 10))
      as [h'|[] h']; try discriminate Hlive.
    exists h'. reflexivity. }
  destruct Hscan as [h' Hscan]. exists h'.
  unfold explorir_init. apply bind_abort.
  change (explorir_set_operation_mode fuel rx EXPLORIR_MODE_COMMAND)
    with (explorir_tx (store (bytes "K x" ++ CRLF ++ [NUL]) 2
                         (byte_of_ascii "0")) 5 ;;
          process_response fuel rx ;; return_err_code).
  rewrite (bind_ok _ _ _ tt w1) by reflexivity.
  apply bind_abort. exact Hscan.
Qed.

(** C9 (as the code has it).  explorir_init has no test on a status.  Each
    step is an assignment err_code = step(): whatever status the step
    returns, a failure as well, is stored and the next step runs.  When
    the buffer is clear at the start and each of the eight scanner calls
    has a reply delivered on which the scanner returns, the seven frames
    go out in order; the status that every step returns is the stored
    err_code itself, which is therefore left as it was; and at the end the
    mode is the default, both readings are 0 and digital_filter is 16. *)
Theorem C9_init_runs_every_step :
  forall fuel rx w,
    explorir_data (handler w) = repeat 0 128 ->
    (forall k, (scans w <= k < scans w + 8)%nat ->
       exists p, rx k = Some p /\ returns_on fuel p = true) ->
    (exists w',
       explorir_init fuel rx w = Ok tt w'
       /\ sent w' = sent w ++ init_frames
       /\ scans w' = (scans w + 8)%nat
       /\ err_code (handler w') = err_code (handler w)
       /\ current_mode (handler w') = EXPLORIR_MODE_DEFAULT
       /\ current_filtered_co2 (handler w') = 0
       /\ current_unfiltered_co2 (handler w') = 0
       /\ digital_filter (handler w') = DIGITAL_FILTER_DEFAULT)
    /\ (forall (op : session explorir_retcode_t) w1 r w2,
          op w1 = Ok r w2 ->
          (x <- op ;; assign_err_code x) w1
            = Ok tt (set_handler w2 (set_err_code (handler w2) r))).
Proof.
  intros fuel rx w Hd Hrep.
  assert (Hret : forall k, (scans w <= k < scans w + 8)%nat ->
                           scan_returns fuel rx k).
  { intros k Hk. destruct (Hrep k Hk) as [p [Hrx Hon]].
    exact (returns_on_scan_returns fuel rx k p Hrx Hon). }
  split; [|intros op w1 r w2 E; unfold bind; rewrite E; reflexivity].
  assert (H0 : progressed w [] 0 w).
  { repeat split; [rewrite app_nil_r; reflexivity|lia|assumption]. }
  assert (Hrun : run_ok (explorir_init fuel rx) w
            (fun _ w' =>
               exists w7, progressed w init_frames 8 w7
                 /\ w' = set_handler w7
                      (set_digital_filter
                         (set_current_unfiltered_co2
                            (set_current_filtered_co2
                               (set_current_mode (handler w7)
                                  EXPLORIR_MODE_DEFAULT) 0) 0)
                         DIGITAL_FILTER_DEFAULT))).
  { unfold explorir_init.
    eapply run_ok_bind;
      [exact (command_ok fuel rx w w [] 0 _ 5 H0
                (Hret (scans w + 0)%nat ltac:(lia)))|].
    intros r1 w1 H1.
    eapply run_ok_bind; [apply recorded; exact H1|].
    clear H1; intros u1 w1' H1.
    eapply run_ok_bind;
      [exact (sensor_info_ok fuel rx w w1' _ 1 H1
                (Hret (scans w + 1)%nat ltac:(lia))
                (Hret (scans w + 2)%nat ltac:(lia)))|].
    clear H1; intros r2 w2 H2.
    eapply run_ok_bind; [apply recorded; exact H2|].
    clear H2; intros u2 w2' H2.
    eapply run_ok_bind;
      [exact (command_ok fuel rx w w2' _ 3 _ 3 H2
                (Hret (scans w + 3)%nat ltac:(lia)))|].
    clear H2; intros r3 w3 H3.
    eapply run_ok_bind; [apply recorded; exact H3|].
    clear H3; intros u3 w3' H3.
    eapply run_ok_bind;
      [exact (command_ok fuel rx w w3' _ 4 _ 6 H3
                (Hret (scans w + 4)%nat ltac:(lia)))|].
    clear H3; intros r4 w4 H4.
    eapply run_ok_bind; [apply recorded; exact H4|].
    clear H4; intros u4 w4' H4.
    eapply run_ok_bind;
      [exact (command_ok fuel rx w w4' _ 5 _ 3 H4
                (Hret (scans w + 5)%nat ltac:(lia)))|].
    clear H4; intros r5 w5 H5.
    eapply run_ok_bind; [apply recorded; exact H5|].
    clear H5; intros u5 w5' H5.
    eapply run_ok_bind;
      [exact (command_ok fuel rx w w5' _ 6 _ 9 H5
                (Hret (scans w + 6)%nat ltac:(lia)))|].
    clear H5; intros r6 w6 H6.
    eapply run_ok_bind; [apply recorded; exact H6|].
    clear H6; intros u6 w6' H6.
    eapply run_ok_bind;
      [exact (command_ok fuel rx w w6' _ 7 _ 5 H6
                (Hret (scans w + 7)%nat ltac:(lia)))|].
    clear H6; intros r7 w7 H7.
    eapply run_ok_bind; [apply recorded; exact H7|].
    clear H7; intros u7 w7' H7.
    eexists tt, _. split; [reflexivity|].
    exists w7'. split; [exact H7|reflexivity]. }
  destruct Hrun as [[] [w' [E [w7 [[Hs [Hn [He Hl]]] ->]]]]].
  exists (set_handler w7
            (set_digital_filter
               (set_current_unfiltered_co2
                  (set_current_filtered_co2
                     (set_current_mode (handler w7) EXPLORIR_MODE_DEFAULT) 0)
                  0) DIGITAL_FILTER_DEFAULT)).
  split; [exact E|].
  repeat split; assumption.
Qed.

Lemma C9_init_runs_every_step_witness :
  let w := mkWorld (mkHandler (repeat 0 128) EXPLORIR_ERR_TIMEOUT 1 416 420 8
                      0 0 EXPLORIR_MODE_STREAMING) [] 0 false in
  let rx := fun k : nat => nth_error (init_replies 10) k in
  exists w',
    explorir_init 129 rx w = Ok tt w'
    /\ sent w' = init_frames
    /\ scans w' = 8%nat
    /\ err_code (handler w') = EXPLORIR_ERR_TIMEOUT
    /\ current_mode (handler w') = EXPLORIR_MODE_DEFAULT
    /\ current_filtered_co2 (handler w') = 0
    /\ current_unfiltered_co2 (handler w') = 0
    /\ digital_filter (handler w') = DIGITAL_FILTER_DEFAULT.
Proof.
  intros w rx.
  apply (C9_init_runs_every_step 129 rx w).
  - reflexivity.
  - intros k Hk. change (scans w) with 0%nat in Hk.
    destruct k as [|[|[|[|[|[|[|[|k]]]]]]]]; try lia;
      eexists; (split; [reflexivity|vm_compute; reflexivity]).
Defined.

(** The claim C9 fails when the reply to the first command holds a 'Z'
    field at offset 9, as in " Z 00100 Z 00200\r\n": the scanner call of the
    first step goes round for ever inside the buffer, explorir_init does
    not complete for any amount of fuel, and the first frame is all that
    has been sent. *)
Lemma C9_counterexample :
  let w := fresh_world (fresh_handler (buffer_of []) 10) in
  let rx := fun _ : nat => Some two_filtered_reply in
  (forall fuel,
     sent (world_of (explorir_init fuel rx w)) = [bytes "K 0" ++ CRLF])
  /\ ~ (exists fuel w', explorir_init fuel rx w = Ok tt w').
Proof.
  intros w rx. split.
  - intros fuel. destruct (init_livelock fuel) as [h' E].
    unfold w, rx. rewrite E. reflexivity.
  - intros [fuel [w' E]]. destruct (init_livelock fuel) as [h' E'].
    unfold w, rx in E. rewrite E' in E. discriminate E.
Qed.

(** ** The bounded wait (claim C6) *)

Lemma wait_loop_times_out (irq : nat -> bool) (n : nat) : forall timer k,
  0 <= timer <= RESPONSE_TIMEOUT ->
  (Z.to_nat (RESPONSE_TIMEOUT - timer) < n)%nat ->
  (forall j, (k <= j <= k + Z.to_nat (RESPONSE_TIMEOUT - timer))%nat ->
             irq j = false) ->
  wait_loop irq n timer k false = Some true.
Proof.
  induction n as [|n IH]; intros timer k Ht Hn Hirq; [lia|].
  cbn [wait_loop orb]. rewrite (Hirq k) by lia.
  destruct (RESPONSE_TIMEOUT <=? timer) eqn:Hle; [reflexivity|].
  apply Z.leb_gt in Hle.
  assert (Hw : wrap32 (timer + 1) = timer + 1).
  { unfold wrap32. apply Z.mod_small. unfold RESPONSE_TIMEOUT in *. lia. }
  rewrite Hw. apply IH; [lia|lia|].
  intros j Hj. apply Hirq. lia.
Qed.

(** The wait always comes back: the loop ends within RESPONSE_TIMEOUT + 1
    tests of the flag. *)
Lemma wait_loop_ends (irq : nat -> bool) (flag : bool) (n : nat) :
  forall timer k,
    0 <= timer <= RESPONSE_TIMEOUT ->
    (Z.to_nat (RESPONSE_TIMEOUT - timer) < n)%nat ->
    exists b, wait_loop irq n timer k flag = Some b.
Proof.
  induction n as [|n IH]; intros timer k Ht Hn; [lia|].
  cbn [wait_loop]. destruct (flag || irq k); [eexists; reflexivity|].
  destruct (RESPONSE_TIMEOUT <=? timer) eqn:Hle; [eexists; reflexivity|].
  apply Z.leb_gt in Hle.
  assert (Hw : wrap32 (timer + 1) = timer + 1).
  { unfold wrap32. apply Z.mod_small. unfold RESPONSE_TIMEOUT in *. lia. }
  rewrite Hw. apply IH; lia.
Qed.

Lemma wait_for_response_returns (irq : nat -> bool) (w : world) :
  exists w', explorir_wait_for_response irq w = Ok tt w'.
Proof.
  unfold explorir_wait_for_response.
  destruct (wait_loop_ends irq (explorir_complete_uart_rx w)
              (S (S (Z.to_nat RESPONSE_TIMEOUT))) 0 0) as [b E].
  - unfold RESPONSE_TIMEOUT. lia.
  - lia.
  - rewrite E. eexists. reflexivity.
Qed.

Lemma process_response_flag (fuel : nat) (rx : nat -> option (list Z))
    (w : world) :
  explorir_complete_uart_rx (world_of (process_response fuel rx w))
  = explorir_complete_uart_rx w.
Proof.
  unfold process_response.
  destruct (rx (scans w)) as [p|].
  - destruct (explorir_update_data p (handler w)) as [h|f h]; [|reflexivity].
    destruct (explorir_process_response fuel h); reflexivity.
  - destruct (explorir_process_response fuel (handler w)); reflexivity.
Qed.

(** The common body of the operations never looks at the completion flag
    and hands back the err_code it found. *)
Lemma command_returns_stored_status (fuel : nat)
    (rx : nat -> option (list Z)) (msg : list Z) (size : Z)
    (w w' : world) (r : explorir_retcode_t) :
  (explorir_tx msg size ;; process_response fuel rx ;; return_err_code) w
    = Ok r w' ->
  r = err_code (handler w)
  /\ err_code (handler w') = err_code (handler w)
  /\ explorir_complete_uart_rx w' = explorir_complete_uart_rx w.
Proof.
  unfold bind, explorir_tx, return_err_code.
  match goal with
  | |- context [process_response fuel rx ?w1] =>
      pose proof (process_response_flag fuel rx w1) as Hflag;
      destruct (process_response fuel rx w1) as [[] w2|f w2] eqn:E
  end; [|discriminate].
  intros [= <- <-].
  destruct (process_response_ok fuel rx _ _ E) as [_ [_ [He _]]].
  cbn [handler world_of explorir_complete_uart_rx] in *.
  repeat split; assumption.
Qed.

(** C6 (as the code has it).  The bounded wait is in
    explorir_wait_for_response alone: when the flag is not seen raised in
    any of the RESPONSE_TIMEOUT + 1 tests, it sets err_code to
    EXPLORIR_ERR_TIMEOUT, leaves every other field as it was and clears the
    flag.  No operation calls it: explorir_request_filtered_co2 returns the
    err_code that was stored before the call, whatever the flag. *)
Theorem C6_timeout_only_in_wait_for_response :
  (forall irq w,
     explorir_complete_uart_rx w = false ->
     (forall j, (j <= Z.to_nat RESPONSE_TIMEOUT)%nat -> irq j = false) ->
     explorir_wait_for_response irq w
       = Ok tt (mkWorld (set_err_code (handler w) EXPLORIR_ERR_TIMEOUT)
                  (sent w) (scans w) false))
  /\ (forall fuel rx w r w',
        explorir_request_filtered_co2 fuel rx w = Ok r w' ->
        r = err_code (handler w)
        /\ err_code (handler w') = err_code (handler w)
        /\ explorir_complete_uart_rx w' = explorir_complete_uart_rx w).
Proof.
  split.
  - intros irq w Hflag Hirq. unfold explorir_wait_for_response.
    rewrite Hflag, (wait_loop_times_out irq); [reflexivity| | |].
    + unfold RESPONSE_TIMEOUT. lia.
    + lia.
    + intros j Hj. apply Hirq. lia.
  - intros fuel rx w r w'. apply command_returns_stored_status.
Qed.

Lemma C6_timeout_only_in_wait_for_response_witness :
  let w := fresh_world
             (fresh_handler (buffer_of (spaced_filtered_reply 416)) 1) in
  explorir_wait_for_response (fun _ => false) w
    = Ok tt (mkWorld (set_err_code (handler w) EXPLORIR_ERR_TIMEOUT) [] 0 false)
  /\ (forall r w',
        explorir_request_filtered_co2 3 (fun _ => None) w = Ok r w' ->
        r = EXPLORIR_SUCCESS).
Proof.
  intros w.
  destruct C6_timeout_only_in_wait_for_response as [Hwait Hop].
  split.
  - apply (Hwait (fun _ => false) w); [reflexivity|].
    intros j Hj. reflexivity.
  - intros r w' E. destruct (Hop 3%nat (fun _ => None) w r w' E) as [Hr _].
    exact Hr.
Defined.

(** The claim C6 fails for explorir_request_filtered_co2: with the flag
    never raised and nothing delivered, the call on a buffer that still
    holds " Z 00416\r\n" returns EXPLORIR_SUCCESS, not the time-out status,
    and has changed current_filtered_co2 from 0 to 416. *)
Lemma C6_counterexample :
  let w := fresh_world
             (fresh_handler (buffer_of (spaced_filtered_reply 416)) 1) in
  exists w',
    explorir_request_filtered_co2 3 (fun _ => None) w = Ok EXPLORIR_SUCCESS w'
    /\ EXPLORIR_SUCCESS <> EXPLORIR_ERR_TIMEOUT
    /\ current_filtered_co2 (handler w) = 0
    /\ current_filtered_co2 (handler w') = 416
    /\ explorir_complete_uart_rx w' = false.
Proof.
  intros w. eexists. split; [reflexivity|].
  split; [discriminate|]. repeat split.
Qed.

(** * Further properties of the driver *)

Lemma atoi_digits_app (s t : list Z) : forall acc v,
  atoi_digits s acc = Some v -> atoi_digits (s ++ t) acc = Some v.
Proof.
  induction s as [|c s IH]; intros acc v H; [discriminate|].
  simpl in *. destruct (isdigit c); [apply IH|]; assumption.
Qed.

Lemma atoi_signed_app (s t : list Z) (v : Z) :
  atoi_signed s = Some v -> atoi_signed (s ++ t) = Some v.
Proof.
  destruct s as [|c s]; [discriminate|]. cbn [atoi_signed app].
  destruct (c =? 45).
  - destruct (atoi_digits s 0) as [x|] eqn:E; [|discriminate].
    rewrite (atoi_digits_app s t 0 x E). trivial.
  - destruct (c =? 43); [apply atoi_digits_app|].
    apply (atoi_digits_app (c :: s) t).
Qed.

(** A conversion that has stopped inside a string is not changed by what
    follows the string. *)
Lemma atoi_app (s t : list Z) (v : Z) :
  atoi s = Some v -> atoi (s ++ t) = Some v.
Proof.
  induction s as [|c s IH]; [discriminate|].
  cbn [atoi app]. destruct (isspace c); [exact IH|].
  apply (atoi_signed_app (c :: s) t).
Qed.

Lemma skip_zeros_leading (mid : list Z) : forall (t : list Z) (i : Z) (z : nat),
  leading_zeros mid = Some z ->
  0 <= i -> i + Z.of_nat (length mid) < 65536 ->
  skip_zeros (mid ++ t) i = inl (i + Z.of_nat z)
  /\ (z < length mid)%nat.
Proof.
  induction mid as [|c mid IH]; intros t i z Hz Hi Hb; [discriminate|].
  cbn [leading_zeros skip_zeros app] in *.
  destruct (c =? 48).
  - destruct (leading_zeros mid) as [z'|] eqn:E; [|discriminate].
    injection Hz as <-.
    assert (Hw : wrap16 (i + 1) = i + 1).
    { unfold wrap16. apply Z.mod_small. cbn [length] in Hb. lia. }
    rewrite Hw.
    destruct (IH t (i + 1) z' eq_refl) as [Hs Hl];
      [lia|cbn [length] in Hb; lia|].
    rewrite Hs. split; [f_equal; lia|cbn [length]; lia].
  - injection Hz as <-. split; [f_equal; lia|cbn [length]; lia].
Qed.

(** The field after a tag depends on the bytes from the tag's index plus 2
    on, and on no more of them than the leading zeros and [atoi] visit. *)
Lemma read_field_window (lead mid tail : list Z) (i v : Z) :
  0 <= i -> Z.of_nat (length lead) = i + 2 ->
  i + 2 + Z.of_nat (length mid) < 65536 ->
  (4 <= length tail)%nat ->
  window_reads mid v = true ->
  read_field (lead ++ mid ++ tail) i = Field v.
Proof.
  intros Hi Hlead Hb Htail Hw. unfold window_reads in Hw.
  destruct (leading_zeros mid) as [z|] eqn:Hz; [|discriminate].
  destruct (atoi (firstn 5 (skipn z mid))) as [x|] eqn:Ha; [|discriminate].
  apply Z.eqb_eq in Hw. subst x.
  unfold read_field.
  assert (Hw2 : wrap16 (i + 2) = i + 2)
    by (unfold wrap16; apply Z.mod_small; lia).
  rewrite Hw2.
  assert (Hn : Z.to_nat (i + 2) = length lead) by lia.
  assert (Hs1 : skipn (Z.to_nat (i + 2)) (lead ++ mid ++ tail) = mid ++ tail).
  { rewrite Hn, skipn_app, skipn_all, Nat.sub_diag. reflexivity. }
  rewrite Hs1.
  destruct (skip_zeros_leading mid tail (i + 2) z Hz) as [Hsk Hzl]; [lia|lia|].
  rewrite Hsk.
  assert (Hs2 : skipn (Z.to_nat (i + 2 + Z.of_nat z)) (lead ++ mid ++ tail)
                = skipn z mid ++ tail).
  { replace (Z.to_nat (i + 2 + Z.of_nat z)) with (length lead + z)%nat by lia.
    rewrite skipn_app, skipn_all2 by lia.
    replace (length lead + z - length lead)%nat with z by lia.
    rewrite skipn_app.
    replace (z - length mid)%nat with 0%nat by lia. reflexivity. }
  cbv zeta. rewrite Hs2.
  assert (Hlen : length (skipn z mid) = (length mid - z)%nat)
    by apply length_skipn.
  assert (Hl5 : (length (firstn 5 (skipn z mid ++ tail)) <? 5)%nat = false).
  { apply Nat.ltb_ge. rewrite length_firstn, length_app. lia. }
  rewrite Hl5, firstn_app.
  rewrite (atoi_app _ _ v Ha). reflexivity.
Qed.

(** ** Which bytes write which field *)

Ltac keeps_tac :=
  unfold keeps; intros h i c Ht; cbv beta in Ht;
  unfold scan_case, with_field;
  repeat match type of Ht with
         | (_ || _) = false => apply orb_false_elim in Ht; destruct Ht as [Ht ?]
         end;
  repeat match goal with
         | E : (c =? _) = false |- _ => rewrite ?E; clear E
         end;
  cbn [orb];
  repeat match goal with
         | |- context [if ?b then _ else _] => destruct b
         end;
  destruct (read_field (explorir_data h) i); reflexivity.

Lemma keeps_scaling_factor :
  keeps scaling_factor (fun c => c =? SCALING_FACTOR).
Proof. keeps_tac. Qed.

Lemma keeps_filtered :
  keeps current_filtered_co2 (fun c => c =? FILTERED_CO2_MEASUREMENT).
Proof. keeps_tac. Qed.

Lemma keeps_unfiltered :
  keeps current_unfiltered_co2 (fun c => c =? UNFILTERED_CO2_MEASUREMENT).
Proof. keeps_tac. Qed.

Lemma keeps_mode : keeps current_mode (fun c => c =? OPERATION_MODE).
Proof. keeps_tac. Qed.

Lemma keeps_digital_filter :
  keeps digital_filter
    (fun c => (c =? SET_DIGITAL_FILTER) || (c =? GET_DIGITAL_FILTER)).
Proof. keeps_tac. Qed.

Lemma keeps_zero_point :
  keeps zero_point
    (fun c => (c =? FINE_TUNE_ZERO_POINT)
              || (c =? SET_ZERO_POINT_USING_FRESH_AIR)
              || (c =? SET_ZERO_POINT_USING_KNOWN_GAS)
              || (c =? SET_ZERO_POINT_USING_NITROGEN)
              || (c =? MANUALLY_SET_ZERO_POINT)).
Proof. keeps_tac. Qed.

Lemma keeps_compensation :
  keeps pressure_and_concentration_compensation
    (fun c => (c =? SET_PRESSURE_AND_CONCENTRATION_COMPENSATION)
              || (c =? GET_PRESSURE_AND_CONCENTRATION_COMPENSATION)).
Proof. keeps_tac. Qed.

Lemma scan_keeps (proj : explorir_handler_t -> Z) (tags : Z -> bool) :
  keeps proj tags ->
  forall n h i,
    (forall c, In c (explorir_data h) -> tags c = false) ->
    proj (final (scan n h i)) = proj h.
Proof.
  intros Hk. induction n as [|n IH]; intros h i Hno; [reflexivity|].
  simpl. destruct (read h i) as [c|] eqn:Hr; [|reflexivity].
  destruct (c =? TERMINATE); [reflexivity|].
  assert (Hc : tags c = false).
  { apply Hno. unfold read in Hr. exact (nth_error_In _ _ Hr). }
  pose proof (Hk h i c Hc) as Hp.
  pose proof (scan_case_data h i c) as Hd.
  destruct (scan_case h i c) as [h' i'|h'|f h']; simpl; try exact Hp.
  rewrite IH; [exact Hp|]. rewrite Hd. exact Hno.
Qed.

Lemma final_process (n : nat) (h : explorir_handler_t) :
  final (explorir_process_response n h) = final (scan n h 0)
  \/ final (explorir_process_response n h) = clear_data (final (scan n h 0)).
Proof.
  unfold explorir_process_response.
  destruct (scan n h 0); [right|left]; reflexivity.
Qed.

(** X1.  explorir_process_response never writes err_code: whatever the
    buffer holds and however the call ends, err_code is what it was. *)
Theorem X1_scanner_never_writes_err_code :
  forall fuel h,
    err_code (final (explorir_process_response fuel h)) = err_code h.
Proof.
  intros fuel h.
  destruct (final_process fuel h) as [E|E]; rewrite E;
    [|unfold clear_data; cbn [err_code set_explorir_data]];
    apply scan_err_code.
Qed.

Lemma process_keeps (proj : explorir_handler_t -> Z) (tags : Z -> bool) :
  keeps proj tags ->
  (forall h d, proj (set_explorir_data h d) = proj h) ->
  forall n h,
    (forall c, In c (explorir_data h) -> tags c = false) ->
    proj (final (explorir_process_response n h)) = proj h.
Proof.
  intros Hk Hset n h Hno.
  destruct (final_process n h) as [E|E]; rewrite E;
    [|unfold clear_data; rewrite Hset];
    apply (scan_keeps proj tags Hk); exact Hno.
Qed.

Lemma absent_tag (data : list Z) (t c : Z) :
  ~ In t data -> In c data -> (c =? t) = false.
Proof.
  intros Hno Hin. apply Z.eqb_neq. intros ->. exact (Hno Hin).
Qed.

(** X2.  Each cached value is written only at its own tags: a call on a
    buffer in which none of the tag bytes of a field occurs ends, however it
    ends, with that field as it was. *)
Theorem X2_field_written_only_at_its_tags :
  forall fuel h,
    let d := explorir_data h in
    let h' := final (explorir_process_response fuel h) in
    (~ In SCALING_FACTOR d -> scaling_factor h' = scaling_factor h)
    /\ (~ In FILTERED_CO2_MEASUREMENT d ->
        current_filtered_co2 h' = current_filtered_co2 h)
    /\ (~ In UNFILTERED_CO2_MEASUREMENT d ->
        current_unfiltered_co2 h' = current_unfiltered_co2 h)
    /\ (~ In OPERATION_MODE d -> current_mode h' = current_mode h)
    /\ (~ In SET_DIGITAL_FILTER d -> ~ In GET_DIGITAL_FILTER d ->
        digital_filter h' = digital_filter h)
    /\ (~ In FINE_TUNE_ZERO_POINT d -> ~ In SET_ZERO_POINT_USING_FRESH_AIR d ->
        ~ In SET_ZERO_POINT_USING_KNOWN_GAS d ->
        ~ In SET_ZERO_POINT_USING_NITROGEN d ->
        ~ In MANUALLY_SET_ZERO_POINT d ->
        zero_point h' = zero_point h)
    /\ (~ In SET_PRESSURE_AND_CONCENTRATION_COMPENSATION d ->
        ~ In GET_PRESSURE_AND_CONCENTRATION_COMPENSATION d ->
        pressure_and_concentration_compensation h'
          = pressure_and_concentration_compensation h).
Proof.
  intros fuel h d h'. subst d h'.
  repeat split; intros.
  - apply (process_keeps _ _ keeps_scaling_factor); [reflexivity|].
    intros c Hc. apply (absent_tag (explorir_data h)); assumption.
  - apply (process_keeps _ _ keeps_filtered); [reflexivity|].
    intros c Hc. apply (absent_tag (explorir_data h)); assumption.
  - apply (process_keeps _ _ keeps_unfiltered); [reflexivity|].
    intros c Hc. apply (absent_tag (explorir_data h)); assumption.
  - apply (process_keeps _ _ keeps_mode); [reflexivity|].
    intros c Hc. apply (absent_tag (explorir_data h)); assumption.
  - apply (process_keeps _ _ keeps_digital_filter); [reflexivity|].
    intros c Hc.
    rewrite !(absent_tag (explorir_data h)) by assumption. reflexivity.
  - apply (process_keeps _ _ keeps_zero_point); [reflexivity|].
    intros c Hc.
    rewrite !(absent_tag (explorir_data h)) by assumption. reflexivity.
  - apply (process_keeps _ _ keeps_compensation); [reflexivity|].
    intros c Hc.
    rewrite !(absent_tag (explorir_data h)) by assumption. reflexivity.
Qed.

Lemma absent_by_check (t : Z) (data : list Z) :
  forallb (fun c => negb (c =? t)) data = true -> ~ In t data.
Proof.
  intros Hall Hin. rewrite forallb_forall in Hall.
  specialize (Hall t Hin). rewrite Z.eqb_refl in Hall. discriminate.
Qed.

Lemma X2_field_written_only_at_its_tags_witness :
  let h := mkHandler (buffer_of (bytes " z 00050" ++ CRLF))
             EXPLORIR_SUCCESS 10 4160 0 16 400 8192 0 in
  let h' := final (explorir_process_response 2 h) in
  scaling_factor h' = 10 /\ current_filtered_co2 h' = 4160
  /\ digital_filter h' = 16 /\ zero_point h' = 400
  /\ pressure_and_concentration_compensation h' = 8192.
Proof.
  intros h h'.
  destruct (X2_field_written_only_at_its_tags 2 h)
    as [Hs [Hf [_ [_ [Hd [Hz Hp]]]]]].
  split; [apply Hs; apply absent_by_check; reflexivity|].
  split; [apply Hf; apply absent_by_check; reflexivity|].
  split; [apply Hd; apply absent_by_check; reflexivity|].
  split; [apply Hz; apply absent_by_check; reflexivity|].
  apply Hp; apply absent_by_check; reflexivity.
Defined.

(** The five-digit fields that start with a '0', followed by the end of a
    line or by the next tag, are read as their value: checked on each of the
    10000 values.  After "\r\n" a further byte has to stop [atoi] when the
    value is 0, since "\r" and "\n" are white space to it. *)
Lemma window_zero_pad5 (v : Z) :
  0 <= v <= 9999 ->
  window_reads (zero_pad5 v ++ CRLF ++ [0]) v = true
  /\ window_reads (zero_pad5 v ++ bytes " z") v = true
  /\ (1 <= v -> window_reads (zero_pad5 v ++ CRLF) v = true).
Proof.
  intros Hv.
  assert (Hall : forallb (fun n =>
            window_reads (zero_pad5 n ++ CRLF ++ [0]) n
            && window_reads (zero_pad5 n ++ bytes " z") n
            && ((n =? 0) || window_reads (zero_pad5 n ++ CRLF) n))
            (zrange (Z.to_nat 10000) 0) = true)
    by (vm_compute; reflexivity).
  rewrite forallb_forall in Hall.
  specialize (Hall v ltac:(apply in_zrange; lia)).
  apply andb_prop in Hall. destruct Hall as [Hall H3].
  apply andb_prop in Hall. destruct Hall as [H1 H2].
  split; [exact H1|]. split; [exact H2|].
  intros Hpos. apply orb_prop in H3. destruct H3 as [H3|H3]; [|exact H3].
  apply Z.eqb_eq in H3. lia.
Qed.

Lemma small_fits (v : Z) :
  0 <= v <= 9999 -> wrap16 v = v /\ wrap32 v = v.
Proof.
  intros Hv. unfold wrap16, wrap32. split; apply Z.mod_small; lia.
Qed.

Lemma tagged_reply_field (h : explorir_handler_t) (c v : Z) :
  0 <= v <= 9999 ->
  explorir_data h = buffer_of (tagged_reply c v) ->
  read h 0 = Some c /\ read_field (explorir_data h) 0 = Field v.
Proof.
  intros Hv Hd. split; [unfold read; rewrite Hd; reflexivity|].
  rewrite Hd.
  change (buffer_of (tagged_reply c v))
    with ([c; SPACE] ++ (zero_pad5 v ++ CRLF ++ [0]) ++ repeat 0 118).
  apply read_field_window; [lia|reflexivity|simpl; lia|simpl; lia|].
  apply window_zero_pad5. exact Hv.
Qed.

(** X3.  A reply "T #####\r\n" with a tag T other than 'Z' and a value of at
    most 9999, in a buffer otherwise zero, is taken in the first pass of
    the loop: the call returns with the value in the field of T (the
    unfiltered reading times the scaling factor, the scaling factor, the
    mode as a bare number, the digital filter, the zero point or the
    compensation), the other fields as they were, and the buffer cleared. *)
Theorem X3_single_field_replies :
  forall h c v fuel,
    0 <= v <= 9999 -> (1 <= fuel)%nat ->
    explorir_data h = buffer_of (tagged_reply c v) ->
    (c = UNFILTERED_CO2_MEASUREMENT ->
       explorir_process_response fuel h =
         Returned (clear_data (set_current_unfiltered_co2 h
                                 (wrap32 (v * scaling_factor h)))))
    /\ (c = SCALING_FACTOR ->
        explorir_process_response fuel h =
          Returned (clear_data (set_scaling_factor h v)))
    /\ (c = OPERATION_MODE ->
        explorir_process_response fuel h =
          Returned (clear_data (set_current_mode h v)))
    /\ (c = SET_DIGITAL_FILTER \/ c = GET_DIGITAL_FILTER ->
        explorir_process_response fuel h =
          Returned (clear_data (set_digital_filter h v)))
    /\ (c = FINE_TUNE_ZERO_POINT \/ c = SET_ZERO_POINT_USING_FRESH_AIR \/
        c = SET_ZERO_POINT_USING_KNOWN_GAS \/
        c = SET_ZERO_POINT_USING_NITROGEN \/ c = MANUALLY_SET_ZERO_POINT ->
        explorir_process_response fuel h =
          Returned (clear_data (set_zero_point h v)))
    /\ (c = SET_PRESSURE_AND_CONCENTRATION_COMPENSATION \/
        c = GET_PRESSURE_AND_CONCENTRATION_COMPENSATION ->
        explorir_process_response fuel h =
          Returned (clear_data
                      (set_pressure_and_concentration_compensation h v))).
Proof.
  intros h c v fuel Hv Hfuel Hd.
  destruct (tagged_reply_field h c v Hv Hd) as [Hread Hfield].
  destruct (small_fits v Hv) as [H16 H32].
  destruct (scan_tag h 0 c v Hread Hfield)
    as [_ [Hz [Hs [Hm [Hf [Hzp Hp]]]]]].
  rewrite H16 in Hs. rewrite H32 in Hf, Hzp, Hp.
  unfold explorir_process_response.
  replace fuel with (S (fuel - 1)) by lia.
  repeat split; intros E;
    [rewrite (Hz E)|rewrite (Hs E)|rewrite (Hm E)|rewrite (Hf E)
    |rewrite (Hzp E)|rewrite (Hp E)]; reflexivity.
Qed.

Lemma X3_single_field_replies_witness :
  let h := fresh_handler (buffer_of (tagged_reply GET_DIGITAL_FILTER 16)) 1 in
  explorir_process_response 1 h
    = Returned (clear_data (set_digital_filter h 16)).
Proof.
  intros h.
  destruct (X3_single_field_replies h GET_DIGITAL_FILTER 16 1)
    as [_ [_ [_ [Hf _]]]]; [lia|lia|reflexivity|].
  apply Hf. right. reflexivity.
Defined.

(** A filtered reading framed by the sensor, " Z #####\r\n", possibly with
    more bytes [extra] taken into the field, in front of any [tail]. *)
Lemma spaced_filtered_scan (h : explorir_handler_t)
    (f5 extra tail : list Z) (v : Z) (fuel : nat) :
  length f5 = 5%nat ->
  explorir_data h = bytes " Z " ++ (f5 ++ CRLF ++ extra) ++ tail ->
  length (explorir_data h) = 128%nat -> (4 <= length tail)%nat ->
  window_reads (f5 ++ CRLF ++ extra) v = true ->
  (3 <= fuel)%nat ->
  explorir_process_response fuel h =
    Returned (clear_data (set_current_filtered_co2 h
                            (wrap32 (v * scaling_factor h)))).
Proof.
  intros H5 Hd Hl Htail Hw Hfuel.
  assert (Hread : read h 1 = Some FILTERED_CO2_MEASUREMENT)
    by (unfold read; rewrite Hd; reflexivity).
  assert (Hfield : read_field (explorir_data h) 1 = Field v).
  { rewrite Hd. apply read_field_window;
      [lia|reflexivity| |exact Htail|exact Hw].
    rewrite Hd in Hl. revert Hl. generalize (f5 ++ CRLF ++ extra).
    intros mid Hl. rewrite !length_app in Hl. lia. }
  destruct (scan_tag h 1 _ v Hread Hfield) as [HZ _].
  unfold explorir_process_response.
  replace fuel with (1 + S (S (fuel - 3)))%nat by lia.
  rewrite (scan_plain_run 1 h 0 _ Hl); [|lia|].
  - change (0 + Z.of_nat 1) with 1. rewrite (HZ eq_refl).
    cbn [scan]. unfold read. cbn [explorir_data set_current_filtered_co2].
    rewrite Hd.
    destruct f5 as [|d1 [|d2 [|d3 [|d4 [|d5 [|d6 f5]]]]]];
      try discriminate H5.
    reflexivity.
  - intros q Hq. assert (q = 0) as -> by lia.
    exists 32. unfold read. rewrite Hd.
    split; [reflexivity|]. split; [discriminate|reflexivity].
Qed.

Lemma zero_pad5_length (v : Z) : length (zero_pad5 v) = 5%nat.
Proof. reflexivity. Qed.

(** The same for the unfiltered reading, " z #####\r\n". *)
Lemma spaced_unfiltered_scan (h : explorir_handler_t)
    (f5 extra tail : list Z) (v : Z) (fuel : nat) :
  length f5 = 5%nat ->
  explorir_data h = bytes " z " ++ (f5 ++ CRLF ++ extra) ++ tail ->
  length (explorir_data h) = 128%nat -> (4 <= length tail)%nat ->
  window_reads (f5 ++ CRLF ++ extra) v = true ->
  (2 <= fuel)%nat ->
  explorir_process_response fuel h =
    Returned (clear_data (set_current_unfiltered_co2 h
                            (wrap32 (v * scaling_factor h)))).
Proof.
  intros H5 Hd Hl Htail Hw Hfuel.
  assert (Hread : read h 1 = Some UNFILTERED_CO2_MEASUREMENT)
    by (unfold read; rewrite Hd; reflexivity).
  assert (Hfield : read_field (explorir_data h) 1 = Field v).
  { rewrite Hd. apply read_field_window;
      [lia|reflexivity| |exact Htail|exact Hw].
    rewrite Hd in Hl. revert Hl. generalize (f5 ++ CRLF ++ extra).
    intros mid Hl. rewrite !length_app in Hl. lia. }
  destruct (scan_tag h 1 _ v Hread Hfield) as [_ [Hz _]].
  unfold explorir_process_response.
  replace fuel with (1 + S (fuel - 2))%nat by lia.
  rewrite (scan_plain_run 1 h 0 _ Hl); [|lia|].
  - change (0 + Z.of_nat 1) with 1. rewrite (Hz eq_refl). reflexivity.
  - intros q Hq. assert (q = 0) as -> by lia.
    exists 32. unfold read. rewrite Hd.
    split; [reflexivity|]. split; [discriminate|reflexivity].
Qed.

(** The scanner call of an operation when the transport has delivered the
    response [p] and the scan of the buffer returns. *)
Lemma process_response_delivered (fuel : nat) (rx : nat -> option (list Z))
    (w : world) (p : list Z) (h' : explorir_handler_t) :
  rx (scans w) = Some p -> (length p <= 128)%nat ->
  explorir_process_response fuel
    (set_explorir_data (handler w)
       (p ++ skipn (length p) (explorir_data (handler w)))) = Returned h' ->
  process_response fuel rx w
    = Ok tt (mkWorld h' (sent w) (S (scans w)) (explorir_complete_uart_rx w)).
Proof.
  intros Hrx Hlen Hscan. unfold process_response, explorir_update_data.
  rewrite Hrx.
  replace (Z.of_nat (length p) <=? UART_RX_BUF_SIZE) with true
    by (symmetry; apply Z.leb_le; unfold UART_RX_BUF_SIZE; lia).
  rewrite Hscan. reflexivity.
Qed.

Lemma delivered_length (p old : list Z) :
  (length p <= 128)%nat -> length old = 128%nat ->
  length (p ++ skipn (length p) old) = 128%nat.
Proof.
  intros Hp Hold. rewrite length_app, length_skipn. lia.
Qed.

(** X4.  A request and its reply.  When the response " Z #####\r\n" (or
    " z #####\r\n") with a value from 1 to 9999 has been delivered by
    explorir_update_data, over whatever the 128-byte buffer held before,
    explorir_request_filtered_co2 (explorir_request_unfiltered_co2) sends
    its frame, returns the stored err_code, leaves the value times the
    scaling factor for explorir_get_filtered_co2
    (explorir_get_unfiltered_co2), and clears the buffer. *)
Theorem X4_request_reads_delivered_reading :
  forall fuel rx w v,
    1 <= v <= 9999 -> 0 <= scaling_factor (handler w) <= 65535 ->
    length (explorir_data (handler w)) = 128%nat -> (3 <= fuel)%nat ->
    (rx (scans w) = Some (spaced_filtered_reply v) ->
       exists w',
         explorir_request_filtered_co2 fuel rx w = Ok (err_code (handler w)) w'
         /\ explorir_get_filtered_co2 (handler w')
            = v * scaling_factor (handler w)
         /\ sent w' = sent w ++ [bytes "Z" ++ CRLF]
         /\ explorir_data (handler w') = repeat 0 128)
    /\ (rx (scans w) = Some (spaced_unfiltered_reply v) ->
        exists w',
          explorir_request_unfiltered_co2 fuel rx w
            = Ok (err_code (handler w)) w'
          /\ explorir_get_unfiltered_co2 (handler w')
             = v * scaling_factor (handler w)
          /\ sent w' = sent w ++ [bytes "z" ++ CRLF]
          /\ explorir_data (handler w') = repeat 0 128).
Proof.
  intros fuel rx w v Hv Hs Hl Hfuel.
  destruct (window_zero_pad5 v ltac:(lia)) as [_ [_ Hw]].
  specialize (Hw ltac:(lia)).
  rewrite <- (app_nil_r CRLF) in Hw.
  split; intros Hrx.
  - assert (Hscan := spaced_filtered_scan
        (set_explorir_data (handler w)
           (spaced_filtered_reply v
            ++ skipn (length (spaced_filtered_reply v))
                 (explorir_data (handler w))))
        (zero_pad5 v) [] (skipn 10 (explorir_data (handler w))) v fuel
        eq_refl).
    rewrite product_fits in Hscan by (simpl; lia).
    eexists. split.
    + unfold explorir_request_filtered_co2, bind, explorir_tx.
      erewrite process_response_delivered;
        [|exact Hrx|simpl; lia|apply Hscan].
      * reflexivity.
      * cbn [explorir_data set_explorir_data]. unfold spaced_filtered_reply.
        rewrite <- !app_assoc. reflexivity.
      * cbn [explorir_data set_explorir_data].
        apply delivered_length; [simpl; lia|exact Hl].
      * rewrite length_skipn. lia.
      * exact Hw.
      * exact Hfuel.
    + cbn. repeat split.
  - assert (Hscan := spaced_unfiltered_scan
        (set_explorir_data (handler w)
           (spaced_unfiltered_reply v
            ++ skipn (length (spaced_unfiltered_reply v))
                 (explorir_data (handler w))))
        (zero_pad5 v) [] (skipn 10 (explorir_data (handler w))) v fuel
        eq_refl).
    rewrite product_fits in Hscan by (simpl; lia).
    eexists. split.
    + unfold explorir_request_unfiltered_co2, bind, explorir_tx.
      erewrite process_response_delivered;
        [|exact Hrx|simpl; lia|apply Hscan].
      * reflexivity.
      * cbn [explorir_data set_explorir_data]. unfold spaced_unfiltered_reply.
        rewrite <- !app_assoc. reflexivity.
      * cbn [explorir_data set_explorir_data].
        apply delivered_length; [simpl; lia|exact Hl].
      * rewrite length_skipn. lia.
      * exact Hw.
      * lia.
    + cbn. repeat split.
Qed.

Lemma X4_request_reads_delivered_reading_witness :
  let w := fresh_world (fresh_handler (buffer_of combined_reply) 10) in
  let rx := fun _ : nat => Some (spaced_filtered_reply 416) in
  exists w',
    explorir_request_filtered_co2 3 rx w = Ok EXPLORIR_SUCCESS w'
    /\ explorir_get_filtered_co2 (handler w') = 416 * 10
    /\ sent w' = [bytes "Z" ++ CRLF]
    /\ explorir_data (handler w') = repeat 0 128.
Proof.
  intros w rx.
  destruct (X4_request_reads_delivered_reading 3 rx w 416) as [Hf _];
    [lia|simpl; lia|reflexivity|lia|].
  exact (Hf eq_refl).
Defined.

(** After "\r\n", which [atoi] skips as white space, a digit and a byte
    that is not a digit are converted. *)
Lemma atoi_after_newline (c x : Z) (t : list Z) :
  49 <= c <= 57 -> isdigit x = false ->
  atoi (CR :: LF :: c :: x :: t) = Some (c - 48).
Proof.
  intros Hc Hx.
  assert (Hsp : isspace c = false).
  { unfold isspace. apply orb_false_intro; [apply Z.eqb_neq; lia|].
    apply andb_false_intro2. apply Z.leb_gt. lia. }
  assert (Hd : isdigit c = true).
  { unfold isdigit. apply andb_true_intro. split; apply Z.leb_le; lia. }
  assert (H45 : (c =? 45) = false) by (apply Z.eqb_neq; lia).
  assert (H43 : (c =? 43) = false) by (apply Z.eqb_neq; lia).
  cbn [atoi]. change (isspace CR) with true. change (isspace LF) with true.
  cbv iota. rewrite Hsp. unfold atoi_signed. rewrite H45, H43.
  cbn [atoi_digits]. rewrite Hd, Hx. f_equal; lia.
Qed.

Lemma window_zero_then_digit (d x : Z) :
  1 <= d <= 9 -> isdigit x = false ->
  window_reads (zero_pad5 0 ++ CRLF ++ [48 + d; x]) d = true.
Proof.
  intros Hd Hx. unfold window_reads.
  change (leading_zeros (zero_pad5 0 ++ CRLF ++ [48 + d; x])) with (Some 5%nat).
  cbv beta iota.
  change (firstn 5 (skipn 5 (zero_pad5 0 ++ CRLF ++ [48 + d; x])))
    with [CR; LF; 48 + d; x].
  rewrite atoi_after_newline by (lia || assumption).
  apply Z.eqb_eq. lia.
Qed.

Lemma skipn_two (old : list Z) (n : nat) (a b : Z) :
  nth_error old n = Some a -> nth_error old (S n) = Some b ->
  skipn n old = a :: b :: skipn (S (S n)) old.
Proof.
  revert old. induction n as [|n IH]; intros old Ha Hb.
  - destruct old as [|a' [|b' old]]; try discriminate.
    simpl in *. congruence.
  - destruct old as [|a' old]; [discriminate|].
    simpl in *. apply IH; assumption.
Qed.

(** X5.  A zero reading over bytes that were not cleared.  explorir_update_data
    overwrites only as many bytes as the response has.  When " Z 00000\r\n"
    is delivered over a buffer whose byte at offset 10 is still a digit d
    from 1 to 9, followed by a byte that is not a digit, the scan skips the
    five zeros, [atoi] passes over "\r\n" as white space, and the reading
    stored is d times the scaling factor instead of 0. *)
Theorem X5_zero_reading_takes_up_stale_digit :
  forall h d x fuel,
    1 <= d <= 9 -> isdigit x = false ->
    length (explorir_data h) = 128%nat ->
    nth_error (explorir_data h) 10 = Some (48 + d) ->
    nth_error (explorir_data h) 11 = Some x ->
    0 <= scaling_factor h <= 65535 -> (3 <= fuel)%nat ->
    exists h1,
      explorir_update_data (spaced_filtered_reply 0) h = Returned h1
      /\ explorir_process_response fuel h1 =
           Returned (clear_data (set_current_filtered_co2 h1
                                   (d * scaling_factor h))).
Proof.
  intros h d x fuel Hd Hx Hl H10 H11 Hs Hfuel.
  eexists. split; [reflexivity|].
  change (length (spaced_filtered_reply 0)) with 10%nat.
  rewrite (skipn_two _ 10 _ _ H10 H11).
  set (h1 := set_explorir_data h _).
  assert (Hscan := spaced_filtered_scan h1 (zero_pad5 0) [48 + d; x]
            (skipn 12 (explorir_data h)) d fuel eq_refl eq_refl).
  change (scaling_factor h1) with (scaling_factor h) in Hscan.
  rewrite product_fits in Hscan by lia.
  apply Hscan.
  - unfold h1. cbn [explorir_data set_explorir_data].
    change (length (spaced_filtered_reply 0 ++ (48 + d) :: x ::
                      skipn 12 (explorir_data h)))
      with (S (S (S (S (S (S (S (S (S (S (S (S
              (length (skipn 12 (explorir_data h))))))))))))))).
    rewrite length_skipn. lia.
  - rewrite length_skipn. lia.
  - apply window_zero_then_digit; assumption.
  - exact Hfuel.
Qed.

Lemma X5_zero_reading_takes_up_stale_digit_witness :
  let h := fresh_handler (buffer_of (bytes "serial 00 7 x" ++ CRLF)) 10 in
  exists h1,
    explorir_update_data (spaced_filtered_reply 0) h = Returned h1
    /\ explorir_process_response 3 h1 =
         Returned (clear_data (set_current_filtered_co2 h1 (7 * 10))).
Proof.
  intros h.
  apply (X5_zero_reading_takes_up_stale_digit h 7 32 3);
    [lia|reflexivity|reflexivity|reflexivity|reflexivity|simpl; lia|lia].
Defined.

(** X6.  The reply with both readings.  For all values v1 and v2 of at most
    9999 and a 16-bit scaling factor s, one call on
    " Z " + zero_pad5(v1) + " z " + zero_pad5(v2) + "\r\n" returns with
    current_filtered_co2 = v1 * s and current_unfiltered_co2 = v2 * s, the
    other fields as they were and the buffer cleared. *)
Theorem X6_both_readings_in_one_call :
  forall h v1 v2 fuel,
    0 <= v1 <= 9999 -> 0 <= v2 <= 9999 ->
    0 <= scaling_factor h <= 65535 -> (3 <= fuel)%nat ->
    explorir_data h = buffer_of (both_reply v1 v2) ->
    explorir_process_response fuel h =
      Returned (clear_data
                  (set_current_unfiltered_co2
                     (set_current_filtered_co2 h (v1 * scaling_factor h))
                     (v2 * scaling_factor h))).
Proof.
  intros h v1 v2 fuel Hv1 Hv2 Hs Hfuel Hd.
  assert (Hl : length (explorir_data h) = 128%nat)
    by (rewrite Hd; apply buffer_of_length; simpl; lia).
  destruct (window_zero_pad5 v1 Hv1) as [_ [Hw1 _]].
  destruct (window_zero_pad5 v2 Hv2) as [Hw2 _].
  assert (Hread1 : read h 1 = Some FILTERED_CO2_MEASUREMENT)
    by (unfold read; rewrite Hd; reflexivity).
  assert (Hfield1 : read_field (explorir_data h) 1 = Field v1).
  { rewrite Hd.
    change (buffer_of (both_reply v1 v2))
      with (bytes " Z " ++ (zero_pad5 v1 ++ bytes " z")
              ++ ([SPACE] ++ zero_pad5 v2 ++ CRLF ++ repeat 0 110)).
    apply read_field_window; [lia|reflexivity|simpl; lia|simpl; lia|].
    exact Hw1. }
  set (h1 := set_current_filtered_co2 h (wrap32 (v1 * scaling_factor h))).
  assert (Hread2 : read h1 9 = Some UNFILTERED_CO2_MEASUREMENT)
    by (unfold read, h1; cbn [explorir_data set_current_filtered_co2];
        rewrite Hd; reflexivity).
  assert (Hfield2 : read_field (explorir_data h1) 9 = Field v2).
  { unfold h1. cbn [explorir_data set_current_filtered_co2]. rewrite Hd.
    change (buffer_of (both_reply v1 v2))
      with ((bytes " Z " ++ zero_pad5 v1 ++ bytes " z ")
              ++ (zero_pad5 v2 ++ CRLF ++ [0]) ++ repeat 0 109).
    apply read_field_window; [lia|reflexivity|simpl; lia|simpl; lia|].
    exact Hw2. }
  destruct (scan_tag h 1 _ v1 Hread1 Hfield1) as [HZ _].
  destruct (scan_tag h1 9 _ v2 Hread2 Hfield2) as [_ [Hz _]].
  unfold explorir_process_response.
  replace fuel with (1 + S (S (fuel - 3)))%nat by lia.
  rewrite (scan_plain_run 1 h 0 _ Hl); [|lia|].
  - change (0 + Z.of_nat 1) with 1.
    rewrite (HZ eq_refl). fold h1. rewrite (Hz eq_refl).
    change (scaling_factor h1) with (scaling_factor h). unfold h1.
    rewrite !product_fits by assumption. reflexivity.
  - intros q Hq. assert (q = 0) as -> by lia.
    exists 32. unfold read. rewrite Hd.
    split; [reflexivity|]. split; [discriminate|reflexivity].
Qed.

Lemma X6_both_readings_in_one_call_witness :
  let h := fresh_handler (buffer_of (both_reply 416 420)) 10 in
  explorir_process_response 3 h =
    Returned (clear_data
                (set_current_unfiltered_co2
                   (set_current_filtered_co2 h (416 * 10)) (420 * 10))).
Proof.
  intros h.
  apply (X6_both_readings_in_one_call h 416 420 3);
    [lia|lia|simpl; lia|lia|reflexivity].
Defined.

Lemma digital_filter_sent (fuel : nat) (rx : nat -> option (list Z))
    (filter : Z) (w : world) :
  0 <= filter <= 65365 ->
  sent (world_of (explorir_set_digital_filter fuel rx filter w))
  = sent w ++ [bytes "A " ++ sprintf_d filter ++ CRLF].
Proof.
  intros Hf.
  assert (Hneg : (filter <? 0) = false) by (apply Z.ltb_ge; lia).
  assert (Hd : sprintf_d filter = decimal 10 filter)
    by (unfold sprintf_d; rewrite Hneg; reflexivity).
  destruct (decimal_spec 10 5 filter) as [_ [_ [Hlen _]]];
    [lia|simpl; lia|].
  rewrite <- Hd in Hlen.
  destruct (compile_message_frame (byte_of_ascii "A") (sprintf_d filter) Hlen)
    as [_ Hframe].
  unfold explorir_set_digital_filter.
  replace (MAX_DIGITAL_FILTER <? filter) with false
    by (symmetry; apply Z.ltb_ge; unfold MAX_DIGITAL_FILTER; lia).
  replace (filter <? MIN_DIGITAL_FILTER) with false
    by (symmetry; apply Z.ltb_ge; unfold MIN_DIGITAL_FILTER; lia).
  cbn [orb]. rewrite transmit_then_process_sent, Hframe. reflexivity.
Qed.

(** What [sprintf] writes for a number of at most four digits is read back
    by the scanner's field reader: checked on each of the 10000 values. *)
Lemma window_sprintf (n : Z) :
  0 <= n <= 9999 -> window_reads (sprintf_d n ++ CRLF ++ [0]) n = true.
Proof.
  intros Hn.
  assert (Hall : forallb (fun n => window_reads (sprintf_d n ++ CRLF ++ [0]) n)
                   (zrange (Z.to_nat 10000) 0) = true)
    by (vm_compute; reflexivity).
  rewrite forallb_forall in Hall.
  apply Hall. apply in_zrange. lia.
Qed.

(** X7.  Encoder and scanner agree on the digital filter.  For every filter
    of at most 9999, the frame that explorir_set_digital_filter transmits,
    when it is what the receive buffer holds, is read back by
    explorir_process_response as digital_filter = filter, the other fields
    unchanged. *)
Theorem X7_digital_filter_frame_reads_back :
  forall fuel rx w filter,
    0 <= filter <= 9999 ->
    exists frame,
      sent (world_of (explorir_set_digital_filter fuel rx filter w))
        = sent w ++ [frame]
      /\ forall h n,
           explorir_data h = buffer_of frame -> (1 <= n)%nat ->
           explorir_process_response n h =
             Returned (clear_data (set_digital_filter h filter)).
Proof.
  intros fuel rx w filter Hf.
  exists (bytes "A " ++ sprintf_d filter ++ CRLF).
  split; [apply digital_filter_sent; lia|].
  intros h n Hd Hn.
  assert (Hneg : (filter <? 0) = false) by (apply Z.ltb_ge; lia).
  assert (Hdec : sprintf_d filter = decimal 10 filter)
    by (unfold sprintf_d; rewrite Hneg; reflexivity).
  destruct (decimal_spec 10 4 filter) as [_ [_ [Hlen _]]];
    [lia|simpl; lia|].
  rewrite <- Hdec in Hlen.
  assert (Hbuf : buffer_of (bytes "A " ++ sprintf_d filter ++ CRLF)
                 = bytes "A " ++ (sprintf_d filter ++ CRLF ++ [0])
                     ++ repeat 0 (123 - length (sprintf_d filter))).
  { unfold buffer_of. rewrite !length_app.
    change (length (bytes "A ")) with 2%nat.
    change (length CRLF) with 2%nat.
    change (Z.to_nat UART_RX_BUF_SIZE) with 128%nat.
    replace (128 - (2 + (length (sprintf_d filter) + 2)))%nat
      with (S (123 - length (sprintf_d filter))) by lia.
    cbn [repeat]. rewrite <- !app_assoc. reflexivity. }
  assert (Hread : read h 0 = Some SET_DIGITAL_FILTER)
    by (unfold read; rewrite Hd; reflexivity).
  assert (Hfield : read_field (explorir_data h) 0 = Field filter).
  { rewrite Hd, Hbuf.
    apply read_field_window; [lia|reflexivity| | |apply window_sprintf; lia].
    - rewrite !length_app. simpl length. lia.
    - rewrite repeat_length. lia. }
  destruct (scan_tag h 0 _ filter Hread Hfield) as [_ [_ [_ [_ [HA _]]]]].
  unfold explorir_process_response.
  replace n with (S (n - 1)) by lia.
  rewrite (HA (or_introl eq_refl)).
  destruct (small_fits filter Hf) as [_ H32]. rewrite H32. reflexivity.
Qed.

Lemma X7_digital_filter_frame_reads_back_witness :
  let w := fresh_world (fresh_handler (buffer_of []) 1) in
  exists frame,
    sent (world_of (explorir_set_digital_filter 1 (fun _ => None) 16 w))
      = [frame]
    /\ forall h n,
         explorir_data h = buffer_of frame -> (1 <= n)%nat ->
         explorir_process_response n h =
           Returned (clear_data (set_digital_filter h 16)).
Proof.
  intros w.
  apply (X7_digital_filter_frame_reads_back 1 (fun _ => None) w 16). lia.
Defined.

Lemma digit_cases (a : Z) :
  0 <= a <= 9 ->
  a = 0 \/ a = 1 \/ a = 2 \/ a = 3 \/ a = 4 \/ a = 5 \/ a = 6 \/ a = 7
  \/ a = 8 \/ a = 9.
Proof. lia. Qed.

Lemma digit_is_plain (a : Z) :
  0 <= a <= 9 -> is_tag (48 + a) = false /\ 48 + a <> TERMINATE.
Proof.
  intros Ha.
  destruct (digit_cases a Ha) as [E|[E|[E|[E|[E|[E|[E|[E|[E|E]]]]]]]]];
    subst a; split; (reflexivity || discriminate).
Qed.

Lemma window_interval (c d : Z) :
  0 <= c <= 9 -> window_reads [SPACE; 48 + c; 46; 48 + d; CR] c = true.
Proof.
  intros Hc.
  destruct (digit_cases c Hc) as [E|[E|[E|[E|[E|[E|[E|[E|[E|E]]]]]]]]];
    subst c; reflexivity.
Qed.

(** X8.  The response to the auto-zero interval commands, "@ a.b c.d\r\n",
    contains the byte '.', which is the tag of the scaling factor.  The
    scan stops at the first '.', reads the field two bytes further on, and
    the call returns with scaling_factor overwritten by the digit c of the
    regular interval. *)
Theorem X8_auto_zero_reply_overwrites_scaling_factor :
  forall h a b c d fuel,
    0 <= a <= 9 -> 0 <= b <= 9 -> 0 <= c <= 9 -> 0 <= d <= 9 ->
    (4 <= fuel)%nat ->
    explorir_data h = buffer_of (auto_zero_reply a b c d) ->
    explorir_process_response fuel h =
      Returned (clear_data (set_scaling_factor h c)).
Proof.
  intros h a b c d fuel Ha Hb Hc Hdd Hfuel Hd.
  assert (Hl : length (explorir_data h) = 128%nat)
    by (rewrite Hd; apply buffer_of_length; simpl; lia).
  assert (Hread : read h 3 = Some SCALING_FACTOR)
    by (unfold read; rewrite Hd; reflexivity).
  assert (Hfield : read_field (explorir_data h) 3 = Field c).
  { rewrite Hd.
    change (buffer_of (auto_zero_reply a b c d))
      with ((bytes "@ " ++ [48 + a] ++ bytes "." ++ [48 + b])
              ++ [SPACE; 48 + c; 46; 48 + d; CR] ++ LF :: repeat 0 117).
    apply read_field_window; [lia|reflexivity|simpl; lia|simpl; lia|].
    apply window_interval. exact Hc. }
  destruct (scan_tag h 3 _ c Hread Hfield) as [_ [_ [Hs _]]].
  unfold explorir_process_response.
  replace fuel with (3 + S (fuel - 4))%nat by lia.
  rewrite (scan_plain_run 3 h 0 _ Hl); [|lia|].
  - change (0 + Z.of_nat 3) with 3. rewrite (Hs eq_refl).
    unfold wrap16. rewrite Z.mod_small by lia. reflexivity.
  - intros q Hq. destruct (digit_is_plain a Ha) as [Htag Hterm].
    assert (Hcases : q = 0 \/ q = 1 \/ q = 2) by lia.
    unfold plain_at, read. rewrite Hd.
    destruct Hcases as [E|[E|E]]; subst q.
    + exists 64. split; [reflexivity|]. split; [discriminate|reflexivity].
    + exists 32. split; [reflexivity|]. split; [discriminate|reflexivity].
    + exists (48 + a). split; [reflexivity|]. split; assumption.
Qed.

Lemma X8_auto_zero_reply_overwrites_scaling_factor_witness :
  let h := fresh_handler (buffer_of (auto_zero_reply 1 0 8 0)) 10 in
  explorir_process_response 4 h =
    Returned (clear_data (set_scaling_factor h 8)).
Proof.
  intros h.
  apply (X8_auto_zero_reply_overwrites_scaling_factor h 1 0 8 0 4);
    [lia|lia|lia|lia|lia|reflexivity].
Defined.

Section Status.

Variable fuel : nat.
Variable rx : nat -> option (list Z).

Lemma sensor_info_sent (w : world) :
  sent (world_of (explorir_request_sensor_info fuel rx w))
  = sent w ++ [bytes "Y" ++ CRLF].
Proof.
  unfold explorir_request_sensor_info, bind, explorir_tx.
  match goal with
  | |- context [process_response fuel rx ?w1] =>
      pose proof (process_response_sent fuel rx w1) as H1;
      destruct (process_response fuel rx w1) as [[] w2|f w2]
  end; [|exact H1].
  pose proof (process_response_sent fuel rx w2) as H2.
  cbn [world_of sent] in H1.
  destruct (process_response fuel rx w2) as [[] w3|f w3];
    cbn [world_of sent return_err_code] in *; rewrite H2; exact H1.
Qed.




End Status.

(** X9.  Every operation without an argument hands explorir_tx its whole
    frame, the command followed by "\r\n", once, whatever the scanner call
    that follows does. *)
Theorem X9_fixed_frames :
  forall fuel rx w,
    sends_frame w (explorir_request_filtered_co2 fuel rx) "Z"
    /\ sends_frame w (explorir_request_unfiltered_co2 fuel rx) "z"
    /\ sends_frame w (explorir_request_scaling_factor fuel rx) "."
    /\ sends_frame w (explorir_request_digital_filter fuel rx) "a"
    /\ sends_frame w (explorir_set_zero_point_in_fresh_air fuel rx) "G"
    /\ sends_frame w (explorir_set_zero_point_in_nitrogen fuel rx) "U"
    /\ sends_frame w (explorir_disable_auto_zeroing fuel rx) "@ 0"
    /\ sends_frame w (explorir_start_auto_zero fuel rx) "65222"
    /\ sends_frame w (explorir_request_auto_zero_config fuel rx) "@"
    /\ sends_frame w
         (explorir_request_pressure_and_concetration_compensation fuel rx) "s"
    /\ sends_frame w (explorir_set_output_data_filtered fuel rx) "M 00004"
    /\ sends_frame w (explorir_set_output_data_unfiltered fuel rx) "M 00002"
    /\ sends_frame w (explorir_set_output_data_all fuel rx) "M 00006"
    /\ sends_frame w (explorir_request_output_data_fields fuel rx) "Q"
    /\ sends_frame w (explorir_request_sensor_info fuel rx) "Y".
Proof.
  intros fuel rx w. unfold sends_frame.
  repeat split;
    try (match goal with
         | |- sent (world_of (?op _ _ _)) = _ => unfold op
         end;
         rewrite transmit_then_process_sent; reflexivity).
  apply sensor_info_sent.
Qed.


Lemma decimal_length_lower (fuel : nat) : forall (k : nat) (n : Z),
  (k < fuel)%nat -> 10 ^ Z.of_nat k <= n ->
  (k + 1 <= length (decimal fuel n))%nat.
Proof.
  induction fuel as [|fuel IH]; intros k n Hk Hn; [lia|].
  cbn [decimal]. destruct (n <? 10) eqn:Hlt.
  - apply Z.ltb_lt in Hlt. destruct k as [|k]; [cbn [length]; lia|].
    assert (10 ^ 1 <= 10 ^ Z.of_nat (S k)) by (apply Z.pow_le_mono_r; lia).
    change (10 ^ 1) with 10 in *. lia.
  - apply Z.ltb_ge in Hlt. rewrite length_app. cbn [length].
    destruct k as [|k]; [lia|].
    assert (Hpow : 10 ^ Z.of_nat (S k) = 10 * 10 ^ Z.of_nat k).
    { rewrite Nat2Z.inj_succ. apply Z.pow_succ_r. lia. }
    assert (Hq : 10 ^ Z.of_nat k <= n / 10).
    { apply Z.div_le_lower_bound; lia. }
    specialize (IH k (n / 10) ltac:(lia) Hq). lia.
Qed.

Lemma compile_message_frame7 (tag : Z) (digits : list Z) :
  (1 <= length digits <= 7)%nat ->
  let str_size := wrap8 (Z.of_nat (length digits)) in
  let msg_size := wrap8 (4 + str_size) in
  firstn (Z.to_nat msg_size)
    (compile_message tag (digits ++ [NUL]) str_size msg_size)
  = tag :: byte_of_ascii " " :: digits ++ CRLF.
Proof.
  intros Hlen.
  destruct digits as [|a [|b [|c [|d [|e [|f [|g [|i l]]]]]]]];
    simpl in Hlen; try lia; reflexivity.
Qed.

Section Decimal.

Variable fuel : nat.
Variable rx : nat -> option (list Z).

Lemma send_decimal_fits (tag value : Z) (w : world) :
  0 <= value <= 9999999 ->
  exists r,
    send_decimal fuel rx tag value w = Some r
    /\ sent (world_of r) = sent w ++ [decimal_frame tag value].
Proof.
  intros Hv.
  assert (Hint : int_of_uint32 value = value).
  { unfold int_of_uint32.
    replace (value <? 2 ^ 31) with true by (symmetry; apply Z.ltb_lt; lia).
    reflexivity. }
  assert (Hneg : (value <? 0) = false) by (apply Z.ltb_ge; lia).
  assert (Hd : sprintf_d value = decimal 10 value)
    by (unfold sprintf_d; rewrite Hneg; reflexivity).
  destruct (decimal_spec 10 7 value) as [_ [_ [Hlen _]]];
    [lia|simpl; lia|].
  rewrite <- Hd in Hlen.
  unfold send_decimal, sprintf_buf8. rewrite Hint.
  replace (length (sprintf_d value) <? 8)%nat with true
    by (symmetry; apply Nat.ltb_lt; lia).
  eexists. split; [reflexivity|].
  rewrite transmit_then_process_sent, compile_message_frame7 by exact Hlen.
  reflexivity.
Qed.

Lemma send_decimal_overruns (tag value : Z) (w : world) :
  10000000 <= value < 2 ^ 31 ->
  send_decimal fuel rx tag value w = None.
Proof.
  intros Hv.
  assert (Hint : int_of_uint32 value = value).
  { unfold int_of_uint32.
    replace (value <? 2 ^ 31) with true by (symmetry; apply Z.ltb_lt; lia).
    reflexivity. }
  assert (Hneg : (value <? 0) = false) by (apply Z.ltb_ge; lia).
  assert (Hd : sprintf_d value = decimal 10 value)
    by (unfold sprintf_d; rewrite Hneg; reflexivity).
  pose proof (decimal_length_lower 10 7 value ltac:(lia)
                ltac:(change (10 ^ Z.of_nat 7) with 10000000; lia)) as Hlen.
  rewrite <- Hd in Hlen.
  unfold send_decimal, sprintf_buf8. rewrite Hint.
  replace (length (sprintf_d value) <? 8)%nat with false
    by (symmetry; apply Nat.ltb_ge; lia).
  reflexivity.
Qed.

End Decimal.

(** X11.  The three setters that print a [uint32_t] into [char buf[8]] have
    no check of their argument.  Up to 9999999 (seven digits) the call
    transmits one frame: the tag ('u', 'X' or 'S'), a space, the decimal
    digits, "\r\n".  From 10000000 on (up to the largest [int]) [sprintf]
    writes past the end of [buf] before anything is transmitted. *)
Theorem X11_decimal_setters_and_their_buffer :
  forall fuel rx value w,
    (0 <= value <= 9999999 ->
       (exists r,
          explorir_set_zero_point_manually fuel rx value w = Some r
          /\ sent (world_of r)
             = sent w ++ [decimal_frame MANUALLY_SET_ZERO_POINT value])
       /\ (exists r,
             explorir_set_zero_point_using_known_co2 fuel rx value w = Some r
             /\ sent (world_of r)
                = sent w
                    ++ [decimal_frame SET_ZERO_POINT_USING_KNOWN_GAS value])
       /\ (exists r,
             explorir_set_pressure_and_concentration_compensation
               fuel rx value w = Some r
             /\ sent (world_of r)
                = sent w
                    ++ [decimal_frame
                          SET_PRESSURE_AND_CONCENTRATION_COMPENSATION value])
       /\ decimal_value (sprintf_d value) = value)
    /\ (10000000 <= value < 2 ^ 31 ->
        explorir_set_zero_point_manually fuel rx value w = None
        /\ explorir_set_zero_point_using_known_co2 fuel rx value w = None
        /\ explorir_set_pressure_and_concentration_compensation
             fuel rx value w = None).
Proof.
  intros fuel rx value w. split.
  - intros Hv. repeat split; try (apply send_decimal_fits; exact Hv).
    unfold sprintf_d.
    replace (value <? 0) with false by (symmetry; apply Z.ltb_ge; lia).
    destruct (decimal_spec 10 7 value) as [_ [Hval _]];
      [lia|simpl; lia|exact Hval].
  - intros Hv. repeat split; apply send_decimal_overruns; exact Hv.
Qed.

Lemma X11_decimal_setters_and_their_buffer_witness :
  let w := fresh_world (fresh_handler (buffer_of []) 1) in
  let rx := fun _ : nat => @None (list Z) in
  (exists r,
     explorir_set_zero_point_manually 1 rx 400 w = Some r
     /\ sent (world_of r) = [bytes "u 400" ++ CRLF])
  /\ explorir_set_pressure_and_concentration_compensation 1 rx 10000000 w
       = None.
Proof.
  intros w rx.
  destruct (X11_decimal_setters_and_their_buffer 1 rx 400 w) as [Hfit _].
  destruct (X11_decimal_setters_and_their_buffer 1 rx 10000000 w)
    as [_ Hover].
  split.
  - destruct (Hfit ltac:(lia)) as [Hu _]. exact Hu.
  - destruct (Hover ltac:(lia)) as [_ [_ Hs]]. exact Hs.
Defined.

Lemma read_field_fault (data : list Z) (i : Z) (f : fault) :
  read_field data i = FieldFault f -> f <> OutOfFuel.
Proof.
  unfold read_field.
  destruct (skip_zeros _ _); [|intros [= <-]; discriminate].
  destruct (_ <? _)%nat; [intros [= <-]; discriminate|].
  destruct (atoi _); [discriminate|intros [= <-]; discriminate].
Qed.

(** Away from the 'Z' case the cursor only moves forward. *)
Lemma scan_case_forward (h : explorir_handler_t) (i c : Z) :
  c <> FILTERED_CO2_MEASUREMENT ->
  scan_case h i c = Break h (wrap16 (i + 1))
  \/ (exists h', scan_case h i c = EndWhile h')
  \/ (exists f, scan_case h i c = Trap f h /\ f <> OutOfFuel).
Proof.
  intros Hc. apply Z.eqb_neq in Hc.
  unfold scan_case, with_field. rewrite Hc.
  destruct (read_field (explorir_data h) i) as [v|f] eqn:Hrf.
  - repeat match goal with
           | |- context [if ?b then _ else _] => destruct b
           end;
      try (right; left; eexists; reflexivity);
      left; reflexivity.
  - pose proof (read_field_fault _ _ _ Hrf) as Hf.
    repeat match goal with
           | |- context [if ?b then _ else _] => destruct b
           end;
      try (right; right; eexists; split; [reflexivity|assumption]);
      left; reflexivity.
Qed.

(** With no 'Z' at or after the cursor, a run ends before the fuel that
    the bytes ahead can use up. *)
Lemma scan_ends_without_Z (n : nat) : forall h i,
  length (explorir_data h) = 128%nat -> 0 <= i ->
  (Z.to_nat (128 - i) < n)%nat ->
  (forall q, i <= q -> read h q <> Some FILTERED_CO2_MEASUREMENT) ->
  out_of_fuel (scan n h i) = false.
Proof.
  induction n as [|n IH]; intros h i Hl Hi Hn HnoZ; [lia|].
  cbn [scan]. destruct (read h i) as [c|] eqn:Hread; [|reflexivity].
  pose proof (read_in_buffer h i c Hi Hread) as Hlt. rewrite Hl in Hlt.
  destruct (c =? TERMINATE); [reflexivity|].
  assert (Hc : c <> FILTERED_CO2_MEASUREMENT).
  { intros ->. exact (HnoZ i ltac:(lia) Hread). }
  destruct (scan_case_forward h i c Hc) as [E|[[h' E]|[f [E Hf]]]];
    rewrite E.
  - replace (wrap16 (i + 1)) with (i + 1)
      by (unfold wrap16; symmetry; apply Z.mod_small; lia).
    apply IH; [assumption|lia|lia|].
    intros q Hq. apply HnoZ. lia.
  - reflexivity.
  - destruct f; simpl; congruence.
Qed.

(** The same from a cursor before offset 9, where a 'Z' may still occur:
    its case sends the cursor to offset 9, once. *)
Lemma scan_ends_Z_before_9 (n : nat) : forall h i,
  length (explorir_data h) = 128%nat -> 0 <= i <= 9 ->
  (Z.to_nat (9 - i) + 120 <= n)%nat ->
  (forall q, 9 <= q -> read h q <> Some FILTERED_CO2_MEASUREMENT) ->
  out_of_fuel (scan n h i) = false.
Proof.
  induction n as [|n IH]; intros h i Hl Hi Hn HnoZ; [lia|].
  destruct (Z.eq_dec i 9) as [->|Hne].
  { apply scan_ends_without_Z; [assumption|lia|simpl; lia|exact HnoZ]. }
  cbn [scan]. destruct (read h i) as [c|] eqn:Hread; [|reflexivity].
  destruct (c =? TERMINATE); [reflexivity|].
  destruct (scan_case_cases h i c)
    as [[h' [E Hd]]|[E|[[h' E]|[f [E Hf]]]]]; rewrite E.
  - apply scan_ends_without_Z; [congruence|lia|simpl; lia|].
    intros q Hq. unfold read. rewrite Hd. apply HnoZ. exact Hq.
  - replace (wrap16 (i + 1)) with (i + 1)
      by (unfold wrap16; symmetry; apply Z.mod_small; lia).
    apply IH; [assumption|lia|lia|exact HnoZ].
  - reflexivity.
  - destruct f; simpl; congruence.
Qed.

(** X12.  The scan can only go round for ever through the 'Z' case.  On a
    128-byte buffer that has no 'Z' at offset 9 or later, the call ends, by
    returning or by leaving an array, within 129 evaluations of the loop
    test, whatever else the buffer holds. *)
Theorem X12_no_late_Z_no_livelock :
  forall h,
    length (explorir_data h) = 128%nat ->
    (forall q, 9 <= q -> read h q <> Some FILTERED_CO2_MEASUREMENT) ->
    out_of_fuel (explorir_process_response 129 h) = false
    /\ forall fuel, (129 <= fuel)%nat ->
         explorir_process_response fuel h = explorir_process_response 129 h.
Proof.
  intros h Hl HnoZ.
  assert (H129 : out_of_fuel (explorir_process_response 129 h) = false).
  { rewrite process_out_of_fuel.
    apply scan_ends_Z_before_9; [assumption|lia|simpl; lia|exact HnoZ]. }
  split; [exact H129|].
  intros fuel Hfuel. apply process_more_fuel; assumption.
Qed.

Lemma X12_no_late_Z_no_livelock_witness :
  let h := fresh_handler (buffer_of (bytes " Z 00100 garbled line")) 1 in
  out_of_fuel (explorir_process_response 129 h) = false
  /\ forall fuel, (129 <= fuel)%nat ->
       explorir_process_response fuel h = explorir_process_response 129 h.
Proof.
  intros h.
  apply (X12_no_late_Z_no_livelock h); [reflexivity|].
  intros q Hq Hread.
  assert (Hin : In FILTERED_CO2_MEASUREMENT (skipn 9 (explorir_data h))).
  { unfold read in Hread.
    replace (Z.to_nat q) with (9 + (Z.to_nat q - 9))%nat in Hread by lia.
    rewrite <- nth_error_skipn in Hread. exact (nth_error_In _ _ Hread). }
  revert Hin. apply absent_by_check. reflexivity.
Defined.

Lemma wait_loop_notified (irq : nat -> bool) (flag : bool) (k : nat)
    (n : nat) : forall j,
  (j <= k)%nat -> Z.of_nat k <= RESPONSE_TIMEOUT -> (k - j < n)%nat ->
  flag || irq k = true ->
  wait_loop irq n (Z.of_nat j) j flag = Some false.
Proof.
  induction n as [|n IH]; intros j Hj Hk Hn Hseen; [lia|].
  cbn [wait_loop]. destruct (flag || irq j) eqn:Hnow; [reflexivity|].
  assert (Hlt : (j < k)%nat).
  { destruct (Nat.eq_dec j k) as [->|]; [congruence|lia]. }
  replace (RESPONSE_TIMEOUT <=? Z.of_nat j) with false
    by (symmetry; apply Z.leb_gt; lia).
  replace (wrap32 (Z.of_nat j + 1)) with (Z.of_nat (S j)).
  - apply IH; [lia|assumption|lia|assumption].
  - unfold wrap32. rewrite Z.mod_small; [lia|].
    unfold RESPONSE_TIMEOUT in Hk. lia.
Qed.

(** X13.  explorir_wait_for_response always comes back, within
    RESPONSE_TIMEOUT + 1 tests of the flag, with the flag cleared and
    nothing changed but, on a time-out, err_code.  When the flag is seen
    raised at one of those tests (in particular when it was already raised
    before the call) the handler is exactly as it was. *)
Theorem X13_wait_ends_and_clears_flag :
  forall irq w,
    (exists w',
       explorir_wait_for_response irq w = Ok tt w'
       /\ explorir_complete_uart_rx w' = false
       /\ sent w' = sent w /\ scans w' = scans w
       /\ (handler w' = handler w
           \/ handler w' = set_err_code (handler w) EXPLORIR_ERR_TIMEOUT))
    /\ (forall k,
          Z.of_nat k <= RESPONSE_TIMEOUT ->
          explorir_complete_uart_rx w || irq k = true ->
          explorir_wait_for_response irq w
            = Ok tt (mkWorld (handler w) (sent w) (scans w) false)).
Proof.
  intros irq w. split.
  - unfold explorir_wait_for_response.
    destruct (wait_loop_ends irq (explorir_complete_uart_rx w)
                (S (S (Z.to_nat RESPONSE_TIMEOUT))) 0 0) as [b E].
    + unfold RESPONSE_TIMEOUT. lia.
    + lia.
    + rewrite E. eexists. split; [reflexivity|].
      cbn [explorir_complete_uart_rx sent scans handler].
      repeat split. destruct b; [right|left]; reflexivity.
  - intros k Hk Hseen. unfold explorir_wait_for_response.
    change 0 with (Z.of_nat 0) at 1.
    rewrite (wait_loop_notified irq _ k); [reflexivity|lia|assumption|lia|].
    exact Hseen.
Qed.

Lemma X13_wait_ends_and_clears_flag_witness :
  let w := fresh_world (fresh_handler (buffer_of []) 1) in
  let irq := fun k : nat => Nat.eqb k 2 in
  explorir_wait_for_response irq w = Ok tt w.
Proof.
  intros w irq.
  destruct (X13_wait_ends_and_clears_flag irq w) as [_ Hseen].
  apply (Hseen 2%nat); [unfold RESPONSE_TIMEOUT; lia|reflexivity].
Defined.

(** A reply with one field and a value of at least 1, in front of any
    [tail]: the field does not depend on the tail. *)
Lemma tagged_reply_over_tail (h : explorir_handler_t) (c v : Z)
    (tail : list Z) :
  1 <= v <= 9999 -> (4 <= length tail)%nat ->
  explorir_data h = tagged_reply c v ++ tail ->
  read h 0 = Some c /\ read_field (explorir_data h) 0 = Field v.
Proof.
  intros Hv Htail Hd. split; [unfold read; rewrite Hd; reflexivity|].
  rewrite Hd.
  change (tagged_reply c v ++ tail)
    with ([c; SPACE] ++ (zero_pad5 v ++ CRLF) ++ tail).
  apply read_field_window; [lia|reflexivity|simpl; lia|exact Htail|].
  apply window_zero_pad5; lia.
Qed.

Section InitScale.

Variable fuel : nat.
Variable rx : nat -> option (list Z).

(** What a returning scanner call of an operation amounts to: the scan of
    the buffer as delivered. *)
Lemma process_response_inv (w w' : world) :
  process_response fuel rx w = Ok tt w' ->
  exists h0 h',
    explorir_process_response fuel h0 = Returned h'
    /\ w' = mkWorld h' (sent w) (S (scans w)) (explorir_complete_uart_rx w)
    /\ scaling_factor h0 = scaling_factor (handler w)
    /\ (explorir_data h0 = explorir_data (handler w)
        \/ exists p, rx (scans w) = Some p
             /\ explorir_data h0
                = p ++ skipn (length p) (explorir_data (handler w))).
Proof.
  unfold process_response, explorir_update_data.
  destruct (rx (scans w)) as [p|].
  - destruct (Z.of_nat (length p) <=? UART_RX_BUF_SIZE); [|discriminate].
    destruct (explorir_process_response fuel _) as [h'|f h'] eqn:E;
      [|discriminate].
    intros [= <-]. eexists _, h'. split; [exact E|].
    split; [reflexivity|]. split; [reflexivity|].
    right. exists p. split; reflexivity.
  - destruct (explorir_process_response fuel (handler w)) as [h'|f h'] eqn:E;
      [|discriminate].
    intros [= <-]. exists (handler w), h'. split; [exact E|].
    split; [reflexivity|]. split; [reflexivity|]. left. reflexivity.
Qed.

(** A scanner call whose delivered response has no '.' leaves the scaling
    factor, and the buffer cleared again. *)
Lemma scanned_scaled (w0 w : world) (v : Z) (n : nat) :
  scaled w0 v n w -> scan_returns fuel rx (scans w0 + n) ->
  (forall p, rx (scans w0 + n)%nat = Some p -> ~ In SCALING_FACTOR p) ->
  run_ok (process_response fuel rx) w (fun _ w' => scaled w0 v (S n) w').
Proof.
  intros [Hn [Hd Hs]] Hret Hno.
  destruct (Hret w Hn Hd) as [w' E].
  exists tt, w'. split; [exact E|].
  destruct (process_response_inv w w' E) as [h0 [h' [Hp [-> [Hs0 Hd0]]]]].
  unfold scaled. cbn [scans handler].
  split; [lia|]. split; [exact (process_returned_cleared _ _ _ Hp)|].
  assert (Hkeep : scaling_factor (final (explorir_process_response fuel h0))
                  = scaling_factor h0).
  { apply (process_keeps _ _ keeps_scaling_factor); [reflexivity|].
    intros c Hin. apply Z.eqb_neq. intros ->.
    assert (Hz : ~ In SCALING_FACTOR (explorir_data (handler w))).
    { rewrite Hd. intros Hin0. apply repeat_spec in Hin0. discriminate. }
    destruct Hd0 as [Hd0|[p [Hrx Hd0]]]; rewrite Hd0 in Hin.
    - exact (Hz Hin).
    - apply in_app_or in Hin. destruct Hin as [Hin|Hin].
      + rewrite Hn in Hrx. exact (Hno p Hrx Hin).
      + apply Hz. revert Hin. generalize (length p). intros m.
        generalize (explorir_data (handler w)).
        induction m as [|m IH]; intros l Hin; [exact Hin|].
        destruct l as [|a l]; [exact Hin|].
        right. apply IH. exact Hin. }
  rewrite Hp in Hkeep. cbn [final] in Hkeep. congruence.
Qed.

Lemma command_scaled (w0 w : world) (v : Z) (n : nat)
    (msg : list Z) (size : Z) :
  scaled w0 v n w -> scan_returns fuel rx (scans w0 + n) ->
  (forall p, rx (scans w0 + n)%nat = Some p -> ~ In SCALING_FACTOR p) ->
  run_ok (explorir_tx msg size ;; process_response fuel rx ;;
          return_err_code) w
    (fun _ w' => scaled w0 v (S n) w').
Proof.
  intros Hsc Hret Hno.
  apply (run_ok_bind _ _ _ (fun _ w1 => scaled w0 v n w1)).
  { eexists tt, _. split; [reflexivity|exact Hsc]. }
  intros u1 w1 H1.
  apply (run_ok_bind _ _ _ (fun _ w2 => scaled w0 v (S n) w2)).
  { exact (scanned_scaled w0 w1 v n H1 Hret Hno). }
  intros u2 w2 H2. exists (err_code (handler w2)), w2.
  split; [reflexivity|exact H2].
Qed.

(** The request for the scaling factor, answered by ". #####\r\n". *)
Lemma scaling_factor_read (w0 w : world) (frames : list (list Z)) (n : nat)
    (v : Z) :
  progressed w0 frames n w -> 1 <= v <= 9999 -> (1 <= fuel)%nat ->
  rx (scans w0 + n)%nat = Some (tagged_reply SCALING_FACTOR v) ->
  run_ok (explorir_request_scaling_factor fuel rx) w
    (fun _ w' => scaled w0 v (S n) w').
Proof.
  intros [_ [Hn [_ Hd]]] Hv Hfuel Hrx.
  assert (Hl : length (explorir_data (handler w)) = 128%nat)
    by (rewrite Hd; apply repeat_length).
  set (h0 := set_explorir_data (handler w)
               (tagged_reply SCALING_FACTOR v
                ++ skipn (length (tagged_reply SCALING_FACTOR v))
                     (explorir_data (handler w)))).
  assert (Hscan : explorir_process_response fuel h0
                  = Returned (clear_data (set_scaling_factor h0 v))).
  { destruct (tagged_reply_over_tail h0 SCALING_FACTOR v
                (skipn 9 (explorir_data (handler w)))) as [Hread Hfield];
      [exact Hv|rewrite length_skipn; lia|reflexivity|].
    destruct (scan_tag h0 0 _ v Hread Hfield) as [_ [_ [Hs _]]].
    unfold explorir_process_response.
    replace fuel with (S (fuel - 1)) by lia.
    rewrite (Hs eq_refl).
    destruct (small_fits v ltac:(lia)) as [H16 _]. rewrite H16.
    reflexivity. }
  eexists _, _. split.
  - unfold explorir_request_scaling_factor, bind, explorir_tx.
    erewrite process_response_delivered;
      [reflexivity|cbn [scans]; rewrite Hn; exact Hrx|simpl; lia
      |exact Hscan].
  - unfold scaled. cbn [scans handler]. split; [lia|].
    split; reflexivity.
Qed.

Lemma recorded_scaled (w0 w : world) (v : Z) (n : nat)
    (r : explorir_retcode_t) :
  scaled w0 v n w ->
  run_ok (assign_err_code r) w (fun _ w' => scaled w0 v n w').
Proof.
  intros Hsc. eexists tt, _. split; [reflexivity|exact Hsc].
Qed.

End InitScale.

(** X14.  explorir_init takes the scaling factor from the sensor.  When the
    buffer is clear at the start, the scanner call that follows the "."
    request (the fourth of the sequence) finds the response ". #####\r\n"
    with a value v from 1 to 9999, each of the other seven scanner calls
    has a reply delivered on which the scanner returns, and the replies to
    the four later commands contain no '.', explorir_init ends with
    scaling_factor = v. *)
Theorem X14_init_reads_scaling_factor :
  forall fuel rx w v,
    explorir_data (handler w) = repeat 0 128 ->
    1 <= v <= 9999 -> (1 <= fuel)%nat ->
    (forall k, (scans w <= k < scans w + 8)%nat -> k <> (scans w + 3)%nat ->
       exists p, rx k = Some p /\ returns_on fuel p = true) ->
    rx (scans w + 3)%nat = Some (tagged_reply SCALING_FACTOR v) ->
    (forall k p, (scans w + 4 <= k < scans w + 8)%nat -> rx k = Some p ->
                 ~ In SCALING_FACTOR p) ->
    exists w',
      explorir_init fuel rx w = Ok tt w'
      /\ scaling_factor (handler w') = v.
Proof.
  intros fuel rx w v Hlen Hv Hfuel Hrep Hrx Hno.
  assert (Hret : forall k, (scans w <= k < scans w + 8)%nat ->
                           k <> (scans w + 3)%nat -> scan_returns fuel rx k).
  { intros k Hk Hk3. destruct (Hrep k Hk Hk3) as [p [Hp Hon]].
    exact (returns_on_scan_returns fuel rx k p Hp Hon). }
  assert (H0 : progressed w [] 0 w).
  { repeat split; [rewrite app_nil_r; reflexivity|lia|assumption]. }
  assert (Hrun : run_ok (explorir_init fuel rx) w
            (fun _ w' => scaling_factor (handler w') = v)).
  { unfold explorir_init.
    eapply run_ok_bind;
      [exact (command_ok fuel rx w w [] 0 _ 5 H0
                (Hret (scans w + 0)%nat ltac:(lia) ltac:(lia)))|].
    intros r1 w1 H1.
    eapply run_ok_bind; [apply recorded; exact H1|].
    clear H1; intros u1 w1' H1.
    eapply run_ok_bind;
      [exact (sensor_info_ok fuel rx w w1' _ 1 H1
                (Hret (scans w + 1)%nat ltac:(lia) ltac:(lia))
                (Hret (scans w + 2)%nat ltac:(lia) ltac:(lia)))|].
    clear H1; intros r2 w2 H2.
    eapply run_ok_bind; [apply recorded; exact H2|].
    clear H2; intros u2 w2' H2.
    apply (run_ok_bind _ _ _ (fun _ w3 => scaled w v 4 w3));
      [exact (scaling_factor_read fuel rx w w2' _ 3 v H2 Hv Hfuel Hrx)|].
    clear H2; intros r3 w3 H3.
    apply (run_ok_bind _ _ _ (fun _ w3 => scaled w v 4 w3));
      [apply recorded_scaled; exact H3|].
    clear H3; intros u3 w3' H3.
    apply (run_ok_bind _ _ _ (fun _ w4 => scaled w v 5 w4));
      [exact (command_scaled fuel rx w w3' v 4 _ 6 H3
                (Hret (scans w + 4)%nat ltac:(lia) ltac:(lia))
                (fun p E => Hno (scans w + 4)%nat p ltac:(lia) E))|].
    clear H3; intros r4 w4 H4.
    apply (run_ok_bind _ _ _ (fun _ w4 => scaled w v 5 w4));
      [apply recorded_scaled; exact H4|].
    clear H4; intros u4 w4' H4.
    apply (run_ok_bind _ _ _ (fun _ w5 => scaled w v 6 w5));
      [exact (command_scaled fuel rx w w4' v 5 _ 3 H4
                (Hret (scans w + 5)%nat ltac:(lia) ltac:(lia))
                (fun p E => Hno (scans w + 5)%nat p ltac:(lia) E))|].
    clear H4; intros r5 w5 H5.
    apply (run_ok_bind _ _ _ (fun _ w5 => scaled w v 6 w5));
      [apply recorded_scaled; exact H5|].
    clear H5; intros u5 w5' H5.
    apply (run_ok_bind _ _ _ (fun _ w6 => scaled w v 7 w6));
      [exact (command_scaled fuel rx w w5' v 6 _ 9 H5
                (Hret (scans w + 6)%nat ltac:(lia) ltac:(lia))
                (fun p E => Hno (scans w + 6)%nat p ltac:(lia) E))|].
    clear H5; intros r6 w6 H6.
    apply (run_ok_bind _ _ _ (fun _ w6 => scaled w v 7 w6));
      [apply recorded_scaled; exact H6|].
    clear H6; intros u6 w6' H6.
    apply (run_ok_bind _ _ _ (fun _ w7 => scaled w v 8 w7));
      [exact (command_scaled fuel rx w w6' v 7 _ 5 H6
                (Hret (scans w + 7)%nat ltac:(lia) ltac:(lia))
                (fun p E => Hno (scans w + 7)%nat p ltac:(lia) E))|].
    clear H6; intros r7 w7 H7.
    apply (run_ok_bind _ _ _ (fun _ w7 => scaled w v 8 w7));
      [apply recorded_scaled; exact H7|].
    clear H7; intros u7 w7' [_ [_ Hs]].
    eexists tt, _. split; [reflexivity|exact Hs]. }
  destruct Hrun as [[] [w' [E Hs]]]. exists w'. split; assumption.
Qed.

Lemma X14_init_reads_scaling_factor_witness :
  let w := fresh_world (fresh_handler (repeat 0 128) 0) in
  let rx := fun k : nat => nth_error (init_replies 10) k in
  exists w',
    explorir_init 129 rx w = Ok tt w' /\ scaling_factor (handler w') = 10.
Proof.
  intros w rx.
  apply (X14_init_reads_scaling_factor 129 rx w 10); try lia;
    change (scans w) with 0%nat.
  - reflexivity.
  - intros k Hk Hk3.
    destruct k as [|[|[|[|[|[|[|[|k]]]]]]]]; try lia;
      eexists; (split; [reflexivity|vm_compute; reflexivity]).
  - reflexivity.
  - intros k p Hk.
    destruct k as [|[|[|[|[|[|[|[|k]]]]]]]]; try lia;
      intros [= <-]; apply absent_by_check; reflexivity.
Defined.


(** X15.  The three setters whose message is not written yet send nothing
    to the sensor, whatever their arguments and however the scanner call
    that they still make ends. *)
Theorem X15_unwritten_setters_send_nothing :
  forall fuel rx reported actual co2 w,
    sent (world_of (explorir_set_zero_point_using_known_reading fuel rx
                      reported actual w)) = sent w
    /\ sent (world_of (explorir_set_co2_for_auto_zeroing fuel rx co2 w))
       = sent w
    /\ sent (world_of (explorir_set_co2_for_zero_point_in_fresh_air fuel rx
                         co2 w)) = sent w.
Proof.
  intros fuel rx reported actual co2 w.
  assert (H : sent (world_of ((process_response fuel rx ;; return_err_code) w))
              = sent w).
  { unfold bind, return_err_code.
    pose proof (process_response_sent fuel rx w) as Hs.
    destruct (process_response fuel rx w) as [[] w1|f w1]; exact Hs. }
  repeat split; exact H.
Qed.

(** The scanner call of an operation when nothing has been delivered since
    the buffer was cleared. *)
Lemma process_response_undelivered (fuel : nat) (rx : nat -> option (list Z))
    (w : world) :
  explorir_data (handler w) = repeat 0 (Z.to_nat UART_RX_BUF_SIZE) ->
  rx (scans w) = None -> (129 <= fuel)%nat ->
  process_response fuel rx w
    = Abort (PastBuffer 128)
        (mkWorld (handler w) (sent w) (S (scans w))
           (explorir_complete_uart_rx w)).
Proof.
  intros Hd Hrx Hfuel. unfold process_response. rewrite Hrx.
  unfold explorir_process_response.
  replace fuel with (129 + (fuel - 129))%nat by lia.
  rewrite (scan_zero_buffer _ _ Hd). reflexivity.
Qed.

(** X16.  An operation called before its response has been delivered.  The
    operations do not wait: with the buffer still clear from the previous
    scanner call and nothing delivered, the call transmits its frame, and
    the scanner goes over the 128 zero bytes without changing a field and
    then reads index 128, outside the buffer, before any status has been
    returned.  explorir_request_sensor_info runs the scanner twice: when
    only the first of its two lines has been delivered, it is the second
    scanner call that reads index 128. *)
Theorem X16_undelivered_response_leaves_buffer :
  forall fuel rx w,
    (129 <= fuel)%nat ->
    (explorir_data (handler w) = repeat 0 128 -> rx (scans w) = None ->
       let after (command : string) :=
         reads_outside_buffer 128
           (mkWorld (handler w) (sent w ++ [bytes command ++ CRLF])
              (S (scans w)) (explorir_complete_uart_rx w)) in
       after "Z"%string (explorir_request_filtered_co2 fuel rx w)
       /\ after "z"%string (explorir_request_unfiltered_co2 fuel rx w)
       /\ after "."%string (explorir_request_scaling_factor fuel rx w)
       /\ after "a"%string (explorir_request_digital_filter fuel rx w)
       /\ after "Y"%string (explorir_request_sensor_info fuel rx w))
    /\ (forall w1,
          process_response fuel rx w = Ok tt w1 ->
          rx (S (scans w)) = None ->
          reads_outside_buffer 128
            (mkWorld (handler w1) (sent w ++ [bytes "Y" ++ CRLF])
               (S (S (scans w))) (explorir_complete_uart_rx w))
            (explorir_request_sensor_info fuel rx w)).
Proof.
  intros fuel rx w Hfuel. unfold reads_outside_buffer. split.
  - intros Hd Hrx.
    repeat split;
      match goal with
      | |- ?op _ _ _ = _ => unfold op, bind, explorir_tx
      end;
      rewrite process_response_undelivered by assumption; reflexivity.
  - intros w1 E Hrx.
    destruct (process_response_inv fuel rx w w1 E)
      as [h0 [h' [Hp [-> _]]]].
    unfold explorir_request_sensor_info, bind, explorir_tx.
    cbn [handler sent scans explorir_complete_uart_rx].
    assert (E1 : process_response fuel rx
                   (mkWorld (handler w) (sent w ++ [firstn (Z.to_nat 3)
                        (bytes "Y" ++ CRLF ++ [NUL])]) (scans w)
                      (explorir_complete_uart_rx w))
                 = Ok tt (mkWorld h' (sent w ++ [firstn (Z.to_nat 3)
                        (bytes "Y" ++ CRLF ++ [NUL])]) (S (scans w))
                      (explorir_complete_uart_rx w))).
    { revert E. unfold process_response.
      cbn [handler sent scans explorir_complete_uart_rx].
      destruct (rx (scans w)) as [p|].
      - destruct (explorir_update_data p (handler w)) as [h|f h];
          [|discriminate].
        destruct (explorir_process_response fuel h); [|discriminate].
        intros [= ->]. reflexivity.
      - destruct (explorir_process_response fuel (handler w));
          [|discriminate].
        intros [= ->]. reflexivity. }
    rewrite E1.
    rewrite process_response_undelivered;
      [reflexivity|exact (process_returned_cleared _ _ _ Hp)|exact Hrx
      |exact Hfuel].
Qed.

Lemma X16_undelivered_response_leaves_buffer_witness :
  let w := fresh_world (fresh_handler (buffer_of []) 10) in
  let rx := fun _ : nat => @None (list Z) in
  reads_outside_buffer 128 (mkWorld (handler w) [bytes "Z" ++ CRLF] 1 false)
    (explorir_request_filtered_co2 129 rx w).
Proof.
  intros w rx.
  destruct (X16_undelivered_response_leaves_buffer 129 rx w) as [H _];
    [lia|].
  destruct (H eq_refl eq_refl) as [HZ _]. exact HZ.
Defined.

Lemma set_operation_mode_valid (fuel : nat) (rx : nat -> option (list Z))
    (mode : Z) :
  mode = EXPLORIR_MODE_COMMAND \/ mode = EXPLORIR_MODE_STREAMING
  \/ mode = EXPLORIR_MODE_POLLING ->
  explorir_set_operation_mode fuel rx mode
  = (explorir_tx (store (bytes "K x" ++ CRLF ++ [NUL]) 2 (48 + mode)) 5 ;;
     process_response fuel rx ;;
     return_err_code).
Proof.
  intros [E | [E | E]]; subst mode; reflexivity.
Qed.

(** X17.  The mode command and its response.  For each of the three modes,
    when the response "K #####\r\n" carrying the mode number has been
    delivered into the cleared buffer, explorir_set_operation_mode sends
    its frame, returns the stored err_code and leaves current_mode equal to
    the mode it was called with. *)
Theorem X17_mode_command_and_response :
  forall fuel rx w mode,
    (1 <= fuel)%nat ->
    mode = EXPLORIR_MODE_COMMAND \/ mode = EXPLORIR_MODE_STREAMING
    \/ mode = EXPLORIR_MODE_POLLING ->
    explorir_data (handler w) = repeat 0 128 ->
    rx (scans w) = Some (tagged_reply OPERATION_MODE mode) ->
    exists w',
      explorir_set_operation_mode fuel rx mode w = Ok (err_code (handler w)) w'
      /\ current_mode (handler w') = mode
      /\ sent w' = sent w ++ [bytes "K " ++ [48 + mode] ++ CRLF]
      /\ explorir_data (handler w') = repeat 0 128.
Proof.
  intros fuel rx w mode Hfuel Hmode Hd Hrx.
  set (h0 := set_explorir_data (handler w)
               (tagged_reply OPERATION_MODE mode
                ++ skipn (length (tagged_reply OPERATION_MODE mode))
                     (explorir_data (handler w)))).
  assert (Hscan : explorir_process_response fuel h0
                  = Returned (clear_data (set_current_mode h0 mode))).
  { destruct (tagged_reply_field h0 OPERATION_MODE mode) as [Hread Hfield].
    - unfold EXPLORIR_MODE_COMMAND, EXPLORIR_MODE_STREAMING,
        EXPLORIR_MODE_POLLING in Hmode. lia.
    - unfold h0. cbn [explorir_data set_explorir_data]. rewrite Hd.
      reflexivity.
    - destruct (scan_tag h0 0 _ mode Hread Hfield) as [_ [_ [_ [Hm _]]]].
      unfold explorir_process_response.
      replace fuel with (S (fuel - 1)) by lia.
      rewrite (Hm eq_refl). reflexivity. }
  rewrite (set_operation_mode_valid fuel rx mode Hmode).
  eexists. split.
  - unfold bind, explorir_tx.
    erewrite process_response_delivered; [|exact Hrx|simpl; lia|exact Hscan].
    reflexivity.
  - cbn [handler sent current_mode clear_data set_explorir_data
         set_current_mode explorir_data].
    split; [reflexivity|]. split; [|reflexivity].
    destruct Hmode as [E | [E | E]]; subst mode; reflexivity.
Qed.

Lemma X17_mode_command_and_response_witness :
  let w := fresh_world (fresh_handler (buffer_of []) 10) in
  let rx := fun _ : nat => Some (tagged_reply OPERATION_MODE 2) in
  exists w',
    explorir_set_operation_mode 1 rx EXPLORIR_MODE_POLLING w
      = Ok EXPLORIR_SUCCESS w'
    /\ current_mode (handler w') = EXPLORIR_MODE_POLLING
    /\ sent w' = [bytes "K 2" ++ CRLF]
    /\ explorir_data (handler w') = repeat 0 128.
Proof.
  intros w rx.
  apply (X17_mode_command_and_response 1 rx w EXPLORIR_MODE_POLLING);
    [lia|right; right; reflexivity|reflexivity|reflexivity].
Defined.

(** X18.  The memset at the end of explorir_process_response.  Whenever a
    call returns, whichever way the loop was left, the whole receive buffer
    is zero.  A call made on that buffer before anything else has been
    delivered finds neither a line feed nor a tag in it: it goes over the
    128 zero bytes with every field as the first call left it, and then
    reads index 128, outside the buffer. *)
Theorem X18_returned_call_clears_buffer :
  forall fuel h h',
    explorir_process_response fuel h = Returned h' ->
    explorir_data h' = repeat 0 128
    /\ (forall fuel2, (129 <= fuel2)%nat ->
          explorir_process_response fuel2 h' = Faulted (PastBuffer 128) h').
Proof.
  intros fuel h h' Hret.
  pose proof (process_returned_cleared fuel h h' Hret) as Hd.
  split; [exact Hd|].
  intros fuel2 Hf. unfold explorir_process_response.
  replace fuel2 with (129 + (fuel2 - 129))%nat by lia.
  rewrite (scan_zero_buffer h' _ Hd). reflexivity.
Qed.

Lemma X18_returned_call_clears_buffer_witness :
  let h := fresh_handler (buffer_of combined_reply) 10 in
  let h' := clear_data (set_current_unfiltered_co2
                          (set_current_filtered_co2 h 1000) 500) in
  explorir_process_response 3 h = Returned h'
  /\ explorir_data h' = repeat 0 128
  /\ (forall fuel2, (129 <= fuel2)%nat ->
        explorir_process_response fuel2 h' = Faulted (PastBuffer 128) h').
Proof.
  intros h h'.
  assert (E : explorir_process_response 3 h = Returned h') by reflexivity.
  split; [exact E|].
  exact (X18_returned_call_clears_buffer 3 h h' E).
Defined.
